(** * i18n-script: hardcoded-text checkers and their reporters

    A shallow embedding of the checkers of [i18n_script/] (the [.mjs]
    reporter, the toast checker and the JSX checker) and of the TypeScript
    rewrite ([ErrorReporter], [JSXHardcodeChecker]), followed by the
    properties of the specification that are stated about them.

    Conventions.
    - A JavaScript string is the list of its UTF-16 code units, so that
      [length], [trim], [padStart] and the character classes of the regular
      expressions count what the runtime counts.
    - Numbers are the integers the checkers handle (lines, columns, counts).
    - A plain object is a finite map from field names to values; the object
      that [groupErrorsByFile] uses as a dictionary is an association list in
      the order in which its properties were created, and [Object.entries]
      lists it as the runtime does: the keys that are array indices first,
      in ascending order, then the others in the order of creation.
    - The parser, the file system, the frame renderer and the colouring
      library are collaborators of the program: they are fields of an
      environment record and every result holds for all of them. *)

From Stdlib Require Import ZArith NArith List Bool Lia Ascii Decimal Permutation Sorted.
From stdpp Require Import gmap strings list.

(* ================================================================== *)
(** ** JavaScript strings *)
(* ================================================================== *)

Module JS.

Definition jsstring := list N.

(** *** Source literals

    The sources are UTF-8 files; a literal of the source is read as the
    UTF-16 code units the runtime holds for it. *)

Fixpoint bytes_of_string (s : string) : list N :=
  match s with
  | EmptyString => []
  | String a r => N_of_ascii a :: bytes_of_string r
  end.

Fixpoint utf8_code_points (bs : list N) (pending : nat) (acc : N) : list N :=
  match bs with
  | [] => []
  | b :: r =>
      match pending with
      | O =>
          if (b <? 128)%N then b :: utf8_code_points r 0 0%N
          else if (b <? 224)%N then utf8_code_points r 1 (b mod 32)%N
          else if (b <? 240)%N then utf8_code_points r 2 (b mod 16)%N
          else utf8_code_points r 3 (b mod 8)%N
      | S O => (acc * 64 + b mod 64)%N :: utf8_code_points r 0 0%N
      | S n => utf8_code_points r n (acc * 64 + b mod 64)%N
      end
  end.

Definition utf16_of_code_point (cp : N) : list N :=
  if (cp <? 65536)%N then [cp]
  else let v := (cp - 65536)%N in
       [(55296 + v / 1024)%N; (56320 + v mod 1024)%N].

Definition js (s : string) : jsstring :=
  flat_map utf16_of_code_point (utf8_code_points (bytes_of_string s) 0 0%N).
#[global] Arguments js : simpl never.

(** *** Character classes *)

Definition in_range (lo hi c : N) : bool := ((lo <=? c) && (c <=? hi))%N.

(** [\s] of a regular expression, which is also what [trim] strips:
    WhiteSpace and LineTerminator of ECMAScript. *)
Definition is_space (c : N) : bool :=
  in_range 9 13 c || (c =? 32)%N || (c =? 160)%N || (c =? 5760)%N
  || in_range 8192 8202 c || (c =? 8232)%N || (c =? 8233)%N
  || (c =? 8239)%N || (c =? 8287)%N || (c =? 12288)%N || (c =? 65279)%N.

(** What [.] refuses: the line terminators. *)
Definition is_line_terminator (c : N) : bool :=
  (c =? 10)%N || (c =? 13)%N || (c =? 8232)%N || (c =? 8233)%N.

Definition is_digit (c : N) : bool := in_range 48 57 c.
Definition is_upper (c : N) : bool := in_range 65 90 c.
Definition is_lower (c : N) : bool := in_range 97 122 c.
(** [가-힣] *)
Definition is_hangul (c : N) : bool := in_range 44032 55203 c.

(** *** String methods *)

Fixpoint trimStart (s : jsstring) : jsstring :=
  match s with
  | [] => []
  | c :: r => if is_space c then trimStart r else s
  end.

Definition trimEnd (s : jsstring) : jsstring := rev (trimStart (rev s)).

Definition trim (s : jsstring) : jsstring := trimEnd (trimStart s).

Definition is_empty (s : jsstring) : bool :=
  match s with [] => true | _ => false end.

Fixpoint jseqb (a b : jsstring) : bool :=
  match a, b with
  | [], [] => true
  | x :: a', y :: b' => (x =? y)%N && jseqb a' b'
  | _, _ => false
  end.

Fixpoint startsWith (s p : jsstring) : bool :=
  match p, s with
  | [], _ => true
  | x :: p', y :: s' => (x =? y)%N && startsWith s' p'
  | _ :: _, [] => false
  end.

(** [s.includes(p)] *)
Fixpoint includes (s p : jsstring) : bool :=
  startsWith s p
  || match s with
     | [] => false
     | _ :: r => includes r p
     end.

(** [arr.includes(x)] on an array of strings *)
Definition arr_includes (l : list jsstring) (x : jsstring) : bool :=
  existsb (jseqb x) l.

(** Case mapping, for the ASCII letters.  [suggestKey] changes the case of
    words it has first reduced to [[a-zA-Z0-9가-힣]], where no other
    character has a case mapping; a tag name that starts with a cased letter
    outside ASCII is outside the model. *)
Definition lower_char (c : N) : N := if is_upper c then (c + 32)%N else c.
Definition upper_char (c : N) : N := if is_lower c then (c - 32)%N else c.
Definition toLowerCase (s : jsstring) : jsstring := map lower_char s.
Definition toUpperCase (s : jsstring) : jsstring := map upper_char s.

(** [s.split(/\s+/)] *)
Fixpoint split_spaces_go (s cur : jsstring) (skipping : bool) : list jsstring :=
  match s with
  | [] => [rev cur]
  | c :: r =>
      if is_space c then
        if skipping then split_spaces_go r [] true
        else rev cur :: split_spaces_go r [] true
      else split_spaces_go r (c :: cur) false
  end.

Definition split_spaces (s : jsstring) : list jsstring :=
  split_spaces_go s [] false.

(** [s.split('\n')] *)
Fixpoint split_lines_go (s cur : jsstring) : list jsstring :=
  match s with
  | [] => [rev cur]
  | c :: r =>
      if (c =? 10)%N then rev cur :: split_lines_go r []
      else split_lines_go r (c :: cur)
  end.

Definition split_lines (s : jsstring) : list jsstring := split_lines_go s [].

(** The line feed and the double quote. *)
Definition nl : jsstring := [10%N].
Definition dquote : jsstring := [34%N].

(** [arr.join(sep)] *)
Fixpoint join (sep : jsstring) (l : list jsstring) : jsstring :=
  match l with
  | [] => []
  | [x] => x
  | x :: r => x ++ sep ++ join sep r
  end.

(** [c.repeat(n)] for a one-character string *)
Definition repeat_char (c : N) (n : Z) : jsstring := replicate (Z.to_nat n) c.

(** [s.padStart(n, ' ')] *)
Definition padStart (n : nat) (s : jsstring) : jsstring :=
  replicate (n - length s) 32%N ++ s.

(** Decimal rendering of an integer: [n.toString()] and template
    interpolation of a number. *)
Fixpoint digits_of_uint (u : Decimal.uint) : jsstring :=
  match u with
  | Nil => []
  | D0 r => 48%N :: digits_of_uint r
  | D1 r => 49%N :: digits_of_uint r
  | D2 r => 50%N :: digits_of_uint r
  | D3 r => 51%N :: digits_of_uint r
  | D4 r => 52%N :: digits_of_uint r
  | D5 r => 53%N :: digits_of_uint r
  | D6 r => 54%N :: digits_of_uint r
  | D7 r => 55%N :: digits_of_uint r
  | D8 r => 56%N :: digits_of_uint r
  | D9 r => 57%N :: digits_of_uint r
  end.

Definition toString (z : Z) : jsstring :=
  match Z.to_int z with
  | Decimal.Pos u => digits_of_uint u
  | Decimal.Neg u => 45%N :: digits_of_uint u
  end.

End JS.

Export JS.

(* ================================================================== *)
(** ** Regular expressions *)
(* ================================================================== *)

(** The regular-expression literals of the sources use character classes,
    concatenation, alternation, [?], [*], [+] and the anchors [^] and [$] at
    the two ends.  [test] is decided with derivatives. *)

Module RegExp.

Inductive re :=
| Never
| Empty
| Class (p : N -> bool)
| Seq (a b : re)
| Alt (a b : re)
| Star (a : re).

Fixpoint nullable (r : re) : bool :=
  match r with
  | Never => false
  | Empty => true
  | Class _ => false
  | Seq a b => nullable a && nullable b
  | Alt a b => nullable a || nullable b
  | Star _ => true
  end.

Definition seq_ (a b : re) : re :=
  match a, b with
  | Never, _ => Never
  | _, Never => Never
  | Empty, _ => b
  | _, _ => Seq a b
  end.

Definition alt_ (a b : re) : re :=
  match a, b with
  | Never, _ => b
  | _, Never => a
  | _, _ => Alt a b
  end.

Fixpoint deriv (c : N) (r : re) : re :=
  match r with
  | Never => Never
  | Empty => Never
  | Class p => if p c then Empty else Never
  | Seq a b =>
      if nullable a then alt_ (seq_ (deriv c a) b) (deriv c b)
      else seq_ (deriv c a) b
  | Alt a b => alt_ (deriv c a) (deriv c b)
  | Star a => seq_ (deriv c a) (Star a)
  end.

Fixpoint accepts (r : re) (s : jsstring) : bool :=
  match s with
  | [] => nullable r
  | c :: s' => accepts (deriv c r) s'
  end.

Definition char (c : N) : re := Class (N.eqb c).
Definition dot : re := Class (fun c => negb (is_line_terminator c)).
Definition anything : re := Star (Class (fun _ => true)).
Definition opt (r : re) : re := Alt Empty r.
Definition plus (r : re) : re := Seq r (Star r).

Fixpoint text (s : jsstring) : re :=
  match s with
  | [] => Empty
  | c :: r => Seq (char c) (text r)
  end.

(** A literal [/^body$/], [/^body/], [/body$/] or [/body/], without flags:
    [test] keeps no state between calls. *)
Record t := { from_start : bool; body : re; to_end : bool }.

Definition test (r : t) (s : jsstring) : bool :=
  accepts
    (Seq (if from_start r then Empty else anything)
       (Seq (body r) (if to_end r then Empty else anything)))
    s.

End RegExp.

(* ================================================================== *)
(** ** Values, syntax trees, the environment and the run monad *)
(* ================================================================== *)

(** One line of the context window that [createCodeContext] builds. *)
Record context_line := {
  lineNumber : jsstring;
  content : jsstring;
  isError : bool;
  ctx_column : option Z;
}.

(** The values held by literal nodes and by the fields of a finding.  The
    numbers of the model are integers.  [VOther] stands for any other value,
    with the text [String] gives for it. *)
Inductive value :=
| VUndefined
| VNull
| VBool (b : bool)
| VNum (z : Z)
| VStr (s : jsstring)
| VContext (c : list context_line)
| VOther (shown : jsstring).

(** A finding, a diagnostic: a plain object. *)
Abbreviation obj := (gmap string value).

(** [node.loc.start], when the node has a [loc]. *)
Record position := { line : Z; column : Z }.

(** The name of a JSX element or attribute. *)
Inductive jsx_name :=
| JSXIdentifier (name : jsstring)
| JSXMemberExpression
| JSXNamespacedName.

(** The nodes of the tree that [@babel/parser] builds, as far as the checkers
    look at them.  [Literal] is the literal node of ESTree, which the checkers
    test for; [@babel/parser] with the plugins the checkers pass builds
    [StringLiteral] and [NumericLiteral] instead.  A quasi of a template is
    held as its [value.raw].  [OtherNode] is any node of another type, with
    its [value] field when that type has one. *)
#[warnings="-register-all"]
Inductive node :=
| Identifier (loc : option position) (name : jsstring)
| StringLiteral (loc : option position) (v : jsstring)
| NumericLiteral (loc : option position) (v : Z)
| Literal (loc : option position) (v : value)
| TemplateLiteral (loc : option position) (quasis : list jsstring)
    (expressions : list node)
| JSXText (loc : option position) (v : jsstring)
| JSXExpressionContainer (loc : option position) (expression : node)
| ObjectExpression (loc : option position) (properties : list node)
| ObjectProperty (loc : option position) (key : node) (v : node)
| SpreadElement (loc : option position) (argument : node)
| ArrayExpression (loc : option position) (elements : list (option node))
| MemberExpression (loc : option position) (object : node) (property : node)
| CallExpression (loc : option position) (callee : node)
    (arguments : list node)
| JSXAttribute (loc : option position) (name : jsx_name) (v : option node)
| JSXSpreadAttribute (loc : option position)
| JSXElement (loc : option position) (name : jsx_name)
    (attributes : list node) (children : list node)
| OtherNode (loc : option position) (v : option value).

Definition node_loc (n : node) : option position :=
  match n with
  | Identifier l _ | StringLiteral l _ | NumericLiteral l _ | Literal l _
  | TemplateLiteral l _ _ | JSXText l _ | JSXExpressionContainer l _
  | ObjectExpression l _ | ObjectProperty l _ _ | SpreadElement l _
  | ArrayExpression l _ | MemberExpression l _ _ | CallExpression l _ _
  | JSXAttribute l _ _ | JSXSpreadAttribute l | JSXElement l _ _ _
  | OtherNode l _ => l
  end.

(** [n.loc?.start.line] and [n.loc?.start.column]; [None] is [undefined]. *)
Definition start_line (n : node) : option Z := line <$> node_loc n.
Definition start_column (n : node) : option Z := column <$> node_loc n.

(** [a || b] on numbers that may be [undefined]: [0] is falsy too. *)
Definition or_else (a : option Z) (b : Z) : Z :=
  match a with
  | Some z => if (z =? 0)%Z then b else z
  | None => b
  end.

(** The names every object inherits from [Object.prototype]: a lookup
    [table[name]] in an object literal finds them although the literal does
    not list them. *)
Definition objectPrototypeKeys : list jsstring :=
  map js ["constructor"; "__proto__"; "hasOwnProperty"; "isPrototypeOf";
          "propertyIsEnumerable"; "toLocaleString"; "toString"; "valueOf";
          "__defineGetter__"; "__defineSetter__"; "__lookupGetter__";
          "__lookupSetter__"].

(** The array index that a property key is, when it is one: the decimal
    text, without a leading zero, of an integer below [2^32 - 1]. *)
Definition array_index (key : jsstring) : option N :=
  match key with
  | [] => None
  | c :: r =>
      if forallb is_digit key && (negb (c =? 48)%N || is_empty r) then
        let n := fold_left (fun acc d => acc * 10 + (d - 48))%N key 0%N in
        if (n <? 4294967295)%N then Some n else None
      else None
  end.

Definition is_array_index {A} (entry : jsstring * A) : bool :=
  match array_index entry.1 with
  | Some _ => true
  | None => false
  end.

(** [Object.entries(o)] of a plain object, held as the list of its
    properties in the order of their creation: the properties whose key is
    an array index come first, in ascending order of the index, and the
    others follow in the order of creation. *)
Fixpoint insert_indexed {A} (i : N) (entry : A) (sorted : list (N * A)) : list (N * A) :=
  match sorted with
  | [] => [(i, entry)]
  | (j, e) :: r =>
      if (i <? j)%N then (i, entry) :: sorted
      else (j, e) :: insert_indexed i entry r
  end.

Fixpoint indexed_entries {A} (o : list (jsstring * A)) : list (N * (jsstring * A)) :=
  match o with
  | [] => []
  | entry :: r =>
      match array_index entry.1 with
      | Some i => insert_indexed i entry (indexed_entries r)
      | None => indexed_entries r
      end
  end.

Definition Object_entries {A} (o : list (jsstring * A)) : list (jsstring * A) :=
  map snd (indexed_entries o)
  ++ List.filter (fun entry => negb (is_array_index entry)) o.

(** The own entry of a table, when it has one. *)
Fixpoint lookup_own {A} (table : list (jsstring * A)) (k : jsstring) : option A :=
  match table with
  | [] => None
  | (k', v) :: r => if jseqb k' k then Some v else lookup_own r k
  end.

(** [n.name] and [n.value], for the node types that have the field.  A field
    that holds a node is an object to whoever reads it as a value. *)
Definition name_field (n : node) : option value :=
  match n with
  | Identifier _ name => Some (VStr name)
  | _ => None
  end.

Definition value_field (n : node) : option value :=
  match n with
  | StringLiteral _ v | JSXText _ v => Some (VStr v)
  | NumericLiteral _ v => Some (VNum v)
  | Literal _ v => Some v
  | ObjectProperty _ _ _ | JSXAttribute _ _ (Some _) =>
      Some (VOther (js "[object Object]"))
  | JSXAttribute _ _ None => Some VNull
  | OtherNode _ v => v
  | _ => None
  end.

(** [String(v)] and the interpolation of [v] in a template; [None] is
    [undefined]. *)
Definition String_ (v : option value) : jsstring :=
  match v with
  | None | Some VUndefined => js "undefined"
  | Some VNull => js "null"
  | Some (VBool true) => js "true"
  | Some (VBool false) => js "false"
  | Some (VNum z) => toString z
  | Some (VStr s) => s
  | Some (VContext c) => join (js ",") (map (fun _ => js "[object Object]") c)
  | Some (VOther shown) => shown
  end.

(** The truth value of [v] in a condition. *)
Definition truthy (v : option value) : bool :=
  match v with
  | None | Some VUndefined | Some VNull => false
  | Some (VBool b) => b
  | Some (VNum z) => negb (z =? 0)%Z
  | Some (VStr s) => negb (is_empty s)
  | Some (VContext _) | Some (VOther _) => true
  end.

(** [a || b] *)
Definition or_value (a b : option value) : option value :=
  if truthy a then a else b.

(** A field that holds a number; anything else counts as [NaN] ([None]).
    Every checker stores numbers in [line] and [column]. *)
Definition number_field (o : obj) (k : string) : option Z :=
  match o !! k with
  | Some (VNum z) => Some z
  | _ => None
  end.

(** *** The collaborators *)

(** What [codeFrameColumns] is called with: [generateCodeSnippet] passes the
    content, the start and the options [{ highlightCode: true, linesAbove,
    linesBelow }]; [createCodeFrame] passes the joined lines and one object
    that holds the start, the end, the context lines and the message. *)
Inductive frame_request :=
| FrameAt (content : jsstring) (line column : Z) (linesAbove linesBelow : Z)
| FrameSpan (rawLines : jsstring) (line column : Z) (contextLines : Z)
    (message : option jsstring).

Record env := {
  (** [fs.readFileSync(path, 'utf8')]; [None] when it throws. *)
  readFileSync : jsstring -> option jsstring;
  (** [fs.statSync(path).isDirectory()]; [None] when [statSync] throws. *)
  isDirectory : jsstring -> option bool;
  (** [parse(code, ...)] followed by [traverse]: the nodes of the tree in the
      order [traverse] enters them, or the message of the error that [parse]
      throws. *)
  parse : jsstring -> jsstring + list node;
  (** [glob(include, { ignore })]: the files, or the message of its error. *)
  glob : list jsstring -> list jsstring -> jsstring + list jsstring;
  (** [new RegExp(source)] as its [test], or the message of the [SyntaxError]
      when the source is refused. *)
  newRegExp : jsstring -> jsstring + (jsstring -> bool);
  (** [chalk.<style>(text)], the style written as in the source. *)
  chalk : string -> jsstring -> jsstring;
  (** [codeFrameColumns]; [None] when it throws. *)
  codeFrameColumns : frame_request -> option jsstring;
}.

Record log_entry := { channel : string; text : jsstring }.

(** *** Runs

    A method runs on the state of its object, writes to the console, and
    returns, throws, or ends the process. *)

Module Run.

Inductive result (A : Type) :=
| Returned (a : A)
| Thrown (message : jsstring)
| Exited (code : Z).
Arguments Returned {A} a.
Arguments Thrown {A} message.
Arguments Exited {A} code.

Definition M (S A : Type) : Type := S -> result A * S * list log_entry.

Definition ret {S A} (a : A) : M S A := fun s => (Returned a, s, []).

Definition bind {S A B} (m : M S A) (k : A -> M S B) : M S B :=
  fun s =>
    match m s with
    | (Returned a, s', out) =>
        let '(r, s'', out') := k a s' in (r, s'', out ++ out')
    | (Thrown e, s', out) => (Thrown e, s', out)
    | (Exited c, s', out) => (Exited c, s', out)
    end.

Definition throw {S A} (e : jsstring) : M S A := fun s => (Thrown e, s, []).

(** [process.exit(code)] *)
Definition exit {S A} (c : Z) : M S A := fun s => (Exited c, s, []).

Definition get {S} : M S S := fun s => (Returned s, s, []).

Definition modify {S} (f : S -> S) : M S unit := fun s => (Returned tt, f s, []).

(** [console.log], [console.warn], [console.error]; several arguments are
    printed with a space between them. *)
Definition log {S} (ch : string) (t : jsstring) : M S unit :=
  fun s => (Returned tt, s, [{| channel := ch; text := t |}]).

(** [try { body } catch (error) { handler }]: the exit of the process is not
    caught. *)
Definition try_catch {S A} (body : M S A) (handler : jsstring -> M S A) : M S A :=
  fun s =>
    match body s with
    | (Thrown e, s', out) =>
        let '(r, s'', out') := handler e s' in (r, s'', out ++ out')
    | r => r
    end.

(** [for (const x of l) { ... errors.push(...f(x)) }] *)
Fixpoint flat_mapM {S A B} (f : A -> M S (list B)) (l : list A) : M S (list B) :=
  match l with
  | [] => ret []
  | x :: r => bind (f x) (fun ys => bind (flat_mapM f r) (fun zs => ret (ys ++ zs)))
  end.

(** The three components of a run. *)
Definition outcome {S A} (r : result A * S * list log_entry) : result A := r.1.1.
Definition final {S A} (r : result A * S * list log_entry) : S := r.1.2.
Definition printed {S A} (r : result A * S * list log_entry) : list log_entry := r.2.

End Run.

Export Run.

Notation "'let!' x ':=' m 'in' k" := (bind m (fun x => k))
  (at level 10, x name, m at level 100, k at level 200).
Notation "m1 ';;;' m2" := (bind m1 (fun _ => m2))
  (at level 100, m2 at level 200, right associativity).

(* ================================================================== *)
(** ** [enhanced-error-reporter.mjs]: EnhancedErrorReporter *)
(* ================================================================== *)

Module EnhancedErrorReporter.

(** The state of a reporter is its [fileCache]. *)
Abbreviation state := (gmap jsstring (list jsstring)).

Definition initial : state := ∅.

Definition getFileLines (E : env) (filePath : jsstring) : M state (list jsstring) :=
  fun fileCache =>
    match fileCache !! filePath with
    | Some lines => (Returned lines, fileCache, [])
    | None =>
        let lines :=
          match readFileSync E filePath with
          | Some content => split_lines content
          | None => []
          end in
        (Returned lines, <[filePath := lines]> fileCache, [])
    end.

(** [contextLines] is left to its default, [2], by the only caller.  A [line]
    that is not a number gives [NaN] bounds, and the loop does not run. *)
Definition createCodeContext (E : env) (filePath : jsstring)
    (line : option Z) (column : option Z) : M state (list context_line) :=
  let! lines := getFileLines E filePath in
  ret match line with
      | None => []
      | Some line =>
          let startLine := Z.max 1 (line - 2) in
          let endLine := Z.min (Z.of_nat (length lines)) (line + 2) in
          map (fun i =>
                 {| lineNumber := padStart 3 (toString i);
                    content := nth (Z.to_nat (i - 1)) lines [];
                    isError := (i =? line)%Z;
                    ctx_column :=
                      if (i =? line)%Z then Some (default 0%Z column)
                      else None |})
              (seqZ startLine (endLine - startLine + 1))
      end.

Definition generateCodeSnippet (E : env) (context : list context_line)
    (column : option Z) : jsstring :=
  join nl
    (flat_map
       (fun c =>
          if isError c then
            chalk E "red" (lineNumber c ++ js "| " ++ content c)
            :: (if (0 <? default 0 column)%Z then
                  let padding := repeat_char 32 (Z.of_nat (length (lineNumber c)) + 1) in
                  let arrow := repeat_char 32 (default 0%Z column)
                                 ++ chalk E "red" (js "^^^") in
                  [chalk E "red" (padding ++ js "| " ++ arrow)]
                else [])
          else [chalk E "gray" (lineNumber c ++ js "| " ++ content c)])
       context).

(** The object literal that [formatError] returns:
    [{ ...error, filePath, context, codeSnippet }]. *)
Definition formatted (E : env) (error : obj) (filePath : jsstring)
    (context : list context_line) : obj :=
  <["codeSnippet" :=
      VStr (generateCodeSnippet E context (number_field error "column"))]>
    (<["context" := VContext context]> (<["filePath" := VStr filePath]> error)).

Definition formatError (E : env) (error : obj) (filePath : jsstring) : M state obj :=
  let! context :=
    createCodeContext E filePath (number_field error "line")
      (number_field error "column") in
  ret (formatted E error filePath context).

(** [formatError] with its argument passed by reference: the objects of the
    run live in a heap, [error] is the address of the finding, and the
    object literal of the [return] is a new object. *)
Definition formatError_at (E : env) (error : nat) (filePath : jsstring) :
    M (gmap nat obj * state) nat :=
  fun '(objects, fileCache) =>
    match objects !! error with
    | None =>
        (Thrown (js "Cannot read properties of undefined (reading 'line')"),
         (objects, fileCache), [])
    | Some finding =>
        match formatError E finding filePath fileCache with
        | (Returned e, fileCache', out) =>
            let r := fresh (dom objects) in
            (Returned r, (<[r := e]> objects, fileCache'), out)
        | (Thrown m, fileCache', out) => (Thrown m, (objects, fileCache'), out)
        | (Exited c, fileCache', out) => (Exited c, (objects, fileCache'), out)
        end
    end.

(** [groups[file]] in [groupErrorsByFile]: the own entry, or what the empty
    object literal inherits. *)
Inductive group_slot :=
| Own (errors : list obj)
| Inherited
| Missing.

Fixpoint group_slot_of (groups : list (jsstring * list obj)) (file : jsstring) : group_slot :=
  match groups with
  | [] => if arr_includes objectPrototypeKeys file then Inherited else Missing
  | (f, errors) :: r => if jseqb f file then Own errors else group_slot_of r file
  end.

Fixpoint push_to_group (groups : list (jsstring * list obj)) (file : jsstring)
    (error : obj) : list (jsstring * list obj) :=
  match groups with
  | [] => []
  | (f, errors) :: r =>
      if jseqb f file then (f, errors ++ [error]) :: r
      else (f, errors) :: push_to_group r file error
  end.

(** [error.filePath] as a key of [groups]. *)
Definition fileOf (error : obj) : jsstring := String_ (error !! "filePath").

(** One step of the [reduce]; [None]: [groups[file].push] is not a function,
    a [TypeError]. *)
Definition groupStep (acc : option (list (jsstring * list obj))) (error : obj) :
    option (list (jsstring * list obj)) :=
  match acc with
  | None => None
  | Some groups =>
      match group_slot_of groups (fileOf error) with
      | Own _ => Some (push_to_group groups (fileOf error) error)
      | Missing => Some (groups ++ [(fileOf error, [error])])
      | Inherited => None
      end
  end.

(** The object that the [reduce] builds, as the list of its properties in
    the order of their creation. *)
Definition groupErrorsByFile (errors : list obj) : option (list (jsstring * list obj)) :=
  fold_left groupStep errors (Some []).

(** Every group holds diagnostics of its own file. *)
Definition grouped (groups : list (jsstring * list obj)) : Prop :=
  Forall (fun g => Forall (fun e => fileOf e = g.1) g.2) groups.

Definition rule (E : env) : jsstring := chalk E "gray" (repeat_char 9472 80).

Definition generateFixGuide (E : env) : jsstring :=
  chalk E "cyan.bold"
    (nl ++ js "📚 수정 가이드:" ++ nl
     ++ chalk E "cyan" (js "1. JSX 텍스트:")
     ++ js " <div>하드코딩</div> → <div>{t('key')}</div>" ++ nl
     ++ chalk E "cyan" (js "2. 속성 값:")
     ++ js " <img alt=" ++ dquote ++ js "하드코딩" ++ dquote
     ++ js " /> → <img alt={t('alt.key')} />" ++ nl
     ++ chalk E "cyan" (js "3. Toast 메시지:")
     ++ js " message.error('하드코딩') → message.error(t('error.key'))" ++ nl
     ++ chalk E "cyan" (js "4. 객체 속성:")
     ++ js " title: '하드코딩' → title: t('title.key')" ++ nl).

(** An element of the [report] array as [join] renders it. *)
Definition joined (v : option value) : jsstring :=
  match v with
  | None | Some VUndefined | Some VNull => []
  | _ => String_ v
  end.

Fixpoint renderErrors (E : env) (fileErrors : list obj) (index : nat)
    (count : nat) : list jsstring :=
  match fileErrors with
  | [] => []
  | error :: r =>
      [nl ++ chalk E "red" (js "Error " ++ toString (Z.of_nat (index + 1)) ++ js ":")
         ++ js " " ++ String_ (error !! "message")]
      ++ (if truthy (error !! "suggestion")
          then [chalk E "blue" (js "💡 제안: " ++ String_ (error !! "suggestion"))]
          else [])
      ++ [joined (error !! "codeSnippet")]
      ++ (if (index <? count - 1)%nat then [[]] else [])
      ++ renderErrors E r (S index) count
  end.

Definition renderFile (E : env) (entry : jsstring * list obj) : list jsstring :=
  let '(filePath, fileErrors) := entry in
  [chalk E "yellow.bold"
     (js "📁 " ++ filePath ++ js " ("
        ++ toString (Z.of_nat (length fileErrors)) ++ js "개 에러)");
   rule E]
  ++ renderErrors E fileErrors 0 (length fileErrors)
  ++ [nl ++ rule E ++ nl].

Definition header (E : env) (errors : list obj) : jsstring :=
  chalk E "red.bold"
    (js "🚨 총 " ++ toString (Z.of_nat (length errors)) ++ js "개의 하드코딩 발견!" ++ nl).

(** The [report] array of [generateReport], before it is joined. *)
Definition reportLines (E : env) (errors : list obj)
    (groupedErrors : list (jsstring * list obj)) : list jsstring :=
  [header E errors]
  ++ flat_map (renderFile E) (Object_entries groupedErrors)
  ++ [generateFixGuide E].

Definition generateReport (E : env) (errors : list obj) : option jsstring :=
  if (length errors =? 0)%nat then
    Some (chalk E "green" (js "✅ 하드코딩된 콘텐츠가 발견되지 않았습니다!"))
  else
    match groupErrorsByFile errors with
    | None => None
    | Some groupedErrors => Some (join nl (reportLines E errors groupedErrors))
    end.

End EnhancedErrorReporter.

(* ================================================================== *)
(** ** [enhanced-toast-checker.mjs]: EnhancedToastChecker *)
(* ================================================================== *)

(** The checker that [check-all-hardcoding.mjs] runs.  The repository holds
    two copies of it; this is the one whose [CallExpression] visitor reads
    [path.node.callee] and expands object arguments.  [isAllowedPattern],
    [suggestKey] and [getContextPrefix] have the same text in both. *)

Module EnhancedToastChecker.

Import EnhancedErrorReporter.

(** An entry of [allowPatterns]: a [RegExp], held as its [test], or a string
    that is looked for with [includes]. *)
Inductive pattern :=
| RegExpPattern (test : jsstring -> bool)
| StringPattern (s : jsstring).

Record options := {
  toastFunctions : list jsstring;
  objectProperties : list jsstring;
  allowPatterns : list pattern;
}.

Definition literal (from_start : bool) (body : RegExp.re) (to_end : bool) : pattern :=
  RegExpPattern
    (RegExp.test {| RegExp.from_start := from_start; RegExp.body := body;
                    RegExp.to_end := to_end |}).

Definition quote : RegExp.re :=
  RegExp.Class (fun c => (c =? 39)%N || (c =? 34)%N).

Definition defaultAllowPatterns : list pattern :=
  [ (* /^t\(Q/ where Q is the class of the two quotes *)
    literal true (RegExp.Seq (RegExp.text (js "t(")) quote) false;
    (* /^i18n\./ *)
    literal true (RegExp.text (js "i18n.")) false;
    (* /^\$\{.*\}$/ *)
    literal true
      (RegExp.Seq (RegExp.text (js "${"))
         (RegExp.Seq (RegExp.Star RegExp.dot) (RegExp.text (js "}")))) true;
    (* /^(true|false|null|undefined)$/ *)
    literal true
      (RegExp.Alt (RegExp.text (js "true"))
         (RegExp.Alt (RegExp.text (js "false"))
            (RegExp.Alt (RegExp.text (js "null")) (RegExp.text (js "undefined")))))
      true;
    (* /^\d+$/ *)
    literal true (RegExp.plus (RegExp.Class is_digit)) true;
    (* /^Q?\s*Q?$/ *)
    literal true
      (RegExp.Seq (RegExp.opt quote)
         (RegExp.Seq (RegExp.Star (RegExp.Class is_space)) (RegExp.opt quote)))
      true;
    (* /^console\./ *)
    literal true (RegExp.text (js "console.")) false;
    (* /^process\.env\./ *)
    literal true (RegExp.text (js "process.env.")) false;
    (* /^import\(/ *)
    literal true (RegExp.text (js "import(")) false;
    (* /^require\(/ *)
    literal true (RegExp.text (js "require(")) false ].

Definition defaultOptions : options :=
  {| toastFunctions :=
       map js ["message.error"; "message.success"; "message.warning";
               "message.info"; "message.loading";
               "Message.error"; "Message.success"; "Message.warning";
               "Message.info";
               "toast.error"; "toast.success"; "toast.warning"; "toast.info";
               "notification.error"; "notification.success";
               "notification.warning"; "notification.info"; "notification.open";
               "alert"; "confirm"; "prompt";
               "showMessage"; "showError"; "showSuccess"; "showWarning";
               "message"];
     objectProperties :=
       map js ["title"; "message"; "description"; "content"; "label";
               "placeholder"; "tooltip"; "helpText"; "errorMessage";
               "successMessage"; "warningMessage"; "text"; "body"; "detail"];
     allowPatterns := defaultAllowPatterns |}.

(** *** [suggestKey] *)

(** [prefixMap[context] || 'common']: the own entries of the table, and what
    the table inherits (rendered as the runtime prints a built-in). *)
Definition prefixMap : list (jsstring * jsstring) :=
  map (fun '(k, v) => (js k, js v))
    [("message.error", "error"); ("message.success", "success");
     ("message.warning", "warning"); ("message.info", "info");
     ("Message.error", "error"); ("Message.success", "success");
     ("Message.warning", "warning");
     ("alert", "alert"); ("confirm", "confirm"); ("title", "title");
     ("description", "description"); ("label", "label");
     ("placeholder", "placeholder"); ("tooltip", "tooltip");
     ("helpText", "help")].

Definition inherited_text (name : jsstring) : jsstring :=
  if jseqb name (js "__proto__") then js "[object Object]"
  else if jseqb name (js "constructor") then js "function Object() { [native code] }"
  else js "function " ++ name ++ js "() { [native code] }".

Definition getContextPrefix (context : jsstring) : jsstring :=
  match lookup_own prefixMap context with
  | Some prefix => prefix
  | None =>
      if arr_includes objectPrototypeKeys context then inherited_text context
      else js "common"
  end.

(** [/[^a-zA-Z0-9\s가-힣]/g] removes what this keeps. *)
Definition kept (c : N) : bool :=
  is_lower c || is_upper c || is_digit c || is_space c || is_hangul c.

Definition capitalize (word : jsstring) : jsstring :=
  match word with
  | [] => []
  | c :: r => toUpperCase [c] ++ toLowerCase r
  end.

Fixpoint camel (words : list jsstring) (index : nat) : list jsstring :=
  match words with
  | [] => []
  | word :: r =>
      (if (index =? 0)%nat then toLowerCase word
       else if existsb is_hangul word then word
       else capitalize word)
      :: camel r (S index)
  end.

Definition cleanValue (v : jsstring) : jsstring :=
  join [] (camel (split_spaces (trim (List.filter kept v))) 0).

(** [value.replace] is not a function unless [value] is a string: [None] is
    that [TypeError]. *)
Definition suggestKey (context : jsstring) (v : value) : option jsstring :=
  match v with
  | VStr s => Some (getContextPrefix context ++ js "." ++ cleanValue s)
  | _ => None
  end.

(** *** The classifier *)

Fixpoint getCalleeText (n : node) : jsstring :=
  match n with
  | MemberExpression _ object property =>
      getCalleeText object ++ js "." ++ String_ (name_field property)
  | Identifier _ name => name
  | _ => []
  end.

Definition replace_stars (func : jsstring) : jsstring :=
  flat_map (fun c => if (c =? 42)%N then js ".*" else [c]) func.

(** [toastFunctions.some(...)]: it stops at the first entry that matches, and
    an entry with a [*] is compiled when it is reached. *)
Fixpoint isToastFunction_some (E : env) (funcs : list jsstring)
    (calleeText : jsstring) : jsstring + bool :=
  match funcs with
  | [] => inr false
  | func :: r =>
      if includes func (js "*") then
        match newRegExp E (js "^" ++ replace_stars func ++ js "$") with
        | inl e => inl e
        | inr test => if test calleeText then inr true
                      else isToastFunction_some E r calleeText
        end
      else if jseqb calleeText func then inr true
      else isToastFunction_some E r calleeText
  end.

Definition isToastFunction (E : env) (o : options) (calleeText : jsstring) : jsstring + bool :=
  isToastFunction_some E (toastFunctions o) calleeText.

Definition isUserFacingProperty (o : options) (n : node) : bool :=
  match n with
  | ObjectProperty _ (Identifier _ name) _ => arr_includes (objectProperties o) name
  | ObjectProperty _ (Literal _ (VStr s)) _ => arr_includes (objectProperties o) s
  | _ => false
  end.

Definition matches (value : jsstring) (p : pattern) : bool :=
  match p with
  | RegExpPattern test => test value
  | StringPattern s => includes value s
  end.

Definition isAllowedPattern (o : options) (value : jsstring) : bool :=
  if is_empty value || is_empty (trim value) then true
  else existsb (matches value) (allowPatterns o).

Definition MIN_STATIC_LENGTH : nat := 3.

Definition hasSignificantStaticContent (templateLiteralNode : node) : bool :=
  match templateLiteralNode with
  | TemplateLiteral _ quasis _ =>
      let totalStaticLength :=
        fold_left (fun total staticText => total + length staticText) quasis 0 in
      (MIN_STATIC_LENGTH <=? totalStaticLength)%nat
  | _ => false
  end.

(** [hasHardcodedObjectProperties], with [isHardcodedValue] as an argument:
    the two functions call each other. *)
Definition hasHardcodedObjectProperties_of (isHardcodedValue : node -> bool)
    (o : options) (objectNode : node) : bool :=
  match objectNode with
  | ObjectExpression _ properties =>
      existsb
        (fun prop =>
           match prop with
           | ObjectProperty _ _ v =>
               if isUserFacingProperty o prop then isHardcodedValue v else false
           | SpreadElement _ argument => isHardcodedValue argument
           | _ => false
           end)
        properties
  | _ => false
  end.

Fixpoint isHardcodedValue (o : options) (n : node) : bool :=
  match n with
  | Literal _ (VStr s) | StringLiteral _ s => negb (isAllowedPattern o s)
  | TemplateLiteral _ quasis expressions =>
      if (length expressions =? 0)%nat
      then negb (isAllowedPattern o (hd [] quasis))
      else hasSignificantStaticContent n
  | JSXExpressionContainer _ expression => isHardcodedValue o expression
  | ObjectExpression _ _ =>
      hasHardcodedObjectProperties_of (isHardcodedValue o) o n
  | ArrayExpression _ elements =>
      existsb
        (fun element =>
           match element with
           | Some e => isHardcodedValue o e
           | None => false
           end)
        elements
  | _ => false
  end.

Definition hasHardcodedObjectProperties (o : options) (objectNode : node) : bool :=
  hasHardcodedObjectProperties_of (isHardcodedValue o) o objectNode.

Definition findHardcodedArguments (o : options) (args : list node) : list node :=
  List.filter (isHardcodedValue o) args.

Fixpoint getStringValue (n : node) : value :=
  match n with
  | Literal _ v => v
  | StringLiteral _ s => VStr s
  | TemplateLiteral _ quasis expressions =>
      if (length expressions =? 0)%nat then VStr (hd [] quasis)
      else
        let staticParts := join [] quasis in
        if is_empty staticParts then VStr (js "[템플릿 리터럴]") else VStr staticParts
  | JSXExpressionContainer _ expression => getStringValue expression
  | _ => VStr (js "[복잡한 표현식]")
  end.

(** [prop.key.name || prop.key.value] *)
Definition propertyName_of (key : node) : option value :=
  or_value (name_field key) (value_field key).

(** The finding for one property of an object argument; [inl] is the
    [TypeError] of [suggestKey]. *)
Definition propertyErrorInfo (functionName : jsstring) (prop key v : node) : jsstring + obj :=
  let propertyName := propertyName_of key in
  match suggestKey (String_ propertyName) (getStringValue v) with
  | None => inl (js "value.replace is not a function")
  | Some suggested =>
      inr (list_to_map
             [("line", VNum (or_else (start_line v) (or_else (start_line prop) 0)));
              ("column", VNum (or_else (start_column v) (or_else (start_column prop) 0)));
              ("message",
                VStr (js "하드코딩된 " ++ functionName ++ js " 객체 속성 "
                        ++ dquote ++ String_ propertyName ++ dquote));
              ("type", VStr (js "toast-object-property"));
              ("value", getStringValue v);
              ("functionName", VStr functionName);
              ("propertyName", default VUndefined propertyName);
              ("suggestion",
                VStr (String_ propertyName ++ js ": t('" ++ suggested ++ js "')"))])
  end.

Definition getObjectPropertyErrors (E : env) (o : options) (objectNode : node)
    (functionName filePath : jsstring) : M state (list obj) :=
  match objectNode with
  | ObjectExpression _ properties =>
      flat_mapM
        (fun prop =>
           match prop with
           | ObjectProperty _ key v =>
               if isUserFacingProperty o prop && isHardcodedValue o v then
                 match propertyErrorInfo functionName prop key v with
                 | inl e => throw e
                 | inr errorInfo =>
                     let! enhancedError := formatError E errorInfo filePath in
                     ret [enhancedError]
                 end
               else ret []
           | _ => ret []
           end)
        properties
  | _ => ret []
  end.

(** The finding for an argument that is not an object literal. *)
Definition argumentErrorInfo (calleeText : jsstring) (arg : node) : jsstring + obj :=
  match suggestKey calleeText (getStringValue arg) with
  | None => inl (js "value.replace is not a function")
  | Some suggested =>
      inr (list_to_map
             [("line", VNum (or_else (start_line arg) 0));
              ("column", VNum (or_else (start_column arg) 0));
              ("message", VStr (js "하드코딩된 " ++ calleeText ++ js " 메시지"));
              ("type", VStr (js "toast-function"));
              ("value", getStringValue arg);
              ("functionName", VStr calleeText);
              ("suggestion",
                VStr (calleeText ++ js "(t('" ++ suggested ++ js "'))"))])
  end.

(** What the visitor does with one hardcoded argument. *)
Definition argumentErrors (E : env) (o : options) (calleeText filePath : jsstring)
    (arg : node) : M state (list obj) :=
  match arg with
  | ObjectExpression _ _ => getObjectPropertyErrors E o arg calleeText filePath
  | _ =>
      match argumentErrorInfo calleeText arg with
      | inl e => throw e
      | inr errorInfo =>
          let! enhancedError := formatError E errorInfo filePath in
          ret [enhancedError]
      end
  end.

(** The [CallExpression] visitor of [checkFile]: the findings it pushes. *)
Definition visitCallExpression (E : env) (o : options) (filePath : jsstring)
    (n : node) : M state (list obj) :=
  match n with
  | CallExpression _ callee arguments =>
      let calleeText := getCalleeText callee in
      match isToastFunction E o calleeText with
      | inl e => throw e
      | inr false => ret []
      | inr true =>
          flat_mapM (argumentErrors E o calleeText filePath)
            (findHardcodedArguments o arguments)
      end
  | _ => ret []
  end.

(** *** What the visitor reports

    The properties of an object argument that [getObjectPropertyErrors]
    reports, and the finding it builds for one of them. *)

Definition reportedProperty (o : options) (prop : node) : bool :=
  match prop with
  | ObjectProperty _ _ v => isUserFacingProperty o prop && isHardcodedValue o v
  | _ => false
  end.

Definition findingOfProperty (functionName filePath : jsstring) (prop : node) (e : obj) : Prop :=
  match prop with
  | ObjectProperty _ key v =>
      e !! "type" = Some (VStr (js "toast-object-property"))
      /\ e !! "propertyName" = Some (default VUndefined (propertyName_of key))
      /\ e !! "value" = Some (getStringValue v)
      /\ e !! "line" = Some (VNum (or_else (start_line v) (or_else (start_line prop) 0)))
      /\ e !! "column" = Some (VNum (or_else (start_column v) (or_else (start_column prop) 0)))
      /\ e !! "functionName" = Some (VStr functionName)
      /\ e !! "filePath" = Some (VStr filePath)
  | _ => False
  end.

(** The finding for an argument that is reported as a whole. *)
Definition findingOfArgument (calleeText filePath : jsstring) (arg : node) (e : obj) : Prop :=
  e !! "type" = Some (VStr (js "toast-function"))
  /\ e !! "value" = Some (getStringValue arg)
  /\ e !! "line" = Some (VNum (or_else (start_line arg) 0))
  /\ e !! "column" = Some (VNum (or_else (start_column arg) 0))
  /\ e !! "functionName" = Some (VStr calleeText)
  /\ e !! "filePath" = Some (VStr filePath).

(** The findings for one hardcoded argument: those of its reported
    properties when it is an object literal, one for the argument
    otherwise. *)
Definition findingsOfArgument (o : options) (calleeText filePath : jsstring)
    (arg : node) (es : list obj) : Prop :=
  match arg with
  | ObjectExpression _ properties =>
      Forall2 (findingOfProperty calleeText filePath)
        (List.filter (reportedProperty o) properties) es
  | _ => exists e, es = [e] /\ findingOfArgument calleeText filePath arg e
  end.

End EnhancedToastChecker.

(* ================================================================== *)
(** ** The options of the JSX checkers *)
(* ================================================================== *)

Module JSXOptions.

(** [this.options] of the two JSX checkers ([Options] of
    [JSXHardcodeChecker.interface.ts]); [modules] is never read. *)
Record Options := {
  opt_allowStrings : bool;
  opt_allowNumbers : bool;
  opt_checkProps : list jsstring;
  opt_dom : list (jsstring * list jsstring);
}.

(** The options that the constructor of [JSXHardcodedChecker] sets. *)
Definition defaultOptions : Options :=
  {| opt_allowStrings := false;
     opt_allowNumbers := true;
     opt_checkProps := map js ["title"; "aria-label"; "alt"; "placeholder"];
     opt_dom :=
       [(js "img", map js ["alt"; "title"; "aria-label"]);
        (js "input", map js ["placeholder"; "title"; "aria-label"]);
        (js "button", map js ["title"; "aria-label"]);
        (js "a", map js ["title"; "aria-label"]);
        (js "area", map js ["alt"; "title"; "aria-label"])] |}.

(** What [getOptionsForNode] returns: [this.options], an entry of [dom]
    (which has [checkProps] only), or a member that [dom] inherits (which has
    none of the three).  The callers destructure it with defaults. *)
Record policy := {
  policy_checkProps : option (list jsstring);
  policy_allowStrings : option bool;
  policy_allowNumbers : option bool;
}.

Definition policy_of_options (o : Options) : policy :=
  {| policy_checkProps := Some (opt_checkProps o);
     policy_allowStrings := Some (opt_allowStrings o);
     policy_allowNumbers := Some (opt_allowNumbers o) |}.

Definition policy_of_dom (props : list jsstring) : policy :=
  {| policy_checkProps := Some props;
     policy_allowStrings := None;
     policy_allowNumbers := None |}.

Definition policy_inherited : policy :=
  {| policy_checkProps := None;
     policy_allowStrings := None;
     policy_allowNumbers := None |}.

(** [this.options.dom[tagName] || this.options] *)
Definition dom_or_options (o : Options) (tagName : jsstring) : policy :=
  match lookup_own (opt_dom o) tagName with
  | Some props => policy_of_dom props
  | None =>
      if arr_includes objectPrototypeKeys tagName then policy_inherited
      else policy_of_options o
  end.

End JSXOptions.

(* ================================================================== *)
(** ** [jsx-hardcoded-checker.mjs]: JSXHardcodedChecker *)
(* ================================================================== *)

Module JSXHardcodedChecker.

Import EnhancedErrorReporter JSXOptions.

(** [inl] is the [TypeError] of [tagName[0].toLowerCase()] when the name is
    not a string: the [name] of a namespaced name is a node. *)
Definition getOptionsForNode (o : Options) (n : node) : jsstring + policy :=
  match n with
  | JSXElement _ (JSXIdentifier tagName) _ _ =>
      match tagName with
      | [] => inr (policy_of_options o)
      | c :: _ =>
          if (c =? lower_char c)%N then inr (dom_or_options o tagName)
          else inr (policy_of_options o)
      end
  | JSXElement _ JSXMemberExpression _ _ => inr (policy_of_options o)
  | JSXElement _ JSXNamespacedName _ _ =>
      inl (js "Cannot read properties of undefined (reading 'toLowerCase')")
  | _ => inl (js "Cannot read properties of undefined (reading 'name')")
  end.

Fixpoint isInvalidContent_node (n : node) (allowStrings allowNumbers : bool) : bool :=
  match n with
  | JSXText _ v => if is_empty (trim v) then false else negb allowStrings
  | Literal _ (VStr s) => if is_empty (trim s) then false else negb allowStrings
  | Literal _ (VNum _) => negb allowNumbers
  | TemplateLiteral _ _ _ => negb allowStrings
  | JSXExpressionContainer _ expression =>
      isInvalidContent_node expression allowStrings allowNumbers
  | _ => false
  end.

(** [node] may be [null]: an attribute without a value. *)
Definition isInvalidContent (n : option node) (allowStrings allowNumbers : bool) : bool :=
  match n with
  | None => false
  | Some n => isInvalidContent_node n allowStrings allowNumbers
  end.

Fixpoint getStringValue_node (n : node) : jsstring :=
  match n with
  | JSXText _ v => v
  | Literal _ v => String_ (Some v)
  | TemplateLiteral _ quasis expressions =>
      if (length expressions =? 0)%nat then hd [] quasis
      else js "[복잡한 표현식]"
  | JSXExpressionContainer _ expression => getStringValue_node expression
  | _ => js "[복잡한 표현식]"
  end.

Definition getStringValue (n : option node) : jsstring :=
  match n with
  | None => []
  | Some n => getStringValue_node n
  end.

Definition childErrorInfo (child : node) : obj :=
  list_to_map
    [("line", VNum (or_else (start_line child) 0));
     ("column", VNum (or_else (start_column child) 0));
     ("message", VStr (js "하드코딩된 JSX 텍스트 콘텐츠"));
     ("type", VStr (js "jsx-children"));
     ("value", VStr (getStringValue (Some child)));
     ("suggestion", VStr (js "{t('componentName.text')}로 교체하세요"))].

Definition node_children (n : node) : list node :=
  match n with
  | JSXElement _ _ _ children => children
  | _ => []
  end.

Definition node_attributes (n : node) : list node :=
  match n with
  | JSXElement _ _ attributes _ => attributes
  | _ => []
  end.

Definition checkChildren (E : env) (n : node) (p : policy) (filePath : jsstring) : M state (list obj) :=
  let allowStrings := default false (policy_allowStrings p) in
  let allowNumbers := default true (policy_allowNumbers p) in
  flat_mapM
    (fun child =>
       if isInvalidContent (Some child) allowStrings allowNumbers then
         let! enhancedError := formatError E (childErrorInfo child) filePath in
         ret [enhancedError]
       else ret [])
    (node_children n).

(** [line] and [column] of the finding for an attribute:
    [attr.value?.loc?.start.line || attr.loc?.start.line || 0]. *)
Definition propErrorInfo (attr : node) (name : jsstring) (v : option node) : obj :=
  list_to_map
    [("line", VNum (or_else (v ≫= start_line) (or_else (start_line attr) 0)));
     ("column", VNum (or_else (v ≫= start_column) (or_else (start_column attr) 0)));
     ("message", VStr (js "하드코딩된 JSX 속성 " ++ dquote ++ name ++ dquote));
     ("type", VStr (js "jsx-prop"));
     ("value", VStr (getStringValue v));
     ("suggestion",
       VStr (name ++ js "={t('" ++ name ++ js ".key')}로 교체하세요"))].

Definition checkProps (E : env) (n : node) (p : policy) (filePath : jsstring) : M state (list obj) :=
  let propsToCheck := default [] (policy_checkProps p) in
  let allowStrings := default false (policy_allowStrings p) in
  let allowNumbers := default true (policy_allowNumbers p) in
  flat_mapM
    (fun attr =>
       match attr with
       | JSXAttribute _ (JSXIdentifier name) v =>
           if arr_includes propsToCheck name
              && isInvalidContent v allowStrings allowNumbers then
             let! enhancedError := formatError E (propErrorInfo attr name v) filePath in
             ret [enhancedError]
           else ret []
       | _ => ret []
       end)
    (node_attributes n).

(** The [JSXElement] visitor of [checkFile]. *)
Definition visitJSXElement (E : env) (o : Options) (filePath : jsstring) (n : node) : M state (list obj) :=
  match getOptionsForNode o n with
  | inl e => throw e
  | inr p =>
      let! childrenErrors := checkChildren E n p filePath in
      let! propErrors := checkProps E n p filePath in
      ret (childrenErrors ++ propErrors)
  end.

Definition is_JSXElement (n : node) : bool :=
  match n with
  | JSXElement _ _ _ _ => true
  | _ => false
  end.

Definition parseWarning (E : env) (filePath message : jsstring) : jsstring :=
  chalk E "yellow" (js "⚠️  파싱 에러 in " ++ filePath ++ js ": " ++ message).

(** What [console.error] prints for it. *)
Definition parseWarningEntry (E : env) (filePath message : jsstring) : log_entry :=
  {| channel := "error"; text := parseWarning E filePath message |}.

(** [traverse] inside the [try] of [checkFile]: [errors] holds what the
    visitors pushed so far, and is what [checkFile] returns when one of them
    throws.  A visitor throws before it pushes: [formatError] returns. *)
Fixpoint traverse (E : env) (o : Options) (filePath : jsstring)
    (nodes : list node) (errors : list obj) : M state (list obj) :=
  match nodes with
  | [] => ret errors
  | n :: r =>
      if is_JSXElement n then
        fun st =>
          match visitJSXElement E o filePath n st with
          | (Returned pushed, st', out) =>
              let '(res, st'', out') := traverse E o filePath r (errors ++ pushed) st' in
              (res, st'', out ++ out')
          | (Thrown e, st', out) =>
              (Returned errors, st',
               out ++ [{| channel := "error"; text := parseWarning E filePath e |}])
          | (Exited c, st', out) => (Exited c, st', out)
          end
      else traverse E o filePath r errors
  end.

Definition checkFile (E : env) (o : Options) (filePath : jsstring) : M state (list obj) :=
  match isDirectory E filePath with
  | None => throw (js "ENOENT: no such file or directory, stat")
  | Some true => ret []
  | Some false =>
      match readFileSync E filePath with
      | None => throw (js "ENOENT: no such file or directory, open")
      | Some code =>
          match parse E code with
          | inl message =>
              log "error" (parseWarning E filePath message) ;;; ret []
          | inr nodes => traverse E o filePath nodes []
          end
      end
  end.

Definition defaultIgnores : list jsstring :=
  map js ["**/*.test.{js,jsx,ts,tsx}"; "**/*.stories.{js,jsx,ts,tsx}";
          "**/*.spec.{js,jsx,ts,tsx}"; "**/node_modules/**"; "**/dist/**";
          "**/build/**"].

Definition is_exclusion (p : jsstring) : bool := startsWith p (js "!").

Definition includePatterns_of (patterns : list jsstring) : list jsstring :=
  List.filter (fun p => negb (is_exclusion p)) patterns.

Definition excludePatterns_of (patterns : list jsstring) : list jsstring :=
  map (drop 1) (List.filter is_exclusion patterns).

(** The loop of [checkJSXHardcoding] over the files. *)
Definition checkFiles (E : env) (o : Options) (files : list jsstring) : M state (list obj) :=
  flat_mapM (checkFile E o) files.

Definition checkJSXHardcoding (E : env) (o : Options) (patterns : list jsstring) : M state bool :=
  log "log" (chalk E "blue" (js "🔍 JSX 하드코딩 검사 시작..." ++ nl)) ;;;
  let includePatterns := includePatterns_of patterns in
  let excludePatterns := excludePatterns_of patterns in
  log "log" (chalk E "gray"
               (js "📋 포함 패턴: [" ++ join (js ", ") includePatterns ++ js "]")) ;;;
  log "log" (chalk E "gray"
               (js "📋 제외 패턴: [" ++ join (js ", ") excludePatterns ++ js "]")) ;;;
  try_catch
    (match glob E includePatterns (defaultIgnores ++ excludePatterns) with
     | inl e => throw e
     | inr files =>
         log "log" (chalk E "gray"
                      (js "📊 검사 대상: " ++ toString (Z.of_nat (length files))
                         ++ js "개 파일")) ;;;
         let! allErrors := checkFiles E o files in
         if (length allErrors =? 0)%nat then
           log "log" (chalk E "green" (js "✅ JSX 하드코딩 검사 통과!")) ;;;
           ret true
         else
           match generateReport E allErrors with
           | None => throw (js "groups[file].push is not a function")
           | Some report => log "log" report ;;; ret false
           end
     end)
    (fun message =>
       log "error" (chalk E "red" (js "❌ JSX 검사 중 오류 발생:") ++ js " " ++ message) ;;;
       ret false).

(** *** What the markup text check reports *)

(** Literal text among the children of an element: a [JSXText] that is not
    blank, or a template without interpolation, in an expression
    container. *)
Fixpoint isLiteralText (child : node) : bool :=
  match child with
  | JSXText _ v => negb (forallb is_space v)
  | TemplateLiteral _ _ expressions => (length expressions =? 0)%nat
  | JSXExpressionContainer _ expression => isLiteralText expression
  | _ => false
  end.

Definition findingOfChild (filePath : jsstring) (child : node) (e : obj) : Prop :=
  e !! "type" = Some (VStr (js "jsx-children"))
  /\ e !! "value" = Some (VStr (getStringValue (Some child)))
  /\ e !! "line" = Some (VNum (or_else (start_line child) 0))
  /\ e !! "column" = Some (VNum (or_else (start_column child) 0))
  /\ e !! "filePath" = Some (VStr filePath).

End JSXHardcodedChecker.

(* ================================================================== *)
(** ** [ErrorReporter.ts]: ErrorReporter *)
(* ================================================================== *)

(** [CodeError], as [JSXHardcodeChecker] builds it and [ErrorReporter]
    formats it. *)
Record CodeError := {
  ce_line : Z;
  ce_column : Z;
  ce_message : jsstring;
  ce_type : jsstring;
  ce_value : jsstring;
  codeSnippet : jsstring;
}.

(** [Object.entries(this.fileErrors)], where [fileErrors] is a [Map]: the
    entries of a [Map] are not properties of the object, and it has no own
    enumerable property. *)
Definition Object_entries_of_Map {K V} `{Countable K} (m : gmap K V) : list (K * V) := [].

(** The reporter that formats a finding when it is added. *)
Module ErrorReporter.

Record state := {
  fileCache : gmap jsstring jsstring;
  fileErrors : gmap jsstring (list CodeError);
  codeErrors : list CodeError;
}.

Definition initial : state :=
  {| fileCache := ∅; fileErrors := ∅; codeErrors := [] |}.

Definition getFileLines (E : env) (filePath : jsstring) : M state jsstring :=
  fun st =>
    match fileCache st !! filePath with
    | Some content => (Returned content, st, [])
    | None =>
        match readFileSync E filePath with
        | Some content =>
            (Returned content,
             {| fileCache := <[filePath := content]> (fileCache st);
                fileErrors := fileErrors st; codeErrors := codeErrors st |},
             [])
        | None =>
            (Returned [],
             {| fileCache := <[filePath := []]> (fileCache st);
                fileErrors := fileErrors st; codeErrors := codeErrors st |},
             [{| channel := "warn";
                 text := chalk E "yellow"
                           (js "⚠️  파일을 읽을 수 없습니다: " ++ filePath) |}])
        end
    end.

Definition snippetPlaceholder (E : env) (filePath : jsstring) : jsstring :=
  chalk E "red" (js "⚠️  코드 스니펫을 생성할 수 없습니다: " ++ filePath).

Definition generateCodeSnippet (E : env) (filePath : jsstring) (line column : Z) : M state jsstring :=
  try_catch
    (let! content := getFileLines E filePath in
     match codeFrameColumns E (FrameAt content line column 2 2) with
     | Some frame => ret frame
     | None => throw (js "codeFrameColumns")
     end)
    (fun _ => ret (snippetPlaceholder E filePath)).

Definition formatError (E : env) (error : CodeError) (filePath : jsstring) : M state CodeError :=
  let! snippet := generateCodeSnippet E filePath (ce_line error) (ce_column error) in
  ret {| ce_line := ce_line error; ce_column := ce_column error;
         ce_message := ce_message error; ce_type := ce_type error;
         ce_value := ce_value error; codeSnippet := snippet |}.

Definition addCodeError (E : env) (filePath : jsstring) (error : CodeError) : M state unit :=
  let! formattedError := formatError E error filePath in
  modify (fun st =>
            let newErrors := default [] (fileErrors st !! filePath) in
            {| fileCache := fileCache st;
               fileErrors := <[filePath := newErrors ++ [formattedError]]> (fileErrors st);
               codeErrors := codeErrors st ++ [formattedError] |}).

Definition rule (E : env) : jsstring := chalk E "gray" (repeat_char 9472 80).

Fixpoint renderErrors (E : env) (fileErrors : list CodeError) (index count : nat) : list jsstring :=
  match fileErrors with
  | [] => []
  | error :: r =>
      [nl ++ chalk E "red" (js "Error " ++ toString (Z.of_nat (index + 1)) ++ js ":")
         ++ js " " ++ ce_message error;
       codeSnippet error]
      ++ (if (index <? count - 1)%nat then [[]] else [])
      ++ renderErrors E r (S index) count
  end.

Definition renderFile (E : env) (entry : jsstring * list CodeError) : list jsstring :=
  let '(filePath, fileErrors) := entry in
  [chalk E "yellow.bold"
     (js "📁 " ++ filePath ++ js " ("
        ++ toString (Z.of_nat (length fileErrors)) ++ js "개 에러)");
   rule E]
  ++ renderErrors E fileErrors 0 (length fileErrors)
  ++ [nl ++ rule E ++ nl].

(** The [report] array of [generateErrorReport]. *)
Definition reportLines (E : env) (st : state) : list jsstring :=
  let totalErrorCount := size (fileErrors st) in
  [chalk E "red.bold"
     (js "🚨 총 " ++ toString (Z.of_nat totalErrorCount) ++ js "개의 하드코딩 발견!" ++ nl)]
  ++ flat_map (renderFile E) (Object_entries_of_Map (fileErrors st)).

Definition generateErrorReport (E : env) (st : state) : jsstring :=
  join nl (reportLines E st).

Definition printReport (E : env) : M state unit :=
  let! st := get in
  if (length (codeErrors st) =? 0)%nat then
    log "log" (chalk E "green" (js "✅ 하드코딩된 콘텐츠가 발견되지 않았습니다!"))
  else log "log" (generateErrorReport E st).

Definition hasErrors (st : state) : bool := (0 <? length (codeErrors st))%nat.

End ErrorReporter.

(** The copy of the reporter that renders a frame with [createCodeFrame];
    its [getFileLines] caches the lines, and its [addCodeError] stores the
    finding as it is. *)
Module CodeFrameReporter.

Record state := {
  fileCache : gmap jsstring (list jsstring);
  fileErrors : gmap jsstring (list CodeError);
  codeErrors : list CodeError;
}.

Definition initial : state :=
  {| fileCache := ∅; fileErrors := ∅; codeErrors := [] |}.

Definition getFileLines (E : env) (filePath : jsstring) : M state (list jsstring) :=
  fun st =>
    match fileCache st !! filePath with
    | Some lines => (Returned lines, st, [])
    | None =>
        match readFileSync E filePath with
        | Some content =>
            (Returned (split_lines content),
             {| fileCache := <[filePath := split_lines content]> (fileCache st);
                fileErrors := fileErrors st; codeErrors := codeErrors st |},
             [])
        | None =>
            (Returned [],
             {| fileCache := <[filePath := []]> (fileCache st);
                fileErrors := fileErrors st; codeErrors := codeErrors st |},
             [{| channel := "warn";
                 text := chalk E "yellow"
                           (js "⚠️  파일을 읽을 수 없습니다: " ++ filePath) |}])
        end
    end.

Definition unreadablePlaceholder (E : env) : jsstring :=
  chalk E "gray" (js "(파일 내용을 읽을 수 없습니다)").

Definition frameFailure (E : env) (filePath : jsstring) : jsstring :=
  chalk E "red" (js "❌ 코드 프레임 생성 중 오류가 발생했습니다: " ++ filePath).

(** [contextLines] is [3] unless the caller gives it. *)
Definition createCodeFrame (E : env) (filePath : jsstring) (line column : Z)
    (contextLines : option Z) (message : option jsstring) : M state jsstring :=
  let! lines := getFileLines E filePath in
  let rawLines := join nl lines in
  if (length rawLines =? 0)%nat then ret (unreadablePlaceholder E)
  else
    match codeFrameColumns E
            (FrameSpan rawLines line column (default 3%Z contextLines)
               (match message with
                | Some m => if is_empty m then None else Some (chalk E "red" m)
                | None => None
                end)) with
    | Some frame => ret frame
    | None => log "error" (frameFailure E filePath) ;;; exit 1
    end.

Definition addCodeError (filePath : jsstring) (error : CodeError) : M state unit :=
  modify (fun st =>
            let newErrors := default [] (fileErrors st !! filePath) in
            {| fileCache := fileCache st;
               fileErrors := <[filePath := newErrors ++ [error]]> (fileErrors st);
               codeErrors := codeErrors st ++ [error] |}).

(** The [report] array of [generateErrorReport]; the loop over the entries
    is that of [ErrorReporter]. *)
Definition reportLines (E : env) (st : state) : list jsstring :=
  let totalErrorCount := size (fileErrors st) in
  [chalk E "red.bold"
     (js "🚨 총 " ++ toString (Z.of_nat totalErrorCount) ++ js "개의 하드코딩 발견!" ++ nl)]
  ++ flat_map (ErrorReporter.renderFile E) (Object_entries_of_Map (fileErrors st)).

Definition generateErrorReport (E : env) (st : state) : jsstring :=
  join nl (reportLines E st).

Definition printReport (E : env) : M state unit :=
  let! st := get in
  if (length (codeErrors st) =? 0)%nat then
    log "log" (chalk E "green" (js "✅ 하드코딩된 콘텐츠가 발견되지 않았습니다!"))
  else log "log" (generateErrorReport E st).

End CodeFrameReporter.

(* ================================================================== *)
(** ** [JSXHardcodeChecker.ts]: JSXHardcodeChecker *)
(* ================================================================== *)

Module JSXHardcodeChecker.

Import ErrorReporter JSXOptions.

(** A name that is not a [JSXIdentifier] takes [this.options]. *)
Definition getOptionsForNode (o : Options) (n : node) : policy :=
  match n with
  | JSXElement _ (JSXIdentifier tagName) _ _ =>
      match tagName with
      | [] => policy_of_options o
      | c :: _ =>
          if (c =? lower_char c)%N then dom_or_options o tagName
          else policy_of_options o
      end
  | _ => policy_of_options o
  end.

Fixpoint isInvalidContent_node (n : node) (allowStrings allowNumbers : bool) : bool :=
  match n with
  | JSXText _ v => if is_empty (trim v) then false else negb allowStrings
  | JSXExpressionContainer _ expression =>
      isInvalidContent_node expression allowStrings allowNumbers
  | TemplateLiteral _ _ _ => negb allowStrings
  | _ =>
      (* ["value" in node] *)
      match value_field n with
      | Some (VStr s) => if is_empty (trim s) then false else negb allowStrings
      | Some (VNum _) => negb allowNumbers
      | _ => false
      end
  end.

Definition isInvalidContent (n : option node) (allowStrings allowNumbers : bool) : bool :=
  match n with
  | None => false
  | Some n => isInvalidContent_node n allowStrings allowNumbers
  end.

Fixpoint getStringValue_node (n : node) : jsstring :=
  match n with
  | JSXText _ v => v
  | JSXExpressionContainer _ expression => getStringValue_node expression
  | TemplateLiteral _ quasis expressions =>
      if (length expressions =? 0)%nat then hd [] quasis
      else js "[복잡한 표현식]"
  | _ =>
      match value_field n with
      | Some (VStr s) => s
      | _ => js "[복잡한 표현식]"
      end
  end.

Definition getStringValue (n : option node) : jsstring :=
  match n with
  | None => []
  | Some n => getStringValue_node n
  end.

Definition checkChildren (n : node) (p : policy) : list CodeError :=
  let allowStrings := default false (policy_allowStrings p) in
  let allowNumbers := default true (policy_allowNumbers p) in
  flat_map
    (fun child =>
       if isInvalidContent (Some child) allowStrings allowNumbers then
         [{| ce_line := or_else (start_line child) 0;
             ce_column := or_else (start_column child) 0;
             ce_message := js "하드코딩된 JSX 텍스트 콘텐츠";
             ce_type := js "jsx-children";
             ce_value := getStringValue (Some child);
             codeSnippet := [] |}]
       else [])
    (JSXHardcodedChecker.node_children n).

(** [String(attr.name?.name ?? "")]: the [name] of a namespaced name is a
    node. *)
Definition attribute_name (name : jsx_name) : jsstring :=
  match name with
  | JSXIdentifier s => s
  | _ => js "[object Object]"
  end.

Definition checkProps (n : node) (p : policy) : list CodeError :=
  let propsToCheck := default [] (policy_checkProps p) in
  let allowStrings := default false (policy_allowStrings p) in
  let allowNumbers := default true (policy_allowNumbers p) in
  flat_map
    (fun attr =>
       match attr with
       | JSXAttribute _ name v =>
           if arr_includes propsToCheck (attribute_name name)
              && isInvalidContent v allowStrings allowNumbers then
             [{| ce_line := or_else (v ≫= start_line) (or_else (start_line attr) 0);
                 ce_column := or_else (v ≫= start_column) (or_else (start_column attr) 0);
                 ce_message :=
                   js "하드코딩된 JSX 속성 " ++ dquote ++ attribute_name name ++ dquote;
                 ce_type := js "jsx-prop";
                 ce_value := getStringValue v;
                 codeSnippet := [] |}]
           else []
       | _ => []
       end)
    (JSXHardcodedChecker.node_attributes n).

(** The [JSXElement] visitor of [checkFile]. *)
Definition visitJSXElement (o : Options) (n : node) : list CodeError :=
  let p := getOptionsForNode o n in
  checkChildren n p ++ checkProps n p.

(** [checkFile] returns a [Result]: [inl] is [err(error)]. *)
Definition checkFile (E : env) (o : Options) (filePath : jsstring) : M state (jsstring + list CodeError) :=
  match isDirectory E filePath with
  | None => throw (js "ENOENT: no such file or directory, stat")
  | Some true => ret (inr [])
  | Some false =>
      match readFileSync E filePath with
      | None => throw (js "ENOENT: no such file or directory, open")
      | Some code =>
          match parse E code with
          | inl message => ret (inl message)
          | inr nodes =>
              ret (inr (flat_map (visitJSXElement o)
                          (List.filter JSXHardcodedChecker.is_JSXElement nodes)))
          end
      end
  end.

Definition getPatterns (patterns : list jsstring) : list jsstring * list jsstring :=
  (JSXHardcodedChecker.includePatterns_of patterns,
   JSXHardcodedChecker.excludePatterns_of patterns).

(** [getFiles]: [inl] is the error of [glob]. *)
Definition getFiles (E : env) (includePatternParam excludePatternParam : list jsstring) : jsstring + list jsstring :=
  let '(includePatterns, excludePatterns) := getPatterns includePatternParam in
  glob E includePatterns (excludePatterns ++ excludePatternParam).

Fixpoint addCodeErrors (E : env) (file : jsstring) (errors : list CodeError) : M state unit :=
  match errors with
  | [] => ret tt
  | error :: r => addCodeError E file error ;;; addCodeErrors E file r
  end.

(** The loop of [checkJSXHardcode] over the files: [Some allErrors] when it
    reaches its end, [None] when it has returned from the method. *)
Fixpoint checkFiles (E : env) (o : Options) (files : list jsstring)
    (allErrors : list CodeError) : M state (option (list CodeError)) :=
  match files with
  | [] => ret (Some allErrors)
  | file :: r =>
      let! result := checkFile E o file in
      match result with
      | inl message =>
          log "error"
            (chalk E "yellow" (js "⚠️  파싱 에러 in " ++ file ++ js ": " ++ message)) ;;;
          ret None
      | inr errors =>
          addCodeErrors E file errors ;;;
          checkFiles E o r (allErrors ++ errors)
      end
  end.

Definition checkJSXHardcode (E : env) (o : Options) (patterns : list jsstring) : M state unit :=
  log "log" (chalk E "blue" (js "🔍 JSX 하드코딩 검사 시작..." ++ nl)) ;;;
  let '(includePatterns, excludePatterns) := getPatterns patterns in
  log "log" (chalk E "gray"
               (js "📋 포함 패턴: [" ++ join (js ", ") includePatterns ++ js "]")) ;;;
  log "log" (chalk E "gray"
               (js "📋 제외 패턴: [" ++ join (js ", ") excludePatterns ++ js "]")) ;;;
  match getFiles E includePatterns excludePatterns with
  | inl message =>
      log "error" (chalk E "red" (js "❌ JSX 검사 중 오류 발생:") ++ js " " ++ message)
  | inr files =>
      log "log" (chalk E "gray"
                   (js "📊 검사 대상: " ++ toString (Z.of_nat (length files))
                      ++ js "개 파일")) ;;;
      let! done := checkFiles E o files [] in
      match done with
      | None => ret tt
      | Some allErrors =>
          if (length allErrors =? 0)%nat then
            log "log" (chalk E "green" (js "✅ JSX 하드코딩 검사 통과!"))
          else
            log "log" (chalk E "red" (js "❌ JSX 하드코딩 검사 실패!")) ;;;
            printReport E
      end
  end.

End JSXHardcodeChecker.

(* ================================================================== *)
(** ** Inputs of the examples *)
(* ================================================================== *)

Module Examples.

(** A run in which no file can be read and nothing is coloured. *)
Definition bareEnv : env :=
  {| readFileSync := fun _ => None;
     isDirectory := fun _ => Some false;
     parse := fun _ => inr [];
     glob := fun _ _ => inr [];
     newRegExp := fun _ => inl (js "Invalid regular expression");
     chalk := fun _ s => s;
     codeFrameColumns := fun _ => None |}.

Definition at_ (l c : Z) : option position := Some {| line := l; column := c |}.

(** [Message.error("Network error")] on the first line of a file. *)
Definition Message_error (l : option position) : node :=
  MemberExpression l (Identifier l (js "Message"))
    (Identifier (at_ 1 8) (js "error")).

(** [Message.error({ title: "Error", description: t('d') })] *)
Definition titleProperty : node :=
  ObjectProperty (at_ 1 16) (Identifier (at_ 1 16) (js "title"))
    (StringLiteral (at_ 1 23) (js "Error")).

Definition descriptionProperty : node :=
  ObjectProperty (at_ 1 32) (Identifier (at_ 1 32) (js "description"))
    (CallExpression (at_ 1 45) (Identifier (at_ 1 45) (js "t"))
       [StringLiteral (at_ 1 47) (js "d")]).

Definition errorObject : node :=
  ObjectExpression (at_ 1 14) [titleProperty; descriptionProperty].

(** [alert(`Are you sure you want to delete ${name}?`)] and [alert(`${name}!`)] *)
Definition alert_ (arg : node) : node :=
  CallExpression (at_ 1 0) (Identifier (at_ 1 0) (js "alert")) [arg].

Definition deleteTemplate : node :=
  TemplateLiteral (at_ 1 6) [js "Are you sure you want to delete "; js "?"]
    [Identifier (at_ 1 41) (js "name")].

Definition shortTemplate : node :=
  TemplateLiteral (at_ 1 6) [[]; js "!"] [Identifier (at_ 1 9) (js "name")].

(** [<button title="Click me">{t('label')}</button>] on the first line of a
    file: the value of [title] starts at column 14. *)
Definition titleValue : node := StringLiteral (at_ 1 14) (js "Click me").

Definition titleAttribute : node :=
  JSXAttribute (at_ 1 8) (JSXIdentifier (js "title")) (Some titleValue).

Definition labelChild : node :=
  JSXExpressionContainer (at_ 1 25)
    (CallExpression (at_ 1 26) (Identifier (at_ 1 26) (js "t"))
       [StringLiteral (at_ 1 28) (js "label")]).

Definition button : node :=
  JSXElement (at_ 1 0) (JSXIdentifier (js "button")) [titleAttribute] [labelChild].

(** [<p>123</p>] *)
Definition digitsChild : node := JSXText (at_ 1 3) (js "123").

Definition paragraph : node :=
  JSXElement (at_ 1 0) (JSXIdentifier (js "p")) [] [digitsChild].

(** Two files: [broken.tsx], which does not parse, and [page.tsx], which
    holds [<p>123</p>]. *)
Definition readTwoFiles (filePath : jsstring) : option jsstring :=
  if jseqb filePath (js "broken.tsx") then Some (js "<div")
  else if jseqb filePath (js "page.tsx") then Some (js "<p>123</p>")
  else None.

Definition parseTwoFiles (code : jsstring) : jsstring + list node :=
  if jseqb code (js "<p>123</p>") then inr [paragraph; digitsChild]
  else inl (js "Unexpected token (1:4)").

Definition twoFilesEnv (files : list jsstring) : env :=
  {| readFileSync := readTwoFiles;
     isDirectory := fun _ => Some false;
     parse := parseTwoFiles;
     glob := fun _ _ => inr files;
     newRegExp := fun _ => inl (js "Invalid regular expression");
     chalk := fun _ s => s;
     codeFrameColumns := fun _ => Some (js "> 1 | <p>123</p>") |}.

(** Two findings of the TypeScript checker in one file. *)
Definition firstError : CodeError :=
  {| ce_line := 1; ce_column := 3; ce_message := js "하드코딩된 JSX 텍스트 콘텐츠";
     ce_type := js "jsx-children"; ce_value := js "Hello"; codeSnippet := [] |}.

Definition secondError : CodeError :=
  {| ce_line := 2; ce_column := 3; ce_message := js "하드코딩된 JSX 텍스트 콘텐츠";
     ce_type := js "jsx-children"; ce_value := js "World"; codeSnippet := [] |}.


(** A heap that holds one finding, at address [0]. *)
Definition oneFinding : gmap nat obj :=
  {[ 0 := JSXHardcodedChecker.childErrorInfo digitsChild ]}.

Definition networkErrorCall : node :=
  CallExpression (at_ 1 0) (Message_error (at_ 1 0))
    [StringLiteral (at_ 1 14) (js "Network error")].

(** [Message.error({ 'title': 'Error' })]: the key is quoted, and the parser
    builds a [StringLiteral] for it. *)
Definition quotedTitleProperty : node :=
  ObjectProperty (at_ 1 16) (StringLiteral (at_ 1 16) (js "title"))
    (StringLiteral (at_ 1 25) (js "Error")).

Definition quotedErrorObject : node :=
  ObjectExpression (at_ 1 14) [quotedTitleProperty].

Definition quotedKeyCall : node :=
  CallExpression (at_ 1 0) (Message_error (at_ 1 0)) [quotedErrorObject].

Definition errorObjectCall : node :=
  CallExpression (at_ 1 0) (Message_error (at_ 1 0)) [errorObject].

(** Options whose allow-list holds one entry of each kind: the regular
    expression [/^\d+$/] and the string [TODO]. *)
Definition mixedAllowList : EnhancedToastChecker.options :=
  {| EnhancedToastChecker.toastFunctions := [js "alert"];
     EnhancedToastChecker.objectProperties := [js "title"];
     EnhancedToastChecker.allowPatterns :=
       [EnhancedToastChecker.literal true (RegExp.plus (RegExp.Class is_digit)) true;
        EnhancedToastChecker.StringPattern (js "TODO")] |}.

End Examples.

(* ================================================================== *)
(** ** [enhanced-toast-checker.mjs]: the files of a run *)
(* ================================================================== *)

(** [checkFile] and [checkFiles] of the toast checker.  The visitors differ
    between the two copies of the repository; the body of [checkFile] around
    them and [checkFiles] have the same text in both. *)

Module ToastFiles.

Import EnhancedErrorReporter EnhancedToastChecker.

(** [traverse] inside the [try] of [checkFile], with the visitors as one
    function of the node.  [errors] holds what the visitors pushed so far,
    and is what [checkFile] returns when one of them throws.  A visitor that
    throws has pushed nothing: of its calls only [isToastFunction] throws,
    since [suggestKey] is given the string of a hardcoded value. *)
Fixpoint traverse (E : env) (visit : node -> M state (list obj))
    (filePath : jsstring) (nodes : list node) (errors : list obj) : M state (list obj) :=
  match nodes with
  | [] => ret errors
  | n :: r =>
      fun st =>
        match visit n st with
        | (Returned pushed, st', out) =>
            let '(res, st'', out') := traverse E visit filePath r (errors ++ pushed) st' in
            (res, st'', out ++ out')
        | (Thrown e, st', out) =>
            (Returned errors, st',
             out ++ [JSXHardcodedChecker.parseWarningEntry E filePath e])
        | (Exited c, st', out) => (Exited c, st', out)
        end
  end.

Definition checkFileWith (E : env) (visit : node -> M state (list obj))
    (filePath : jsstring) : M state (list obj) :=
  match isDirectory E filePath with
  | None => throw (js "ENOENT: no such file or directory, stat")
  | Some true => ret []
  | Some false =>
      match readFileSync E filePath with
      | None => throw (js "ENOENT: no such file or directory, open")
      | Some code =>
          match parse E code with
          | inl message =>
              log "error" (JSXHardcodedChecker.parseWarning E filePath message) ;;; ret []
          | inr nodes => traverse E visit filePath nodes []
          end
      end
  end.

(** [checkFiles]: no error is caught here, and the report is printed
    whatever the findings. *)
Definition checkFilesWith (E : env) (visit : jsstring -> node -> M state (list obj))
    (patterns : list jsstring) : M state bool :=
  log "log" (chalk E "blue" (js "🔍 Toast/알림 하드코딩 검사 시작..." ++ nl)) ;;;
  let includePatterns := JSXHardcodedChecker.includePatterns_of patterns in
  let excludePatterns := JSXHardcodedChecker.excludePatterns_of patterns in
  log "log" (chalk E "gray"
               (js "📋 포함 패턴: [" ++ join (js ", ") includePatterns ++ js "]")) ;;;
  log "log" (chalk E "gray"
               (js "📋 제외 패턴: [" ++ join (js ", ") excludePatterns ++ js "]")) ;;;
  match glob E includePatterns (JSXHardcodedChecker.defaultIgnores ++ excludePatterns) with
  | inl e => throw e
  | inr files =>
      log "log" (chalk E "gray"
                   (js "📊 검사 대상: " ++ toString (Z.of_nat (length files))
                      ++ js "개 파일")) ;;;
      let! allErrors :=
        flat_mapM (fun file => checkFileWith E (visit file) file) files in
      match generateReport E allErrors with
      | None => throw (js "groups[file].push is not a function")
      | Some report =>
          log "log" report ;;; ret (length allErrors =? 0)%nat
      end
  end.

(** *** The copy with the expanded object arguments *)

Definition watchedAttributes : list jsstring :=
  map js ["data-tooltip"; "data-title"; "data-message"; "data-content"].

Definition attributeErrorInfo (attrName : jsstring) (v : node) : jsstring + obj :=
  match suggestKey attrName (getStringValue v) with
  | None => inl (js "value.replace is not a function")
  | Some suggested =>
      inr (list_to_map
             [("line", VNum (or_else (start_line v) 0));
              ("column", VNum (or_else (start_column v) 0));
              ("message", VStr (js "하드코딩된 JSX 속성 " ++ dquote ++ attrName ++ dquote));
              ("type", VStr (js "jsx-attribute"));
              ("value", getStringValue v);
              ("attributeName", VStr attrName);
              ("suggestion",
                VStr (attrName ++ js "={t('" ++ suggested ++ js "')}"))])
  end.

(** The [JSXAttribute] visitor.  The [name] of a namespaced name is a node,
    which the list of names does not hold; an attribute without a value has
    [null] for it. *)
Definition visitJSXAttribute (E : env) (o : options) (filePath : jsstring)
    (n : node) : M state (list obj) :=
  match n with
  | JSXAttribute _ (JSXIdentifier attrName) (Some v) =>
      if arr_includes watchedAttributes attrName && isHardcodedValue o v then
        match attributeErrorInfo attrName v with
        | inl e => throw e
        | inr errorInfo =>
            let! enhancedError := formatError E errorInfo filePath in
            ret [enhancedError]
        end
      else ret []
  | _ => ret []
  end.

(** The three visitors; that of [ObjectProperty] returns at once. *)
Definition visit (E : env) (o : options) (filePath : jsstring) (n : node) : M state (list obj) :=
  match n with
  | CallExpression _ _ _ => visitCallExpression E o filePath n
  | ObjectProperty _ _ _ => ret []
  | JSXAttribute _ _ _ => visitJSXAttribute E o filePath n
  | _ => ret []
  end.

Definition checkFile (E : env) (o : options) (filePath : jsstring) : M state (list obj) :=
  checkFileWith E (visit E o filePath) filePath.

Definition checkFiles (E : env) (o : options) (patterns : list jsstring) : M state bool :=
  checkFilesWith E (visit E o) patterns.

End ToastFiles.

(** The other copy of the toast checker: its [CallExpression] visitor reads
    the callee text off the call itself, its [ObjectProperty] visitor is at
    work, and its classifier knows the [Literal] node only. *)

Module ToastCheckerFirstCopy.

Import EnhancedErrorReporter EnhancedToastChecker.

Fixpoint isHardcodedValue (o : options) (n : node) : bool :=
  match n with
  | Literal _ (VStr s) => negb (isAllowedPattern o s)
  | TemplateLiteral _ quasis expressions =>
      if (length expressions =? 0)%nat
      then negb (isAllowedPattern o (hd [] quasis))
      else false
  | JSXExpressionContainer _ expression => isHardcodedValue o expression
  | _ => false
  end.

Definition findHardcodedArguments (o : options) (args : list node) : list node :=
  List.filter (isHardcodedValue o) args.

Fixpoint getStringValue (n : node) : value :=
  match n with
  | Literal _ v => v
  | TemplateLiteral _ quasis expressions =>
      if (length expressions =? 0)%nat then VStr (hd [] quasis)
      else VStr (js "[복잡한 표현식]")
  | JSXExpressionContainer _ expression => getStringValue expression
  | _ => VStr (js "[복잡한 표현식]")
  end.

Definition argumentErrorInfo (calleeText : jsstring) (arg : node) : jsstring + obj :=
  match suggestKey calleeText (getStringValue arg) with
  | None => inl (js "value.replace is not a function")
  | Some suggested =>
      inr (list_to_map
             [("line", VNum (or_else (start_line arg) 0));
              ("column", VNum (or_else (start_column arg) 0));
              ("message", VStr (js "하드코딩된 " ++ calleeText ++ js " 메시지"));
              ("type", VStr (js "toast-function"));
              ("value", getStringValue arg);
              ("functionName", VStr calleeText);
              ("suggestion",
                VStr (calleeText ++ js "(t('" ++ suggested ++ js "'))"))])
  end.

(** The [CallExpression] visitor: [getCalleeText(path.node)]. *)
Definition visitCallExpression (E : env) (o : options) (filePath : jsstring)
    (n : node) : M state (list obj) :=
  match n with
  | CallExpression _ _ arguments =>
      let calleeText := getCalleeText n in
      match isToastFunction E o calleeText with
      | inl e => throw e
      | inr false => ret []
      | inr true =>
          flat_mapM
            (fun arg =>
               match argumentErrorInfo calleeText arg with
               | inl e => throw e
               | inr errorInfo =>
                   let! enhancedError := formatError E errorInfo filePath in
                   ret [enhancedError]
               end)
            (findHardcodedArguments o arguments)
      end
  | _ => ret []
  end.

Definition propertyErrorInfo (key v : node) : jsstring + obj :=
  let propertyName := propertyName_of key in
  match suggestKey (String_ propertyName) (getStringValue v) with
  | None => inl (js "value.replace is not a function")
  | Some suggested =>
      inr (list_to_map
             [("line", VNum (or_else (start_line v) 0));
              ("column", VNum (or_else (start_column v) 0));
              ("message",
                VStr (js "하드코딩된 객체 속성 " ++ dquote ++ String_ propertyName ++ dquote));
              ("type", VStr (js "object-property"));
              ("value", getStringValue v);
              ("propertyName", default VUndefined propertyName);
              ("suggestion",
                VStr (String_ propertyName ++ js ": t('" ++ suggested ++ js "')"))])
  end.

(** The [ObjectProperty] visitor. *)
Definition visitObjectProperty (E : env) (o : options) (filePath : jsstring)
    (n : node) : M state (list obj) :=
  match n with
  | ObjectProperty _ key v =>
      if isUserFacingProperty o n && isHardcodedValue o v then
        match propertyErrorInfo key v with
        | inl e => throw e
        | inr errorInfo =>
            let! enhancedError := formatError E errorInfo filePath in
            ret [enhancedError]
        end
      else ret []
  | _ => ret []
  end.

Definition attributeErrorInfo (attrName : jsstring) (v : node) : jsstring + obj :=
  match suggestKey attrName (getStringValue v) with
  | None => inl (js "value.replace is not a function")
  | Some suggested =>
      inr (list_to_map
             [("line", VNum (or_else (start_line v) 0));
              ("column", VNum (or_else (start_column v) 0));
              ("message", VStr (js "하드코딩된 JSX 속성 " ++ dquote ++ attrName ++ dquote));
              ("type", VStr (js "jsx-attribute"));
              ("value", getStringValue v);
              ("attributeName", VStr attrName);
              ("suggestion",
                VStr (attrName ++ js "={t('" ++ suggested ++ js "')}"))])
  end.

Definition visitJSXAttribute (E : env) (o : options) (filePath : jsstring)
    (n : node) : M state (list obj) :=
  match n with
  | JSXAttribute _ (JSXIdentifier attrName) (Some v) =>
      if arr_includes ToastFiles.watchedAttributes attrName && isHardcodedValue o v then
        match attributeErrorInfo attrName v with
        | inl e => throw e
        | inr errorInfo =>
            let! enhancedError := formatError E errorInfo filePath in
            ret [enhancedError]
        end
      else ret []
  | _ => ret []
  end.

Definition visit (E : env) (o : options) (filePath : jsstring) (n : node) : M state (list obj) :=
  match n with
  | CallExpression _ _ _ => visitCallExpression E o filePath n
  | ObjectProperty _ _ _ => visitObjectProperty E o filePath n
  | JSXAttribute _ _ _ => visitJSXAttribute E o filePath n
  | _ => ret []
  end.

Definition checkFile (E : env) (o : options) (filePath : jsstring) : M state (list obj) :=
  ToastFiles.checkFileWith E (visit E o filePath) filePath.

Definition checkFiles (E : env) (o : options) (patterns : list jsstring) : M state bool :=
  ToastFiles.checkFilesWith E (visit E o) patterns.

End ToastCheckerFirstCopy.

(* ================================================================== *)
(** ** [check-all-hardcoding.mjs]: IntegratedHardcodingChecker *)
(* ================================================================== *)

Module IntegratedHardcodingChecker.

Import EnhancedErrorReporter.

(** What the script takes from the runtime besides the collaborators of the
    checkers: the text of [((Date.now() - this.startTime) / 1000).toFixed(2)]
    when the summary is printed, the text [console.error] shows for an
    [Error] with a given message, and its [stack]. *)
Record runtime := {
  elapsed : jsstring;
  inspect : jsstring -> jsstring;
  stack : jsstring -> jsstring;
}.

(** The options the constructor gives to the toast checker. *)
Definition toastOptions : EnhancedToastChecker.options :=
  {| EnhancedToastChecker.toastFunctions :=
       map js ["message.error"; "message.success"; "message.warning";
               "message.info"; "message.loading";
               "Message.error"; "Message.success"; "Message.warning";
               "Message.info";
               "alert"; "confirm"; "prompt";
               "toast.error"; "toast.success"; "toast.warning"; "toast.info";
               "notification.error"; "notification.success";
               "notification.warning"; "notification.info";
               "showMessage"; "showError"; "showSuccess"; "showWarning"];
     EnhancedToastChecker.objectProperties :=
       map js ["title"; "message"; "description"; "content"; "label";
               "placeholder"; "tooltip"; "helpText"; "errorMessage";
               "successMessage"; "warningMessage"; "text"; "body"; "detail"];
     EnhancedToastChecker.allowPatterns := EnhancedToastChecker.defaultAllowPatterns |}.

(** The two checkers have a reporter each: the state of a run is the cache
    of the JSX checker and that of the toast checker. *)
Definition state : Type := EnhancedErrorReporter.state * EnhancedErrorReporter.state.

Definition initial : state :=
  (EnhancedErrorReporter.initial, EnhancedErrorReporter.initial).

Definition onJsx {A} (m : M EnhancedErrorReporter.state A) : M state A :=
  fun '(jsxCache, toastCache) =>
    let '(r, jsxCache', out) := m jsxCache in (r, (jsxCache', toastCache), out).

Definition onToast {A} (m : M EnhancedErrorReporter.state A) : M state A :=
  fun '(jsxCache, toastCache) =>
    let '(r, toastCache', out) := m toastCache in (r, (jsxCache, toastCache'), out).

(** [s.replace(p, r)] with a string for [p]: the first occurrence. *)
Fixpoint replace_first (s p r : jsstring) : jsstring :=
  if startsWith s p then r ++ drop (length p) s
  else match s with
       | [] => []
       | c :: s' => c :: replace_first s' p r
       end.

Definition suffix : jsstring := js "/**/*.{js,jsx,ts,tsx}".

Definition displayPattern (p : jsstring) : jsstring :=
  if startsWith p (js "!") then
    js "!" ++ replace_first (replace_first p suffix []) (js "!") []
  else
    let shown := replace_first p suffix [] in
    if is_empty shown then js "src" else shown.

Definition printSummary (E : env) (R : runtime) (jsx toast overall : bool) : M state unit :=
  log "log" (chalk E "gray" (nl ++ repeat_char 61 60)) ;;;
  log "log" (chalk E "cyan.bold" (js "📊 검사 결과 요약")) ;;;
  log "log" (chalk E "gray" (repeat_char 45 30)) ;;;
  let jsxStatus :=
    if jsx then chalk E "green" (js "✅ 통과") else chalk E "red" (js "❌ 실패") in
  let toastStatus :=
    if toast then chalk E "green" (js "✅ 통과") else chalk E "red" (js "❌ 실패") in
  log "log" (chalk E "blue" (js "JSX 하드코딩 검사:") ++ js "      " ++ jsxStatus) ;;;
  log "log" (chalk E "blue" (js "Toast/알림 검사:") ++ js "       " ++ toastStatus) ;;;
  log "log" (chalk E "gray" (repeat_char 45 30)) ;;;
  log "log" (chalk E "blue" (js "검사 소요 시간:") ++ js "        " ++ elapsed R ++ js "초") ;;;
  log "log" (chalk E "gray" (repeat_char 45 30)) ;;;
  (if overall then
     log "log" (chalk E "green.bold" (js "🎉 모든 하드코딩 검사 통과!")) ;;;
     log "log" (chalk E "green" (js "국제화(i18n) 준비가 잘 되어있습니다."))
   else
     log "log" (chalk E "red.bold" (js "🚨 하드코딩이 발견되었습니다!")) ;;;
     log "log" (chalk E "yellow" (js "위의 에러들을 수정한 후 다시 실행해주세요."))) ;;;
  log "log" (chalk E "gray" (repeat_char 61 60)).

(** [runAllChecks].  The product of a string and a number that the fourth
    line prints is [NaN]. *)
Definition runAllChecks (E : env) (R : runtime) (patterns : list jsstring) : M state unit :=
  let displayPatterns := map displayPattern patterns in
  log "log" (chalk E "cyan.bold" (js "🚀 통합 하드코딩 검사 시작" ++ nl)) ;;;
  log "log" (chalk E "gray" (js "검사 대상: " ++ join (js " ") displayPatterns)) ;;;
  log "log" (chalk E "gray" (js "검사 범위: JSX 컴포넌트 + Toast/알림 함수")) ;;;
  log "log" (chalk E "gray" (js "NaN")) ;;;
  try_catch
    (log "log" (chalk E "blue" (nl ++ js "📋 1단계: JSX 컴포넌트 하드코딩 검사")) ;;;
     log "log" (chalk E "gray" (js "검사 대상: React/JSX 컴포넌트의 텍스트 및 속성")) ;;;
     let! jsx :=
       onJsx (JSXHardcodedChecker.checkJSXHardcoding E JSXOptions.defaultOptions patterns) in
     log "log" (chalk E "blue" (nl ++ js "📋 2단계: Toast/알림 하드코딩 검사")) ;;;
     log "log" (chalk E "gray" (js "검사 대상: message.error, alert, 객체 속성 등")) ;;;
     let! toast := onToast (ToastFiles.checkFiles E toastOptions patterns) in
     let overall := jsx && toast in
     printSummary E R jsx toast overall ;;;
     if negb overall then exit 1 else ret tt)
    (fun error =>
       log "error" (chalk E "red" (nl ++ js "❌ 검사 중 오류 발생:") ++ js " " ++ inspect R error) ;;;
       log "error" (chalk E "gray" (stack R error)) ;;;
       exit 1).

(** One turn of the loop of [handleCLI] over the arguments. *)
Definition parseStep (parsed : list jsstring * list jsstring) (arg : jsstring) :
    list jsstring * list jsstring :=
  let '(targetPatterns, options) := parsed in
  if startsWith arg (js "--") || startsWith arg (js "-") then
    (targetPatterns, options ++ [arg])
  else
    let pattern :=
      if negb (startsWith arg (js "!")) && negb (includes arg (js "**/*"))
      then arg ++ suffix else arg in
    (targetPatterns ++ [pattern], options).

(** [targetPatterns] and [options] after the loop; [args] is
    [process.argv.slice(2)]. *)
Definition parseArguments (args : list jsstring) : list jsstring * list jsstring :=
  fold_left parseStep args
    (if (length args =? 0)%nat then [js "src/**/*.{js,jsx,ts,tsx}"] else [], []).




End IntegratedHardcodingChecker.

(* ================================================================== *)
(** ** Vocabulary of the further properties *)
(* ================================================================== *)

Module Vocabulary.

(** The paths of a list of diagnostics in the order in which they are first
    seen. *)
Definition firstSeen (paths : list jsstring) : list jsstring :=
  fold_left (fun seen f => if arr_includes seen f then seen else seen ++ [f])
    paths [].

(** The diagnostics of one file, in the order of the list. *)
Definition ofFile (f : jsstring) (errors : list obj) : list obj :=
  List.filter (fun e => jseqb (EnhancedErrorReporter.fileOf e) f) errors.

(** The groups of a list of diagnostics: files as first seen, and under each
    file its diagnostics in the order of the list. *)
Definition groupsOf (errors : list obj) : list (jsstring * list obj) :=
  map (fun f => (f, ofFile f errors))
    (firstSeen (map EnhancedErrorReporter.fileOf errors)).

(** The callee [a.b.c]: an identifier, then member accesses by name. *)
Fixpoint memberChain (head : node) (names : list jsstring) : node :=
  match names with
  | [] => head
  | name :: r => memberChain (MemberExpression None head (Identifier None name)) r
  end.

(** A diagnostic of [file] at line [l], with the fields the reporter
    reads. *)
Definition findingIn (file : jsstring) (l : Z) : obj :=
  list_to_map [("filePath", VStr file); ("line", VNum l); ("column", VNum 0)].

(** The characters of a suggested key: ASCII letters, digits and Hangul
    syllables. *)
Definition is_key_char (c : N) : bool :=
  is_lower c || is_upper c || is_digit c || is_hangul c.

Definition key_word (word : jsstring) : Prop :=
  Forall (fun c => is_key_char c = true) word.

(** An element whose name is not a namespaced name; [<svg:rect/>] is one
    whose name is. *)
Definition is_namespaced (n : node) : bool :=
  match n with
  | JSXElement _ JSXNamespacedName _ _ => true
  | _ => false
  end.

(** A tag name that starts with a character equal to its lower case. *)
Definition starts_lower (tagName : jsstring) : bool :=
  match tagName with
  | [] => false
  | c :: _ => (c =? lower_char c)%N
  end.

(** A file that holds [<p>123</p><svg:rect/><p>123</p>]. *)
Definition namespacedElement : node :=
  JSXElement (Examples.at_ 1 10) JSXNamespacedName [] [].

Definition svgEnv : env :=
  {| readFileSync := fun _ => Some (js "<p>123</p><svg:rect/><p>123</p>");
     isDirectory := fun _ => Some false;
     parse := fun _ => inr [Examples.paragraph; Examples.digitsChild;
                            namespacedElement;
                            Examples.paragraph; Examples.digitsChild];
     glob := fun _ _ => inr [js "icon.tsx"];
     newRegExp := fun _ => inl (js "Invalid regular expression");
     chalk := fun _ s => s;
     codeFrameColumns := fun _ => None |}.

(** The characters a match of a regular expression can start with. *)
Fixpoint first (r : RegExp.re) (c : N) : bool :=
  match r with
  | RegExp.Never | RegExp.Empty => false
  | RegExp.Class p => p c
  | RegExp.Seq a b => first a c || (RegExp.nullable a && first b c)
  | RegExp.Alt a b => first a c || first b c
  | RegExp.Star a => first a c
  end.

(** The openings that the default allow-list admits whatever follows: the
    translation call with either quote, and the names of the runtime. *)
Definition allowedOpenings : list jsstring :=
  [js "t('"; js "t(" ++ dquote; js "i18n."; js "console."; js "process.env.";
   js "import("; js "require("].

(** A finding that names [file] as its file. *)
Definition attributed (file : jsstring) (e : obj) : Prop :=
  e !! "filePath" = Some (VStr file).

(** A node on which the visitors of the toast checker have nothing to look
    at: it is not a call of a notification function, and not one of the
    four [data-] attributes with a value. *)
Definition quiet (o : EnhancedToastChecker.options) (n : node) : bool :=
  match n with
  | CallExpression _ callee _ =>
      negb (arr_includes (EnhancedToastChecker.toastFunctions o)
              (EnhancedToastChecker.getCalleeText callee))
  | JSXAttribute _ (JSXIdentifier attrName) (Some _) =>
      negb (arr_includes ToastFiles.watchedAttributes attrName)
  | _ => true
  end.

(** A run over one file that holds [code] and parses to [nodes]. *)
Definition fileEnv (code : jsstring) (nodes : list node) : env :=
  {| readFileSync := fun _ => Some code;
     isDirectory := fun _ => Some false;
     parse := fun _ => inr nodes;
     glob := fun _ _ => inr [js "a.tsx"];
     newRegExp := fun _ => inl (js "Invalid regular expression");
     chalk := fun _ s => s;
     codeFrameColumns := fun _ => None |}.

(** [const labels = { title: 'Error', description: t('d') }]: an object
    literal that is not the argument of a call. *)
Definition labelsFile : list node :=
  [Examples.errorObject; Examples.titleProperty; Examples.descriptionProperty;
   CallExpression (Examples.at_ 1 45) (Identifier (Examples.at_ 1 45) (js "t"))
     [StringLiteral (Examples.at_ 1 47) (js "d")]].

(** An argument of the script that is an option, and the pattern that
    [handleCLI] makes of one that is not. *)
Definition is_option (arg : jsstring) : bool :=
  startsWith arg (js "--") || startsWith arg (js "-").

Definition patternOf (arg : jsstring) : jsstring :=
  if negb (startsWith arg (js "!")) && negb (includes arg (js "**/*"))
  then arg ++ IntegratedHardcodingChecker.suffix else arg.

(** A path that names a member of [Object.prototype]. *)
Definition inheritedName (e : obj) : bool :=
  arr_includes objectPrototypeKeys (EnhancedErrorReporter.fileOf e).

(** A finding of the TypeScript checker without its snippet. *)
Definition withoutSnippet (e : CodeError) : CodeError :=
  {| ce_line := ce_line e; ce_column := ce_column e; ce_message := ce_message e;
     ce_type := ce_type e; ce_value := ce_value e; codeSnippet := [] |}.

End Vocabulary.

(* ================================================================== *)
(** * Properties *)
(* ================================================================== *)

(** ** Strings *)

Lemma is_empty_nil (s : jsstring) : is_empty s = true <-> s = [].
Proof. destruct s; simpl; split; congruence. Qed.

Lemma jseqb_eq (a b : jsstring) : jseqb a b = true <-> a = b.
Proof.
  revert b. induction a as [|x a IH]; intros [|y b]; simpl; try (split; congruence).
  rewrite andb_true_iff, N.eqb_eq, IH. split; [intros [-> ->]; reflexivity|].
  intros [= -> ->]. split; reflexivity.
Qed.

Lemma jseqb_refl (a : jsstring) : jseqb a a = true.
Proof. apply jseqb_eq. reflexivity. Qed.

Lemma arr_includes_In (l : list jsstring) (x : jsstring) :
  arr_includes l x = true <-> In x l.
Proof.
  unfold arr_includes. rewrite existsb_exists. split.
  - intros (y & Hy & Heq). apply jseqb_eq in Heq. subst. exact Hy.
  - intros Hin. exists x. split; [exact Hin|apply jseqb_refl].
Qed.

Lemma trimStart_nil (s : jsstring) : trimStart s = [] <-> forallb is_space s = true.
Proof.
  induction s as [|c r IH]; simpl; [tauto|].
  destruct (is_space c); simpl; [exact IH|]. split; discriminate.
Qed.

Lemma trimStart_app_nonspace (l : jsstring) (c : N) :
  is_space c = false -> trimStart (l ++ [c]) <> [].
Proof.
  intros Hc. induction l as [|x l IH]; simpl.
  - rewrite Hc. discriminate.
  - destruct (is_space x); [exact IH|discriminate].
Qed.

Lemma trimStart_head (s : jsstring) :
  trimStart s = [] \/ exists c r, trimStart s = c :: r /\ is_space c = false.
Proof.
  induction s as [|c r IH]; simpl; [now left|].
  destruct (is_space c) eqn:Hc; [exact IH|]. right. eauto.
Qed.

(** [value.trim() === ''] holds of the strings made of white space only. *)
Lemma trim_nil (s : jsstring) : trim s = [] <-> forallb is_space s = true.
Proof.
  unfold trim, trimEnd. rewrite <- trimStart_nil.
  destruct (trimStart_head s) as [H|(c & r & H & Hc)]; rewrite H.
  - simpl. tauto.
  - split; [|discriminate]. intros Hr. exfalso.
    apply (f_equal (@rev N)) in Hr. rewrite rev_involutive in Hr.
    simpl in Hr. eapply trimStart_app_nonspace; eauto.
Qed.

Lemma blank_trim (s : jsstring) :
  is_empty s || is_empty (trim s) = forallb is_space s.
Proof.
  destruct (forallb is_space s) eqn:Hs.
  - apply trim_nil in Hs. rewrite Hs. apply orb_true_r.
  - destruct s as [|c r]; [discriminate|]. simpl.
    destruct (is_empty (trim (c :: r))) eqn:He; [|reflexivity].
    apply is_empty_nil, trim_nil in He. congruence.
Qed.

(** ** The Allow-List Matcher *)

(** C3.  [isAllowedPattern] returns [true] for the empty string and for a
    string of white space only.  For every other string it returns [true]
    exactly when an entry of [allowPatterns] matches it: an entry that is a
    regular expression, whose [test] holds of the string, or an entry that
    is a string, which the string [includes]; it returns [false] when no
    regular expression of the list holds of the string and the string
    includes no string of the list. *)
Theorem isAllowedPattern_sole_authority
    (o : EnhancedToastChecker.options) (value : jsstring) :
  (forallb is_space value = true ->
     EnhancedToastChecker.isAllowedPattern o value = true)
  /\ (forallb is_space value = false ->
        (EnhancedToastChecker.isAllowedPattern o value = true <->
           (exists test,
              In (EnhancedToastChecker.RegExpPattern test)
                (EnhancedToastChecker.allowPatterns o)
              /\ test value = true)
           \/ (exists s,
                 In (EnhancedToastChecker.StringPattern s)
                   (EnhancedToastChecker.allowPatterns o)
                 /\ includes value s = true))
        /\ ((forall test,
               In (EnhancedToastChecker.RegExpPattern test)
                 (EnhancedToastChecker.allowPatterns o) ->
               test value = false) ->
            (forall s,
               In (EnhancedToastChecker.StringPattern s)
                 (EnhancedToastChecker.allowPatterns o) ->
               includes value s = false) ->
            EnhancedToastChecker.isAllowedPattern o value = false)).
Proof.
  unfold EnhancedToastChecker.isAllowedPattern. rewrite blank_trim.
  split; intros Hb; rewrite Hb; [reflexivity|].
  split.
  - rewrite existsb_exists. split.
    + intros ([test|s] & Hin & Hm); [left|right]; eauto.
    + intros [(test & Hin & Hm)|(s & Hin & Hm)]; eexists; split; eauto.
  - intros Hregexps Hstrings. apply not_true_is_false. rewrite existsb_exists.
    intros ([test|s] & Hin & Hm); cbn in Hm.
    + rewrite (Hregexps test Hin) in Hm. discriminate.
    + rewrite (Hstrings s Hin) in Hm. discriminate.
Qed.

Lemma isAllowedPattern_sole_authority_witness :
  EnhancedToastChecker.isAllowedPattern Examples.mixedAllowList (js "   ") = true
  /\ EnhancedToastChecker.isAllowedPattern Examples.mixedAllowList (js "2024") = true
  /\ EnhancedToastChecker.isAllowedPattern Examples.mixedAllowList (js "fix TODO later")
     = true
  /\ EnhancedToastChecker.isAllowedPattern Examples.mixedAllowList (js "Network error")
     = false
  /\ EnhancedToastChecker.isAllowedPattern EnhancedToastChecker.defaultOptions
       (js "t('key')") = true
  /\ EnhancedToastChecker.isAllowedPattern EnhancedToastChecker.defaultOptions
       (js "Network error") = false.
Proof.
  split; [|split; [|split; [|split; [|split]]]].
  - apply (proj1 (isAllowedPattern_sole_authority Examples.mixedAllowList (js "   "))).
    vm_compute. reflexivity.
  - apply (proj1 (proj2 (isAllowedPattern_sole_authority Examples.mixedAllowList
                           (js "2024"))
                    ltac:(vm_compute; reflexivity))).
    left. eexists. split; [left; reflexivity|]. vm_compute. reflexivity.
  - apply (proj1 (proj2 (isAllowedPattern_sole_authority Examples.mixedAllowList
                           (js "fix TODO later"))
                    ltac:(vm_compute; reflexivity))).
    right. exists (js "TODO"). split; [right; left; reflexivity|].
    vm_compute. reflexivity.
  - apply (proj2 (proj2 (isAllowedPattern_sole_authority Examples.mixedAllowList
                           (js "Network error"))
                    ltac:(vm_compute; reflexivity))).
    + intros test [[= <-]|[Hin|[]]]; [vm_compute; reflexivity|discriminate Hin].
    + intros s [Hin|[[= <-]|[]]]; [discriminate Hin|vm_compute; reflexivity].
  - apply (proj1 (proj2 (isAllowedPattern_sole_authority
                           EnhancedToastChecker.defaultOptions (js "t('key')"))
                    ltac:(vm_compute; reflexivity))).
    left. eexists. split; [left; reflexivity|]. vm_compute. reflexivity.
  - apply (proj2 (proj2 (isAllowedPattern_sole_authority
                           EnhancedToastChecker.defaultOptions (js "Network error"))
                    ltac:(vm_compute; reflexivity))).
    + intros test Hin.
      repeat (destruct Hin as [[= <-]|Hin]; [vm_compute; reflexivity|]).
      destruct Hin.
    + intros s Hin.
      repeat (destruct Hin as [Hin|Hin]; [discriminate Hin|]).
      destruct Hin.
Defined.

(** ** Runs *)

Lemma bind_Returned {S A B} (m : M S A) (k : A -> M S B) s a s' out r s'' out' :
  m s = (Returned a, s', out) -> k a s' = (r, s'', out') ->
  bind m k s = (r, s'', out ++ out').
Proof. intros Hm Hk. unfold bind. rewrite Hm, Hk. reflexivity. Qed.

Lemma flat_mapM_one {S A B} (f : A -> M S (list B)) x s ys s' out :
  f x s = (Returned ys, s', out) -> flat_mapM f [x] s = (Returned ys, s', out).
Proof.
  intros Hf. simpl. unfold bind. rewrite Hf. simpl. rewrite !app_nil_r. reflexivity.
Qed.

(** ** The reporter of the [.mjs] checkers *)

(** [formatError] returns, and prints nothing. *)
Lemma formatError_run E error filePath st :
  exists context st',
    EnhancedErrorReporter.formatError E error filePath st =
      (Returned (EnhancedErrorReporter.formatted E error filePath context), st', []).
Proof.
  unfold EnhancedErrorReporter.formatError, EnhancedErrorReporter.createCodeContext,
    bind, ret, EnhancedErrorReporter.getFileLines.
  destruct (st !! filePath); simpl; eauto.
Qed.

Lemma formatted_other E error filePath context (k : string) :
  k <> "filePath" -> k <> "context" -> k <> "codeSnippet" ->
  EnhancedErrorReporter.formatted E error filePath context !! k = error !! k.
Proof.
  intros H1 H2 H3. unfold EnhancedErrorReporter.formatted.
  rewrite !lookup_insert_ne by congruence. reflexivity.
Qed.

Lemma formatted_filePath E error filePath context :
  EnhancedErrorReporter.formatted E error filePath context !! "filePath" = Some (VStr filePath).
Proof. unfold EnhancedErrorReporter.formatted. rewrite !lookup_insert_ne by done. apply lookup_insert_eq. Qed.

(** ** The notification-call check *)

Section ToastChecker.

Import EnhancedErrorReporter EnhancedToastChecker.

Variable E : env.
Variable o : options.

Lemma findHardcodedArguments_cons a l :
  findHardcodedArguments o (a :: l) =
    if isHardcodedValue o a then a :: findHardcodedArguments o l
    else findHardcodedArguments o l.
Proof. reflexivity. Qed.

Lemma findHardcodedArguments_app l1 l2 :
  findHardcodedArguments o (l1 ++ l2) =
    findHardcodedArguments o l1 ++ findHardcodedArguments o l2.
Proof. apply List.filter_app. Qed.

Lemma isHardcodedValue_string l s :
  isHardcodedValue o (StringLiteral l s) = negb (isAllowedPattern o s).
Proof. reflexivity. Qed.

Lemma totalStaticLength_concat (quasis : list jsstring) n :
  fold_left (fun total staticText => total + length staticText) quasis n
  = n + length (concat quasis).
Proof.
  revert n. induction quasis as [|q r IH]; intros n; simpl; [lia|].
  rewrite IH, length_app. lia.
Qed.

Lemma isHardcodedValue_mixed_template l quasis expressions :
  expressions <> [] ->
  isHardcodedValue o (TemplateLiteral l quasis expressions)
  = (MIN_STATIC_LENGTH <=? length (concat quasis))%nat.
Proof.
  intros Hne. destruct expressions as [|x r]; [congruence|].
  simpl. rewrite totalStaticLength_concat. reflexivity.
Qed.

(** A hardcoded value is shown as a string, so that [suggestKey] does not
    throw on it. *)
Lemma getStringValue_hardcoded n :
  isHardcodedValue o n = true -> exists s, getStringValue n = VStr s.
Proof.
  induction n; simpl; intros H; try discriminate; eauto.
  - destruct v; try discriminate; eauto.
  - destruct (length expressions =? 0)%nat; eauto.
    destruct (is_empty (join [] quasis)); eauto.
Qed.

End ToastChecker.

Lemma flat_mapM_filter {S A B} (f : A -> M S (list B)) (keep : A -> bool)
    (R : A -> B -> Prop) :
  (forall x st, keep x = true ->
     exists y st', f x st = (Returned [y], st', []) /\ R x y) ->
  (forall x st, keep x = false -> f x st = (Returned [], st, [])) ->
  forall l st,
    exists ys st',
      flat_mapM f l st = (Returned ys, st', [])
      /\ Forall2 R (List.filter keep l) ys.
Proof.
  intros Hkeep Hskip. induction l as [|x r IH]; intros st.
  - exists [], st. split; [reflexivity|constructor].
  - simpl. destruct (keep x) eqn:Hx.
    + destruct (Hkeep x st Hx) as (y & st1 & Hf & Hy).
      destruct (IH st1) as (ys & st2 & Hr & Hys).
      exists (y :: ys), st2. split; [|constructor; assumption].
      unfold bind. rewrite Hf, Hr. reflexivity.
    + destruct (IH st) as (ys & st2 & Hr & Hys).
      exists ys, st2. split; [|assumption].
      unfold bind. rewrite (Hskip x st Hx), Hr. reflexivity.
Qed.

Lemma flat_mapM_each {S A B} (f : A -> M S (list B)) (P : A -> Prop)
    (R : A -> list B -> Prop) :
  (forall x st, P x -> exists ys st', f x st = (Returned ys, st', []) /\ R x ys) ->
  forall l st,
    Forall P l ->
    exists yss st',
      flat_mapM f l st = (Returned (concat yss), st', []) /\ Forall2 R l yss.
Proof.
  intros Hf. induction l as [|x r IH]; intros st Hall.
  - exists [], st. split; [reflexivity|constructor].
  - inversion Hall as [|? ? Hx Hr]; subst.
    destruct (Hf x st Hx) as (ys & st1 & Hrun & Hys).
    destruct (IH st1 Hr) as (yss & st2 & Hrest & Hyss).
    exists (ys :: yss), st2. split; [|constructor; assumption].
    simpl. unfold bind. rewrite Hrun, Hrest. reflexivity.
Qed.

Section ToastVisitor.

Import EnhancedErrorReporter EnhancedToastChecker.

Variable E : env.
Variable o : options.
Variable filePath : jsstring.

(** An argument that is not an object literal and is shown as a string
    yields one finding. *)
Lemma argumentErrors_whole calleeText arg s st :
  (forall l properties, arg <> ObjectExpression l properties) ->
  getStringValue arg = VStr s ->
  exists e st',
    argumentErrors E o calleeText filePath arg st = (Returned [e], st', [])
    /\ findingOfArgument calleeText filePath arg e
    /\ e !! "suggestion"
       = Some (VStr (calleeText ++ js "(t('"
                       ++ (getContextPrefix calleeText ++ js "." ++ cleanValue s)
                       ++ js "'))")).
Proof.
  intros Hobj Hs.
  assert (Hinfo : exists errorInfo,
             argumentErrorInfo calleeText arg = inr errorInfo
             /\ findingOfArgument calleeText filePath arg
                  (<["filePath" := VStr filePath]> errorInfo)
             /\ errorInfo !! "suggestion"
                = Some (VStr (calleeText ++ js "(t('"
                                ++ (getContextPrefix calleeText ++ js "."
                                      ++ cleanValue s)
                                ++ js "'))"))).
  { unfold argumentErrorInfo, suggestKey. rewrite Hs. eexists. split; [reflexivity|].
    unfold findingOfArgument. rewrite Hs. repeat split; reflexivity. }
  destruct Hinfo as (errorInfo & Hinfo & Hfind & Hsug).
  destruct (formatError_run E errorInfo filePath st) as (ctx & st' & Hrun).
  exists (formatted E errorInfo filePath ctx), st'.
  assert (Hrun' : argumentErrors E o calleeText filePath arg st
                  = (Returned [formatted E errorInfo filePath ctx], st', [])).
  { unfold argumentErrors. rewrite Hinfo.
    destruct arg;
      try (eapply (bind_Returned _ _ _ _ _ _ _ _ _ Hrun); reflexivity).
    exfalso. eapply Hobj. reflexivity. }
  split; [exact Hrun'|].
  split; [|rewrite formatted_other by congruence; exact Hsug].
  unfold findingOfArgument in *.
  rewrite !formatted_other by congruence. rewrite formatted_filePath.
  rewrite !lookup_insert_ne in Hfind by congruence.
  destruct Hfind as (H1 & H2 & H3 & H4 & H5 & _).
  repeat split; assumption.
Qed.

Lemma reportedProperty_none l properties :
  isHardcodedValue o (ObjectExpression l properties) = false ->
  List.filter (reportedProperty o) properties = [].
Proof.
  simpl. intros Hnone. induction properties as [|prop r IH]; [reflexivity|].
  simpl in Hnone. apply orb_false_iff in Hnone. destruct Hnone as [Hprop Hr].
  cbn [List.filter]. rewrite (IH Hr).
  destruct prop; try reflexivity.
  change (isUserFacingProperty o (ObjectProperty loc prop1 prop2)
          && isHardcodedValue o prop2 = false) in Hprop.
  cbn [reportedProperty]. rewrite Hprop. reflexivity.
Qed.

(** [getObjectPropertyErrors]: one finding for each reported property, in
    the order of the properties. *)
Lemma getObjectPropertyErrors_run l properties functionName st :
  exists es st',
    getObjectPropertyErrors E o (ObjectExpression l properties) functionName filePath st
    = (Returned es, st', [])
    /\ Forall2 (findingOfProperty functionName filePath)
         (List.filter (reportedProperty o) properties) es.
Proof.
  unfold getObjectPropertyErrors.
  apply flat_mapM_filter.
  - intros prop st0 Hprop. destruct prop; try discriminate.
    cbn [reportedProperty] in Hprop. rewrite Hprop.
    apply andb_true_iff in Hprop. destruct Hprop as [_ Hhard].
    destruct (getStringValue_hardcoded o _ Hhard) as (s & Hs).
    unfold propertyErrorInfo, suggestKey. rewrite Hs.
    match goal with |- context [formatError E ?err filePath] =>
      destruct (formatError_run E err filePath st0) as (ctx & st' & Hrun);
      exists (formatted E err filePath ctx), st'
    end.
    split; [eapply (bind_Returned _ _ _ _ _ _ _ _ _ Hrun); reflexivity|].
    unfold findingOfProperty. rewrite !formatted_other by congruence.
    rewrite formatted_filePath, Hs. repeat split; reflexivity.
  - intros prop st0 Hprop. destruct prop; try reflexivity.
    cbn [reportedProperty] in Hprop. rewrite Hprop. reflexivity.
Qed.

(** The visitor, on a call whose callee is a notification function: the
    findings are those of the hardcoded arguments, argument by argument. *)
Lemma visitCallExpression_run lc callee args st :
  isToastFunction E o (getCalleeText callee) = inr true ->
  exists ess st',
    visitCallExpression E o filePath (CallExpression lc callee args) st
    = (Returned (concat ess), st', [])
    /\ Forall2 (findingsOfArgument o (getCalleeText callee) filePath)
         (findHardcodedArguments o args) ess.
Proof.
  intros Htoast. unfold visitCallExpression. rewrite Htoast.
  apply (flat_mapM_each _ (fun arg => isHardcodedValue o arg = true)).
  - intros arg st0 Hhard.
    destruct (getStringValue_hardcoded o arg Hhard) as (s & Hs).
    destruct arg; try apply getObjectPropertyErrors_run;
      match goal with
      | |- context [argumentErrors _ _ _ _ ?a _] =>
          destruct (argumentErrors_whole (getCalleeText callee) a s st0)
            as (e & st' & Hrun & Hfind & _);
          [intros; discriminate|exact Hs|];
          exists [e], st'; split; [exact Hrun|]; exists e; split;
          [reflexivity|exact Hfind]
      end.
  - unfold findHardcodedArguments. apply List.Forall_forall.
    intros arg Hin. apply List.filter_In in Hin. tauto.
Qed.

End ToastVisitor.

(** What [isUserFacingProperty] reads as the key of a property: an
    [Identifier], by its name, or a [Literal], by its string value. *)
Lemma isUserFacingProperty_keys o l key v :
  EnhancedToastChecker.isUserFacingProperty o (ObjectProperty l key v) = true
  <-> (exists l' name,
         key = Identifier l' name
         /\ In name (EnhancedToastChecker.objectProperties o))
      \/ (exists l' s,
            key = Literal l' (VStr s)
            /\ In s (EnhancedToastChecker.objectProperties o)).
Proof.
  simpl. split.
  - intros Hkey. destruct key; try discriminate.
    + left. exists loc, name. split; [reflexivity|]. apply arr_includes_In. exact Hkey.
    + destruct v0; try discriminate.
      right. exists loc, s. split; [reflexivity|]. apply arr_includes_In. exact Hkey.
  - intros [(l' & name & -> & Hin)|(l' & s & -> & Hin)]; apply arr_includes_In; exact Hin.
Qed.

(** What the visitor reports.  In a call whose callee path is a
    notification function, the findings are those of the hardcoded
    arguments, argument by argument, and an object literal argument is
    expanded: [getObjectPropertyErrors] yields one finding for each property
    whose key [isUserFacingProperty] reads and finds in [objectProperties]
    and whose value [isHardcodedValue] holds of, in the order of the
    properties, and none for the object as a whole; an object argument that
    is not hardcoded has no such property.  For the argument
    [{ title: "Error", description: t('d') }] and the default options this is
    one finding, for [title]. *)
Lemma object_argument_expanded :
  (forall E o filePath lc callee args st,
     EnhancedToastChecker.isToastFunction E o
       (EnhancedToastChecker.getCalleeText callee) = inr true ->
     exists ess st',
       EnhancedToastChecker.visitCallExpression E o filePath
         (CallExpression lc callee args) st
       = (Returned (concat ess), st', [])
       /\ Forall2
            (EnhancedToastChecker.findingsOfArgument o
               (EnhancedToastChecker.getCalleeText callee) filePath)
            (EnhancedToastChecker.findHardcodedArguments o args) ess)
  /\ (forall E o filePath lc callee lo properties st,
        EnhancedToastChecker.isToastFunction E o
          (EnhancedToastChecker.getCalleeText callee) = inr true ->
        exists es st',
          EnhancedToastChecker.visitCallExpression E o filePath
            (CallExpression lc callee [ObjectExpression lo properties]) st
          = (Returned es, st', [])
          /\ Forall2
               (EnhancedToastChecker.findingOfProperty
                  (EnhancedToastChecker.getCalleeText callee) filePath)
               (List.filter (EnhancedToastChecker.reportedProperty o) properties) es)
  /\ (forall E filePath lc callee st,
        EnhancedToastChecker.isToastFunction E EnhancedToastChecker.defaultOptions
          (EnhancedToastChecker.getCalleeText callee) = inr true ->
        exists e st',
          EnhancedToastChecker.visitCallExpression E
            EnhancedToastChecker.defaultOptions filePath
            (CallExpression lc callee [Examples.errorObject]) st
          = (Returned [e], st', [])
          /\ e !! "type" = Some (VStr (js "toast-object-property"))
          /\ e !! "propertyName" = Some (VStr (js "title"))
          /\ e !! "value" = Some (VStr (js "Error"))).
Proof.
  assert (Hgen : forall E o filePath lc callee lo properties st,
     EnhancedToastChecker.isToastFunction E o
       (EnhancedToastChecker.getCalleeText callee) = inr true ->
     exists es st',
       EnhancedToastChecker.visitCallExpression E o filePath
         (CallExpression lc callee [ObjectExpression lo properties]) st
       = (Returned es, st', [])
       /\ Forall2
            (EnhancedToastChecker.findingOfProperty
               (EnhancedToastChecker.getCalleeText callee) filePath)
            (List.filter (EnhancedToastChecker.reportedProperty o) properties) es).
  { intros E o filePath lc callee lo properties st Htoast.
    destruct (EnhancedToastChecker.isHardcodedValue o (ObjectExpression lo properties))
      eqn:Hhard.
    - destruct (visitCallExpression_run E o filePath lc callee
                  [ObjectExpression lo properties] st Htoast)
        as (ess & st' & Hrun & Hess).
      rewrite findHardcodedArguments_cons, Hhard in Hess.
      inversion Hess as [|? es ? ? Hes Hnil]; subst.
      inversion Hnil; subst.
      exists es, st'. split; [|exact Hes].
      rewrite Hrun. simpl. rewrite app_nil_r. reflexivity.
    - exists [], st. split.
      + unfold EnhancedToastChecker.visitCallExpression. rewrite Htoast.
        rewrite findHardcodedArguments_cons, Hhard. reflexivity.
      + rewrite (reportedProperty_none o lo properties Hhard). constructor. }
  split; [intros; apply visitCallExpression_run; assumption|].
  split; [exact Hgen|].
  intros E filePath lc callee st Htoast.
  destruct (Hgen E EnhancedToastChecker.defaultOptions filePath lc callee
              (Examples.at_ 1 14)
              [Examples.titleProperty; Examples.descriptionProperty] st Htoast)
    as (es & st' & Hrun & Hes).
  assert (Hreported :
            List.filter (EnhancedToastChecker.reportedProperty
                           EnhancedToastChecker.defaultOptions)
              [Examples.titleProperty; Examples.descriptionProperty]
            = [Examples.titleProperty]) by (vm_compute; reflexivity).
  rewrite Hreported in Hes.
  inversion Hes as [|? e ? ? He Hnil]; subst. inversion Hnil; subst.
  exists e, st'. split; [exact Hrun|].
  destruct He as (Htype & Hname & Hvalue & _).
  repeat split; assumption.
Qed.

(** C1, on the [CallExpression] visitor.  For
    [Message.error({ 'title': 'Error' })] the visitor yields no finding: the
    key [title] is in [objectProperties] and the value is hardcoded, but the
    parser gives the quoted key as a [StringLiteral], and
    [isUserFacingProperty] reads the name of an [Identifier] and the value of
    a [Literal] only, so that neither the argument counts as hardcoded nor
    [getObjectPropertyErrors] reports the property.  With the key not quoted,
    [{ title: "Error", description: t('d') }], the visitor yields the one
    finding, for [title]. *)
Theorem quoted_key_passed_over E filePath st :
  In (js "title")
    (EnhancedToastChecker.objectProperties EnhancedToastChecker.defaultOptions)
  /\ EnhancedToastChecker.propertyName_of (StringLiteral (Examples.at_ 1 16) (js "title"))
     = Some (VStr (js "title"))
  /\ EnhancedToastChecker.isHardcodedValue EnhancedToastChecker.defaultOptions
       (StringLiteral (Examples.at_ 1 25) (js "Error")) = true
  /\ EnhancedToastChecker.isUserFacingProperty EnhancedToastChecker.defaultOptions
       Examples.quotedTitleProperty = false
  /\ EnhancedToastChecker.getObjectPropertyErrors E EnhancedToastChecker.defaultOptions
       Examples.quotedErrorObject (js "Message.error") filePath st
     = (Returned [], st, [])
  /\ EnhancedToastChecker.visitCallExpression E EnhancedToastChecker.defaultOptions
       filePath Examples.quotedKeyCall st
     = (Returned [], st, [])
  /\ exists e st',
       EnhancedToastChecker.visitCallExpression E EnhancedToastChecker.defaultOptions
         filePath Examples.errorObjectCall st
       = (Returned [e], st', [])
       /\ e !! "type" = Some (VStr (js "toast-object-property"))
       /\ e !! "propertyName" = Some (VStr (js "title"))
       /\ e !! "value" = Some (VStr (js "Error")).
Proof.
  split; [apply arr_includes_In; vm_compute; reflexivity|].
  split; [vm_compute; reflexivity|].
  split; [vm_compute; reflexivity|].
  split; [reflexivity|].
  split; [vm_compute; reflexivity|].
  split; [vm_compute; reflexivity|].
  apply (proj2 (proj2 object_argument_expanded) E filePath).
  vm_compute. reflexivity.
Qed.

(** C2.  A template literal with at least one interpolation, as an argument
    of a notification call, is hardcoded exactly when the lengths of its
    static segments add up to [MIN_STATIC_LENGTH] or more: in any argument
    list it is among the arguments the visitor reports exactly then; alone,
    it yields no finding below the threshold and one finding from it. *)
Theorem mixed_template_threshold E o filePath lc callee lt quasis expressions st :
  expressions <> [] ->
  EnhancedToastChecker.isToastFunction E o
    (EnhancedToastChecker.getCalleeText callee) = inr true ->
  let template := TemplateLiteral lt quasis expressions in
  let staticLength := length (concat quasis) in
  (EnhancedToastChecker.isHardcodedValue o template = true
   <-> EnhancedToastChecker.MIN_STATIC_LENGTH <= staticLength)
  /\ (forall before after,
        EnhancedToastChecker.findHardcodedArguments o (before ++ template :: after)
        = EnhancedToastChecker.findHardcodedArguments o before
          ++ (if (EnhancedToastChecker.MIN_STATIC_LENGTH <=? staticLength)%nat
              then [template] else [])
          ++ EnhancedToastChecker.findHardcodedArguments o after)
  /\ (staticLength < EnhancedToastChecker.MIN_STATIC_LENGTH ->
        EnhancedToastChecker.visitCallExpression E o filePath
          (CallExpression lc callee [template]) st
        = (Returned [], st, []))
  /\ (EnhancedToastChecker.MIN_STATIC_LENGTH <= staticLength ->
        exists e st',
          EnhancedToastChecker.visitCallExpression E o filePath
            (CallExpression lc callee [template]) st
          = (Returned [e], st', [])
          /\ EnhancedToastChecker.findingOfArgument
               (EnhancedToastChecker.getCalleeText callee) filePath template e).
Proof.
  intros Hmixed Htoast template staticLength.
  pose proof (isHardcodedValue_mixed_template o lt quasis expressions Hmixed) as Hhard.
  fold template staticLength in Hhard.
  split; [rewrite Hhard; apply Nat.leb_le|].
  split.
  { intros before after. rewrite findHardcodedArguments_app,
      findHardcodedArguments_cons, Hhard.
    destruct (_ <=? _)%nat; reflexivity. }
  split.
  - intros Hshort. apply Nat.leb_gt in Hshort.
    unfold EnhancedToastChecker.visitCallExpression. rewrite Htoast.
    rewrite findHardcodedArguments_cons, Hhard, Hshort. reflexivity.
  - intros Hlong. apply Nat.leb_le in Hlong.
    destruct (visitCallExpression_run E o filePath lc callee [template] st Htoast)
      as (ess & st' & Hrun & Hess).
    rewrite findHardcodedArguments_cons, Hhard, Hlong in Hess.
    inversion Hess as [|? es ? ? Hes Hnil]; subst. inversion Hnil; subst.
    destruct Hes as (e & -> & He).
    exists e, st'. split; [exact Hrun|exact He].
Qed.

Lemma mixed_template_threshold_witness :
  EnhancedToastChecker.visitCallExpression Examples.bareEnv
    EnhancedToastChecker.defaultOptions (js "src/App.tsx")
    (Examples.alert_ Examples.shortTemplate) EnhancedErrorReporter.initial
  = (Returned [], EnhancedErrorReporter.initial, [])
  /\ exists e st',
       EnhancedToastChecker.visitCallExpression Examples.bareEnv
         EnhancedToastChecker.defaultOptions (js "src/App.tsx")
         (Examples.alert_ Examples.deleteTemplate) EnhancedErrorReporter.initial
       = (Returned [e], st', [])
       /\ EnhancedToastChecker.findingOfArgument (js "alert") (js "src/App.tsx")
            Examples.deleteTemplate e.
Proof.
  split.
  - apply (mixed_template_threshold Examples.bareEnv
             EnhancedToastChecker.defaultOptions (js "src/App.tsx")
             (Examples.at_ 1 0) (Identifier (Examples.at_ 1 0) (js "alert"))
             (Examples.at_ 1 6) [[]; js "!"]
             [Identifier (Examples.at_ 1 9) (js "name")]
             EnhancedErrorReporter.initial); [discriminate|reflexivity|].
    vm_compute. lia.
  - apply (mixed_template_threshold Examples.bareEnv
             EnhancedToastChecker.defaultOptions (js "src/App.tsx")
             (Examples.at_ 1 0) (Identifier (Examples.at_ 1 0) (js "alert"))
             (Examples.at_ 1 6) [js "Are you sure you want to delete "; js "?"]
             [Identifier (Examples.at_ 1 41) (js "name")]
             EnhancedErrorReporter.initial); [discriminate|reflexivity|].
    vm_compute. lia.
Defined.

(** C6.  For [Message.error("Network error")], with [Message.error] among
    the notification functions and the default allow-list, the visitor yields
    one finding, and its suggestion is
    [Message.error(t('error.networkError'))]: the prefix that the table gives
    for [Message.error], a dot, and the words of the value in camel case. *)
Theorem network_error_suggestion E o filePath lc lm lo lp la st :
  EnhancedToastChecker.isToastFunction E o (js "Message.error") = inr true ->
  EnhancedToastChecker.allowPatterns o = EnhancedToastChecker.defaultAllowPatterns ->
  let call :=
    CallExpression lc
      (MemberExpression lm (Identifier lo (js "Message")) (Identifier lp (js "error")))
      [StringLiteral la (js "Network error")] in
  EnhancedToastChecker.getContextPrefix (js "Message.error") = js "error"
  /\ EnhancedToastChecker.cleanValue (js "Network error") = js "networkError"
  /\ EnhancedToastChecker.suggestKey (js "Message.error") (VStr (js "Network error"))
     = Some (js "error.networkError")
  /\ exists e st',
       EnhancedToastChecker.visitCallExpression E o filePath call st
       = (Returned [e], st', [])
       /\ e !! "suggestion" = Some (VStr (js "Message.error(t('error.networkError'))"))
       /\ EnhancedToastChecker.findingOfArgument (js "Message.error") filePath
            (StringLiteral la (js "Network error")) e.
Proof.
  intros Htoast Hallow call.
  split; [reflexivity|]. split; [reflexivity|]. split; [reflexivity|].
  assert (Hhard : EnhancedToastChecker.isHardcodedValue o
                    (StringLiteral la (js "Network error")) = true).
  { rewrite isHardcodedValue_string. unfold EnhancedToastChecker.isAllowedPattern.
    rewrite Hallow. reflexivity. }
  destruct (argumentErrors_whole E o filePath (js "Message.error")
              (StringLiteral la (js "Network error")) (js "Network error") st)
    as (e & st' & Hrun & Hfind & Hsug); [intros; discriminate|reflexivity|].
  exists e, st'. split; [|split; [exact Hsug|exact Hfind]].
  unfold call, EnhancedToastChecker.visitCallExpression.
  change (EnhancedToastChecker.getCalleeText _) with (js "Message.error").
  rewrite Htoast, findHardcodedArguments_cons, Hhard.
  apply flat_mapM_one. exact Hrun.
Qed.

Lemma network_error_suggestion_witness :
  exists e st',
    EnhancedToastChecker.visitCallExpression Examples.bareEnv
      EnhancedToastChecker.defaultOptions (js "src/App.tsx")
      Examples.networkErrorCall EnhancedErrorReporter.initial
    = (Returned [e], st', [])
    /\ e !! "suggestion" = Some (VStr (js "Message.error(t('error.networkError'))"))
    /\ EnhancedToastChecker.findingOfArgument (js "Message.error") (js "src/App.tsx")
         (StringLiteral (Examples.at_ 1 14) (js "Network error")) e.
Proof.
  apply (network_error_suggestion Examples.bareEnv EnhancedToastChecker.defaultOptions
           (js "src/App.tsx") (Examples.at_ 1 0) (Examples.at_ 1 0) (Examples.at_ 1 0)
           (Examples.at_ 1 8) (Examples.at_ 1 14) EnhancedErrorReporter.initial
           eq_refl eq_refl).
Defined.

(** ** The markup checks *)

Section MarkupChecks.

Import EnhancedErrorReporter JSXOptions.

Variable E : env.
Variable filePath : jsstring.

(** [checkChildren] of the [.mjs] checker: one finding for each child that
    [isInvalidContent] holds of, in the order of the children. *)
Lemma checkChildren_run n p st :
  exists es st',
    JSXHardcodedChecker.checkChildren E n p filePath st = (Returned es, st', [])
    /\ Forall2 (JSXHardcodedChecker.findingOfChild filePath)
         (List.filter
            (fun child =>
               JSXHardcodedChecker.isInvalidContent (Some child)
                 (default false (policy_allowStrings p))
                 (default true (policy_allowNumbers p)))
            (JSXHardcodedChecker.node_children n))
         es.
Proof.
  unfold JSXHardcodedChecker.checkChildren.
  apply flat_mapM_filter.
  - intros child st0 Hchild. rewrite Hchild.
    destruct (formatError_run E (JSXHardcodedChecker.childErrorInfo child) filePath st0)
      as (ctx & st' & Hrun).
    exists (formatted E (JSXHardcodedChecker.childErrorInfo child) filePath ctx), st'.
    split; [eapply (bind_Returned _ _ _ _ _ _ _ _ _ Hrun); reflexivity|].
    unfold JSXHardcodedChecker.findingOfChild.
    rewrite !formatted_other by congruence. rewrite formatted_filePath.
    repeat split; reflexivity.
  - intros child st0 Hchild. rewrite Hchild. reflexivity.
Qed.

(** The [.mjs] checker flags literal text by [allowStrings] alone. *)
Lemma isInvalidContent_literalText child allowStrings allowNumbers :
  JSXHardcodedChecker.isLiteralText child = true ->
  JSXHardcodedChecker.isInvalidContent (Some child) allowStrings allowNumbers
  = negb allowStrings.
Proof.
  simpl. induction child; simpl; intros Hlit; try discriminate; auto.
  apply negb_true_iff in Hlit.
  destruct (is_empty (trim v)) eqn:Hblank; [|reflexivity].
  apply is_empty_nil, trim_nil in Hblank. congruence.
Qed.

(** A [StringLiteral], the node that [@babel/parser] builds for a string,
    is not a [Literal]: the [.mjs] checker passes it over, the TypeScript
    checker reads its [value]. *)
Lemma isInvalidContent_StringLiteral_mjs l s allowStrings allowNumbers :
  JSXHardcodedChecker.isInvalidContent (Some (StringLiteral l s)) allowStrings allowNumbers
  = false.
Proof. reflexivity. Qed.

Lemma isInvalidContent_StringLiteral_ts l s allowStrings allowNumbers :
  JSXHardcodeChecker.isInvalidContent (Some (StringLiteral l s)) allowStrings allowNumbers
  = if forallb is_space s then false else negb allowStrings.
Proof.
  simpl. destruct (forallb is_space s) eqn:Hs.
  - apply trim_nil in Hs. rewrite Hs. reflexivity.
  - destruct (is_empty (trim s)) eqn:Hblank; [|reflexivity].
    apply is_empty_nil, trim_nil in Hblank. congruence.
Qed.

End MarkupChecks.

(** C4, as the specification states it, fails: the text [123] is allowed by
    the Allow-List Matcher, the policy of [<p>] has [allowStrings] false, and
    the markup text check flags the child. *)
Lemma markup_text_ignores_allow_list :
  EnhancedToastChecker.isAllowedPattern EnhancedToastChecker.defaultOptions (js "123")
  = true
  /\ JSXHardcodedChecker.getOptionsForNode JSXOptions.defaultOptions Examples.paragraph
     = inr (JSXOptions.policy_of_options JSXOptions.defaultOptions)
  /\ exists e st',
       JSXHardcodedChecker.checkChildren Examples.bareEnv Examples.paragraph
         (JSXOptions.policy_of_options JSXOptions.defaultOptions) (js "src/App.tsx")
         EnhancedErrorReporter.initial
       = (Returned [e], st', [])
       /\ e !! "type" = Some (VStr (js "jsx-children"))
       /\ e !! "value" = Some (VStr (js "123")).
Proof.
  split; [vm_compute; reflexivity|]. split; [reflexivity|].
  remember (JSXHardcodedChecker.checkChildren Examples.bareEnv Examples.paragraph
              (JSXOptions.policy_of_options JSXOptions.defaultOptions)
              (js "src/App.tsx") EnhancedErrorReporter.initial) as r eqn:Hr.
  assert (Hfound : match r with
                   | (Returned [e], _, []) =>
                       e !! "type" = Some (VStr (js "jsx-children"))
                       /\ e !! "value" = Some (VStr (js "123"))
                   | _ => False
                   end)
    by (subst r; vm_compute; split; reflexivity).
  destruct r as [[[[|e [|]]| |] st'] [|]]; try contradiction.
  exists e, st'. split; [reflexivity|exact Hfound].
Qed.

(** C4, amended.  A child of a markup element that is literal text (a
    [JSXText] that is not blank, or a template without interpolation in an
    expression container) is flagged by the markup text check unless the
    resolved policy of the element has [allowStrings] true; the Allow-List
    Matcher is not consulted.  [checkChildren] yields one finding for each
    flagged child, at the position of the child. *)
Theorem markup_text_flagged_unless_allowStrings E n p filePath st :
  let allowStrings := default false (JSXOptions.policy_allowStrings p) in
  let allowNumbers := default true (JSXOptions.policy_allowNumbers p) in
  (forall child,
     JSXHardcodedChecker.isLiteralText child = true ->
     JSXHardcodedChecker.isInvalidContent (Some child) allowStrings allowNumbers
     = negb allowStrings)
  /\ exists es st',
       JSXHardcodedChecker.checkChildren E n p filePath st = (Returned es, st', [])
       /\ Forall2 (JSXHardcodedChecker.findingOfChild filePath)
            (List.filter
               (fun child =>
                  JSXHardcodedChecker.isInvalidContent (Some child)
                    allowStrings allowNumbers)
               (JSXHardcodedChecker.node_children n))
            es.
Proof.
  intros allowStrings allowNumbers. split.
  - intros child Hlit. apply isInvalidContent_literalText. exact Hlit.
  - apply checkChildren_run.
Qed.

Lemma markup_text_flagged_unless_allowStrings_witness :
  JSXHardcodedChecker.isInvalidContent (Some Examples.digitsChild) false true = true.
Proof.
  apply (proj1 (markup_text_flagged_unless_allowStrings Examples.bareEnv
                  Examples.paragraph
                  (JSXOptions.policy_of_options JSXOptions.defaultOptions)
                  (js "src/App.tsx") EnhancedErrorReporter.initial)
           Examples.digitsChild).
  reflexivity.
Defined.

(** C5, on the [.mjs] checker.  For
    [<button title="Click me">{t('label')}</button>] the checker yields no
    finding at all, whatever the policy: the value of [title] is a
    [StringLiteral], which [isInvalidContent] does not know. *)
Theorem button_title_passed_over E p filePath st :
  JSXHardcodedChecker.checkProps E Examples.button p filePath st = (Returned [], st, [])
  /\ JSXHardcodedChecker.checkChildren E Examples.button p filePath st
     = (Returned [], st, [])
  /\ JSXHardcodedChecker.visitJSXElement E JSXOptions.defaultOptions filePath
       Examples.button st
     = (Returned [], st, []).
Proof.
  assert (Hprops : forall q, JSXHardcodedChecker.checkProps E Examples.button q filePath st
                             = (Returned [], st, [])).
  { intros q. unfold JSXHardcodedChecker.checkProps. simpl.
    rewrite andb_false_r. reflexivity. }
  assert (Hchildren : forall q, JSXHardcodedChecker.checkChildren E Examples.button q
                                  filePath st = (Returned [], st, [])).
  { intros q. reflexivity. }
  split; [apply Hprops|]. split; [apply Hchildren|].
  unfold JSXHardcodedChecker.visitJSXElement.
  change (JSXHardcodedChecker.getOptionsForNode _ _)
    with (@inr jsstring _ (JSXOptions.policy_of_dom (map js ["title"; "aria-label"]))).
  cbv beta iota. unfold bind. rewrite Hchildren, Hprops. reflexivity.
Qed.

(** The TypeScript checker does what C5 says: under a policy that checks
    [title] and does not allow strings it yields one finding, at the
    position of the value of [title], and none for the child. *)
Lemma button_title_reported_by_ts p :
  arr_includes (default [] (JSXOptions.policy_checkProps p)) (js "title") = true ->
  default false (JSXOptions.policy_allowStrings p) = false ->
  JSXHardcodeChecker.checkChildren Examples.button p = []
  /\ exists e,
       JSXHardcodeChecker.checkProps Examples.button p = [e]
       /\ ce_line e = 1%Z /\ ce_column e = 14%Z
       /\ ce_type e = js "jsx-prop" /\ ce_value e = js "Click me".
Proof.
  intros Htitle Hstrings. split; [reflexivity|].
  unfold JSXHardcodeChecker.checkProps. simpl.
  change (JSXHardcodeChecker.attribute_name _) with (js "title").
  rewrite Htitle, Hstrings. simpl. eexists. split; [reflexivity|].
  repeat split; reflexivity.
Qed.

(** ** A file that does not parse *)

Lemma bind_ret_nil {S A} (m : M S (list A)) st :
  bind m (fun zs => ret ([] ++ zs)) st = m st.
Proof.
  unfold bind, ret. destruct (m st) as [[[zs|e|c] st'] out]; simpl;
    rewrite ?app_nil_r; reflexivity.
Qed.

Section UnparsableFile.

Import EnhancedErrorReporter.

Variable E : env.
Variable o : JSXOptions.Options.
Variables (bad code message : jsstring).
Hypothesis Hstat : isDirectory E bad = Some false.
Hypothesis Hread : readFileSync E bad = Some code.
Hypothesis Hparse : parse E code = inl message.

Let warning : log_entry := JSXHardcodedChecker.parseWarningEntry E bad message.

(** [checkFile] of the [.mjs] checker: the warning, and no finding. *)
Lemma checkFile_unparsable st :
  JSXHardcodedChecker.checkFile E o bad st = (Returned [], st, [warning]).
Proof.
  unfold JSXHardcodedChecker.checkFile. rewrite Hstat, Hread, Hparse. reflexivity.
Qed.

Lemma checkFiles_insert_unparsable before after st res st' out :
  JSXHardcodedChecker.checkFiles E o (before ++ after) st = (res, st', out) ->
  exists out_r,
    JSXHardcodedChecker.checkFiles E o (before ++ bad :: after) st = (res, st', out_r)
    /\ ((exists out1 out2, out = out1 ++ out2 /\ out_r = out1 ++ warning :: out2)
        \/ (out_r = out /\ forall errors, res <> Returned errors)).
Proof.
  unfold JSXHardcodedChecker.checkFiles. revert st res st' out.
  induction before as [|x b IH]; intros st res st' out Hrun.
  - cbn [app flat_mapM] in *. unfold bind at 1. rewrite checkFile_unparsable.
    rewrite bind_ret_nil, Hrun. eexists. split; [reflexivity|].
    left. exists [], out. split; reflexivity.
  - cbn [app flat_mapM] in *. unfold bind at 1. unfold bind at 1 in Hrun.
    destruct (JSXHardcodedChecker.checkFile E o x st) as [[[ys|e|c] st1] out1].
    + unfold bind in Hrun |- *.
      destruct (flat_mapM (JSXHardcodedChecker.checkFile E o) (b ++ after) st1)
        as [[res1 st2] out2] eqn:Hb.
      destruct (IH _ _ _ _ Hb) as (out_b & Hbad & Hcases). rewrite Hbad.
      destruct res1 as [zs|e|c]; cbn in Hrun |- *; inversion Hrun; subst;
        (eexists; split; [reflexivity|]);
        destruct Hcases as [(o1 & o2 & -> & ->)|(-> & Hnot)].
      * left. exists (out1 ++ o1), (o2 ++ []).
        rewrite !app_nil_r, <- !app_assoc. split; reflexivity.
      * exfalso. eapply Hnot. reflexivity.
      * left. exists (out1 ++ o1), o2. rewrite <- !app_assoc. split; reflexivity.
      * right. split; [reflexivity|]. intros errors; discriminate.
      * left. exists (out1 ++ o1), o2. rewrite <- !app_assoc. split; reflexivity.
      * right. split; [reflexivity|]. intros errors; discriminate.
    + inversion Hrun; subst. eexists. split; [reflexivity|].
      right. split; [reflexivity|]. intros errors; discriminate.
    + inversion Hrun; subst. eexists. split; [reflexivity|].
      right. split; [reflexivity|]. intros errors; discriminate.
Qed.

(** The loop of the [.mjs] checker goes on after the file: the findings and
    the cache are those of the run without it, and the run prints the
    warning in addition unless an earlier file has ended it. *)
Lemma checkFiles_skips_unparsable before after st :
  let r := JSXHardcodedChecker.checkFiles E o (before ++ bad :: after) st in
  let r' := JSXHardcodedChecker.checkFiles E o (before ++ after) st in
  outcome r = outcome r' /\ final r = final r'
  /\ ((exists out1 out2, printed r' = out1 ++ out2 /\ printed r = out1 ++ warning :: out2)
      \/ (printed r = printed r' /\ forall errors, outcome r <> Returned errors)).
Proof.
  intros r r'. subst r r'.
  destruct (JSXHardcodedChecker.checkFiles E o (before ++ after) st)
    as [[res st'] out] eqn:Hrun.
  destruct (checkFiles_insert_unparsable _ _ _ _ _ _ Hrun) as (out_r & -> & Hcases).
  cbn. split; [reflexivity|]. split; [reflexivity|]. exact Hcases.
Qed.

(** The loop of the TypeScript checker returns at the file: the files after
    it are not read, and nothing is reported. *)
Lemma checkFiles_ts_returns_at_unparsable rest allErrors st :
  JSXHardcodeChecker.checkFiles E o (bad :: rest) allErrors st
  = (Returned None, st,
     [{| channel := "error";
         text := chalk E "yellow" (js "⚠️  파싱 에러 in " ++ bad ++ js ": " ++ message) |}]).
Proof.
  cbn [JSXHardcodeChecker.checkFiles]. unfold JSXHardcodeChecker.checkFile.
  rewrite Hstat, Hread, Hparse. reflexivity.
Qed.

End UnparsableFile.

(** C7, on the TypeScript checker.  The run over [broken.tsx], which does
    not parse, and [page.tsx] prints the warning and returns: [page.tsx] is
    not checked, the reporter holds no diagnostic and no report is printed.
    The same run without [broken.tsx] reports the diagnostic of
    [page.tsx]. *)
Theorem parse_failure_ends_ts_run :
  let patterns := [js "src/**/*.tsx"] in
  let r :=
    JSXHardcodeChecker.checkJSXHardcode
      (Examples.twoFilesEnv [js "broken.tsx"; js "page.tsx"])
      JSXOptions.defaultOptions patterns ErrorReporter.initial in
  let r' :=
    JSXHardcodeChecker.checkJSXHardcode (Examples.twoFilesEnv [js "page.tsx"])
      JSXOptions.defaultOptions patterns ErrorReporter.initial in
  outcome r = Returned tt
  /\ ErrorReporter.codeErrors (final r) = []
  /\ last (printed r)
     = Some {| channel := "error";
               text := js "⚠️  파싱 에러 in broken.tsx: Unexpected token (1:4)" |}
  /\ exists d,
       ErrorReporter.codeErrors (final r') = [d]
       /\ ce_value d = js "123" /\ ce_line d = 1%Z /\ ce_column d = 3%Z.
Proof.
  cbv zeta. split; [vm_compute; reflexivity|].
  split; [vm_compute; reflexivity|].
  split; [vm_compute; reflexivity|].
  remember (ErrorReporter.codeErrors
              (final (JSXHardcodeChecker.checkJSXHardcode
                        (Examples.twoFilesEnv [js "page.tsx"])
                        JSXOptions.defaultOptions [js "src/**/*.tsx"]
                        ErrorReporter.initial))) as ds eqn:Hds.
  assert (Hfound : match ds with
                   | [d] => ce_value d = js "123" /\ ce_line d = 1%Z /\ ce_column d = 3%Z
                   | _ => False
                   end)
    by (subst ds; vm_compute; repeat split).
  destruct ds as [|d [|]]; try contradiction.
  exists d. split; [reflexivity|exact Hfound].
Qed.

(** On the same two files the [.mjs] checker goes on to [page.tsx] and
    reports its diagnostic. *)
Lemma parse_failure_skipped_by_mjs_run :
  exists e st' out,
    JSXHardcodedChecker.checkFiles
      (Examples.twoFilesEnv [js "broken.tsx"; js "page.tsx"])
      JSXOptions.defaultOptions [js "broken.tsx"; js "page.tsx"]
      EnhancedErrorReporter.initial
    = (Returned [e], st', out)
    /\ e !! "value" = Some (VStr (js "123"))
    /\ e !! "filePath" = Some (VStr (js "page.tsx")).
Proof.
  remember (JSXHardcodedChecker.checkFiles
              (Examples.twoFilesEnv [js "broken.tsx"; js "page.tsx"])
              JSXOptions.defaultOptions [js "broken.tsx"; js "page.tsx"]
              EnhancedErrorReporter.initial) as r eqn:Hr.
  assert (Hfound : match outcome r with
                   | Returned [e] =>
                       e !! "value" = Some (VStr (js "123"))
                       /\ e !! "filePath" = Some (VStr (js "page.tsx"))
                   | _ => False
                   end)
    by (subst r; vm_compute; split; reflexivity).
  destruct r as [[[[|e [|]]| |] st'] out]; try contradiction.
  exists e, st', out. split; [reflexivity|exact Hfound].
Qed.

(** ** The report *)

Lemma insert_indexed_Permutation {B} (i : N) (entry : B) sorted :
  Permutation (insert_indexed i entry sorted) ((i, entry) :: sorted).
Proof.
  induction sorted as [|[j e] r IH]; cbn [insert_indexed]; [reflexivity|].
  destruct (i <? j)%N; [reflexivity|].
  rewrite IH. apply perm_swap.
Qed.

Lemma insert_indexed_sorted {B} (i : N) (entry : B) sorted :
  StronglySorted (fun a b => (a.1 <= b.1)%N) sorted ->
  StronglySorted (fun a b => (a.1 <= b.1)%N) (insert_indexed i entry sorted).
Proof.
  intros Hsorted. induction Hsorted as [|[j e] r Hr IH Hj]; cbn [insert_indexed].
  - constructor; constructor.
  - destruct (N.ltb_spec i j) as [Hlt|Hge].
    + constructor; [constructor; assumption|].
      constructor; [cbn; lia|].
      eapply Forall_impl; [exact Hj|]. intros b Hb. cbn in *. lia.
    + constructor; [exact IH|].
      rewrite insert_indexed_Permutation. constructor; [cbn; lia|exact Hj].
Qed.

Section Entries.

Context {A : Type}.

Lemma indexed_entries_Permutation (o : list (jsstring * A)) :
  Permutation (map snd (indexed_entries o)) (List.filter is_array_index o).
Proof.
  induction o as [|entry r IH]; [reflexivity|].
  cbn [indexed_entries List.filter]. unfold is_array_index at 1.
  destruct (array_index entry.1) as [i|]; [|exact IH].
  rewrite insert_indexed_Permutation. cbn [map snd]. rewrite IH. reflexivity.
Qed.

Lemma filter_partition_Permutation (f : jsstring * A -> bool) o :
  Permutation (List.filter f o ++ List.filter (fun entry => negb (f entry)) o) o.
Proof.
  induction o as [|entry r IH]; [reflexivity|]. cbn [List.filter].
  destruct (f entry); cbn [negb app].
  - rewrite IH. reflexivity.
  - rewrite <- Permutation_middle, IH. reflexivity.
Qed.

(** [Object.entries] lists every property once. *)
Lemma Object_entries_Permutation (o : list (jsstring * A)) :
  Permutation (Object_entries o) o.
Proof.
  unfold Object_entries. rewrite indexed_entries_Permutation.
  apply filter_partition_Permutation.
Qed.

Lemma indexed_entries_none (o : list (jsstring * A)) :
  (forall entry, In entry o -> array_index entry.1 = None) ->
  indexed_entries o = [] /\ List.filter (fun entry => negb (is_array_index entry)) o = o.
Proof.
  induction o as [|entry r IH]; intros Hnone; [split; reflexivity|].
  cbn [indexed_entries List.filter]. unfold is_array_index at 1.
  rewrite (Hnone entry) by (left; reflexivity). cbn [negb].
  destruct IH as [H1 H2]; [intros e He; apply Hnone; right; exact He|].
  rewrite H1, H2. split; reflexivity.
Qed.

(** Without a key that is an array index, the order is that of creation. *)
Lemma Object_entries_plain (o : list (jsstring * A)) :
  (forall entry, In entry o -> array_index entry.1 = None) ->
  Object_entries o = o.
Proof.
  intros Hnone. unfold Object_entries.
  destruct (indexed_entries_none o Hnone) as [-> ->]. reflexivity.
Qed.

Lemma insert_indexed_index (i : N) (entry : jsstring * A) sorted :
  array_index entry.1 = Some i ->
  Forall (fun ie => array_index ie.2.1 = Some ie.1) sorted ->
  Forall (fun ie => array_index ie.2.1 = Some ie.1) (insert_indexed i entry sorted).
Proof.
  intros Hi Hall. induction Hall as [|[j e] r Hj Hr IH]; cbn [insert_indexed].
  - constructor; [exact Hi|constructor].
  - destruct (i <? j)%N.
    + constructor; [exact Hi|]. constructor; assumption.
    + constructor; assumption.
Qed.

Lemma indexed_entries_index (o : list (jsstring * A)) :
  Forall (fun ie => array_index ie.2.1 = Some ie.1) (indexed_entries o).
Proof.
  induction o as [|entry r IH]; [constructor|]. cbn [indexed_entries].
  destruct (array_index entry.1) as [i|] eqn:Hi; [|exact IH].
  apply insert_indexed_index; assumption.
Qed.

Lemma indexed_entries_sorted (o : list (jsstring * A)) :
  StronglySorted (fun a b => (a.1 <= b.1)%N) (indexed_entries o).
Proof.
  induction o as [|entry r IH]; [constructor|]. cbn [indexed_entries].
  destruct (array_index entry.1); [apply insert_indexed_sorted|]; exact IH.
Qed.

End Entries.

Section Grouping.

Import EnhancedErrorReporter.

Lemma group_slot_of_Missing groups file :
  group_slot_of groups file = Missing -> ~ In file (map fst groups).
Proof.
  induction groups as [|[f es] r IH]; simpl; [tauto|].
  destruct (jseqb f file) eqn:Hf; [discriminate|].
  intros Hslot [Heq|Hin]; [|exact (IH Hslot Hin)].
  subst. rewrite jseqb_refl in Hf. discriminate.
Qed.

Lemma push_to_group_keys groups file error :
  map fst (push_to_group groups file error) = map fst groups.
Proof.
  induction groups as [|[f es] r IH]; simpl; [reflexivity|].
  destruct (jseqb f file); simpl; [reflexivity|]. rewrite IH. reflexivity.
Qed.

Lemma push_to_group_errors groups file error es :
  group_slot_of groups file = Own es ->
  Permutation (concat (map snd (push_to_group groups file error)))
    (concat (map snd groups) ++ [error]).
Proof.
  revert es.
  induction groups as [|[f es0] r IH];
    cbn [group_slot_of push_to_group]; intros es Hslot.
  - destruct (arr_includes objectPrototypeKeys file); discriminate.
  - destruct (jseqb f file); simpl.
    + rewrite <- !app_assoc. apply Permutation_app_head. apply Permutation_app_comm.
    + rewrite <- app_assoc. apply Permutation_app_head. eapply IH. exact Hslot.
Qed.

Lemma push_to_group_grouped groups error :
  grouped groups -> grouped (push_to_group groups (fileOf error) error).
Proof.
  unfold grouped. induction groups as [|[f es] r IH]; simpl; intros Hall; [constructor|].
  inversion Hall as [|? ? Hg Hr]; subst.
  destruct (jseqb f (fileOf error)) eqn:Hf.
  - constructor; [|exact Hr]. simpl in *. apply jseqb_eq in Hf.
    apply Forall_app. split; [exact Hg|]. constructor; [congruence|constructor].
  - constructor; [exact Hg|]. apply IH. exact Hr.
Qed.

Lemma groupStep_None errors : fold_left groupStep errors None = None.
Proof. induction errors; simpl; auto. Qed.

Lemma groupErrorsByFile_from errors groups0 seen groups :
  Permutation (concat (map snd groups0)) seen ->
  NoDup (map fst groups0) ->
  grouped groups0 ->
  fold_left groupStep errors (Some groups0) = Some groups ->
  Permutation (concat (map snd groups)) (seen ++ errors)
  /\ NoDup (map fst groups) /\ grouped groups.
Proof.
  revert groups0 seen.
  induction errors as [|error r IH]; intros groups0 seen Hperm Hnodup Hgrouped Hfold.
  - simpl in Hfold. inversion Hfold; subst. rewrite app_nil_r. auto.
  - simpl in Hfold.
    destruct (group_slot_of groups0 (fileOf error)) as [es| |] eqn:Hslot.
    + apply (IH _ (seen ++ [error])) in Hfold.
      * rewrite <- app_assoc in Hfold. exact Hfold.
      * rewrite (push_to_group_errors _ _ _ _ Hslot).
        apply Permutation_app_tail. exact Hperm.
      * rewrite push_to_group_keys. exact Hnodup.
      * apply push_to_group_grouped. exact Hgrouped.
    + rewrite groupStep_None in Hfold. discriminate.
    + apply (IH _ (seen ++ [error])) in Hfold.
      * rewrite <- app_assoc in Hfold. exact Hfold.
      * rewrite map_app, concat_app. simpl.
        apply Permutation_app_tail. exact Hperm.
      * rewrite map_app. simpl. apply NoDup_app. split; [exact Hnodup|].
        split; [|apply NoDup_singleton].
        intros f Hin Hf. apply list_elem_of_In in Hin.
        apply list_elem_of_singleton in Hf. subst.
        exact (group_slot_of_Missing _ _ Hslot Hin).
      * unfold grouped in *. apply Forall_app. split; [exact Hgrouped|].
        constructor; [|constructor]. simpl. constructor; [reflexivity|constructor].
Qed.

(** [groupErrorsByFile] puts every diagnostic in the group of its file, once,
    and makes one group for a file. *)
Lemma groupErrorsByFile_partition errors groups :
  groupErrorsByFile errors = Some groups ->
  Permutation (concat (map snd groups)) errors
  /\ NoDup (map fst groups) /\ grouped groups.
Proof.
  intros Hgroups.
  apply (groupErrorsByFile_from errors [] [] groups); try constructor.
  exact Hgroups.
Qed.

End Grouping.

Section Report.

Variable E : env.

Lemma groupStep_not_inherited groups error :
  arr_includes objectPrototypeKeys (EnhancedErrorReporter.fileOf error) = false ->
  exists groups', EnhancedErrorReporter.groupStep (Some groups) error = Some groups'.
Proof.
  intros Hown. unfold EnhancedErrorReporter.groupStep.
  assert (Hslot : EnhancedErrorReporter.group_slot_of groups
                    (EnhancedErrorReporter.fileOf error)
                  <> EnhancedErrorReporter.Inherited).
  { induction groups as [|[f es] r IH]; cbn [EnhancedErrorReporter.group_slot_of].
    - rewrite Hown. discriminate.
    - destruct (jseqb f _); [discriminate|exact IH]. }
  destruct (EnhancedErrorReporter.group_slot_of _ _); eauto. congruence.
Qed.

(** [groupErrorsByFile] returns unless a path is the name of a member of
    [Object.prototype]. *)
Lemma groupErrorsByFile_returns errors :
  (forall e, In e errors ->
             arr_includes objectPrototypeKeys (EnhancedErrorReporter.fileOf e) = false) ->
  exists groups, EnhancedErrorReporter.groupErrorsByFile errors = Some groups.
Proof.
  unfold EnhancedErrorReporter.groupErrorsByFile. generalize (@nil (jsstring * list obj)).
  induction errors as [|error r IH]; intros groups Hown; simpl; [eauto|].
  destruct (groupStep_not_inherited groups error) as (groups' & Hstep);
    [apply Hown; now left|].
  simpl in Hstep. rewrite Hstep. apply IH. intros e He. apply Hown. now right.
Qed.

(** The report of the [.mjs] reporter: its header states the number of
    diagnostics, and each diagnostic is rendered once, in the sub-report of
    its file. *)
Lemma generateReport_counts_diagnostics errors groups :
  errors <> [] ->
  EnhancedErrorReporter.groupErrorsByFile errors = Some groups ->
  EnhancedErrorReporter.generateReport E errors
  = Some (join nl
            ([chalk E "red.bold"
                (js "🚨 총 " ++ toString (Z.of_nat (length errors))
                   ++ js "개의 하드코딩 발견!" ++ nl)]
             ++ flat_map (EnhancedErrorReporter.renderFile E) (Object_entries groups)
             ++ [EnhancedErrorReporter.generateFixGuide E]))
  /\ Permutation (Object_entries groups) groups
  /\ Permutation (concat (map snd groups)) errors
  /\ NoDup (map fst groups)
  /\ EnhancedErrorReporter.grouped groups.
Proof.
  intros Hne Hgroups. split; [|split; [apply Object_entries_Permutation|];
                               apply groupErrorsByFile_partition; exact Hgroups].
  unfold EnhancedErrorReporter.generateReport. rewrite Hgroups.
  destruct errors; [congruence|reflexivity].
Qed.

(** The report of the TypeScript reporters is its header alone, and the
    header states the number of files: [Object.entries] lists nothing of a
    [Map]. *)
Lemma ts_reportLines st :
  ErrorReporter.reportLines E st
  = [chalk E "red.bold"
       (js "🚨 총 " ++ toString (Z.of_nat (size (ErrorReporter.fileErrors st)))
          ++ js "개의 하드코딩 발견!" ++ nl)].
Proof. reflexivity. Qed.

Lemma codeFrameReporter_reportLines st :
  CodeFrameReporter.reportLines E st
  = [chalk E "red.bold"
       (js "🚨 총 " ++ toString (Z.of_nat (size (CodeFrameReporter.fileErrors st)))
          ++ js "개의 하드코딩 발견!" ++ nl)].
Proof. reflexivity. Qed.

Lemma generateCodeSnippet_run filePath l c st :
  let content :=
    match ErrorReporter.fileCache st !! filePath with
    | Some content => content
    | None => default [] (readFileSync E filePath)
    end in
  exists st' out,
    ErrorReporter.generateCodeSnippet E filePath l c st
    = (Returned
         (match codeFrameColumns E (FrameAt content l c 2 2) with
          | Some frame => frame
          | None => ErrorReporter.snippetPlaceholder E filePath
          end),
       st', out)
    /\ ErrorReporter.fileErrors st' = ErrorReporter.fileErrors st
    /\ ErrorReporter.codeErrors st' = ErrorReporter.codeErrors st.
Proof.
  unfold ErrorReporter.generateCodeSnippet, try_catch, bind, ret, throw,
    ErrorReporter.getFileLines.
  destruct (ErrorReporter.fileCache st !! filePath) as [content|].
  - cbn zeta. destruct (codeFrameColumns E _); simpl; eauto.
  - destruct (readFileSync E filePath) as [content|]; cbn zeta;
      destruct (codeFrameColumns E _); simpl; eauto.
Qed.

Lemma addCodeError_run filePath error st :
  exists snippet st' out,
    ErrorReporter.addCodeError E filePath error st = (Returned tt, st', out)
    /\ ErrorReporter.fileErrors st'
       = <[filePath :=
             default [] (ErrorReporter.fileErrors st !! filePath)
             ++ [{| ce_line := ce_line error; ce_column := ce_column error;
                    ce_message := ce_message error; ce_type := ce_type error;
                    ce_value := ce_value error; codeSnippet := snippet |}]]>
           (ErrorReporter.fileErrors st)
    /\ ErrorReporter.codeErrors st'
       = ErrorReporter.codeErrors st
         ++ [{| ce_line := ce_line error; ce_column := ce_column error;
                ce_message := ce_message error; ce_type := ce_type error;
                ce_value := ce_value error; codeSnippet := snippet |}].
Proof.
  destruct (generateCodeSnippet_run filePath (ce_line error) (ce_column error) st)
    as (st1 & out & Hrun & Herrors & Hcodes).
  unfold ErrorReporter.addCodeError, ErrorReporter.formatError, bind, ret, modify.
  rewrite Hrun. cbn. rewrite Herrors, Hcodes. eauto 10.
Qed.

End Report.

(** C9, on the TypeScript reporter.  After two diagnostics have been added
    for one file, the reporter holds two diagnostics, and the report it
    prints is one line, the header, which says [1]: the number of files.
    No diagnostic is rendered. *)
Theorem ts_report_counts_files E filePath :
  let r :=
    (ErrorReporter.addCodeError E filePath Examples.firstError ;;;
     ErrorReporter.addCodeError E filePath Examples.secondError ;;;
     ErrorReporter.printReport E)
      ErrorReporter.initial in
  outcome r = Returned tt
  /\ length (ErrorReporter.codeErrors (final r)) = 2
  /\ ErrorReporter.reportLines E (final r)
     = [chalk E "red.bold" (js "🚨 총 1개의 하드코딩 발견!" ++ nl)]
  /\ last (printed r)
     = Some {| channel := "log";
               text := chalk E "red.bold" (js "🚨 총 1개의 하드코딩 발견!" ++ nl) |}.
Proof.
  cbv zeta.
  destruct (addCodeError_run E filePath Examples.firstError ErrorReporter.initial)
    as (s1 & st1 & out1 & Hrun1 & Hfiles1 & Hcodes1).
  destruct (addCodeError_run E filePath Examples.secondError st1)
    as (s2 & st2 & out2 & Hrun2 & Hfiles2 & Hcodes2).
  assert (Hsize : size (ErrorReporter.fileErrors st2) = 1).
  { rewrite Hfiles2, Hfiles1. cbn [ErrorReporter.initial ErrorReporter.fileErrors].
    rewrite insert_insert_eq, insert_empty. apply map_size_singleton. }
  assert (Hcount : length (ErrorReporter.codeErrors st2) = 2).
  { rewrite Hcodes2, Hcodes1. reflexivity. }
  assert (Hprint : ErrorReporter.printReport E st2
                   = (Returned tt, st2,
                      [{| channel := "log";
                          text := ErrorReporter.generateErrorReport E st2 |}])).
  { unfold ErrorReporter.printReport, bind, get. cbv beta iota.
    rewrite Hcount. reflexivity. }
  assert (Hreport : ErrorReporter.generateErrorReport E st2
                    = chalk E "red.bold" (js "🚨 총 1개의 하드코딩 발견!" ++ nl)).
  { unfold ErrorReporter.generateErrorReport. rewrite ts_reportLines, Hsize.
    vm_compute. reflexivity. }
  unfold bind. rewrite Hrun1, Hrun2, Hprint. cbn [outcome final printed fst snd].
  split; [reflexivity|]. split; [exact Hcount|].
  split; [rewrite ts_reportLines, Hsize; vm_compute; reflexivity|].
  rewrite Hreport, !app_assoc, last_snoc. reflexivity.
Qed.

(** ** Failures while a frame is built *)

Section FrameFailures.

Variable E : env.
Variable filePath : jsstring.


Lemma createCodeFrame_unreadable l c contextLines message st :
  readFileSync E filePath = None ->
  CodeFrameReporter.fileCache st !! filePath = None ->
  exists st',
    CodeFrameReporter.createCodeFrame E filePath l c contextLines message st
    = (Returned (CodeFrameReporter.unreadablePlaceholder E), st',
       [{| channel := "warn";
           text := chalk E "yellow" (js "⚠️  파일을 읽을 수 없습니다: " ++ filePath) |}]).
Proof.
  intros Hread Hcache.
  unfold CodeFrameReporter.createCodeFrame, CodeFrameReporter.getFileLines, bind, ret.
  rewrite Hcache, Hread. cbn. eauto.
Qed.

Lemma createCodeFrame_renderer_throws l c contextLines message st lines :
  CodeFrameReporter.fileCache st !! filePath = Some lines ->
  join nl lines <> [] ->
  (forall request, codeFrameColumns E request = None) ->
  CodeFrameReporter.createCodeFrame E filePath l c contextLines message st
  = (Exited 1, st,
     [{| channel := "error"; text := CodeFrameReporter.frameFailure E filePath |}]).
Proof.
  intros Hcache Hlines Hthrows.
  unfold CodeFrameReporter.createCodeFrame, CodeFrameReporter.getFileLines, bind, ret.
  rewrite Hcache. cbn.
  destruct (join nl lines) eqn:Hjoin; [congruence|]. cbn.
  rewrite Hthrows. reflexivity.
Qed.

End FrameFailures.




(** ** [formatError] *)

(** C10.  [formatError(error, filePath)] returns a new object: its fields
    are those of the finding, [line], [column], [message], [type], [value]
    and [suggestion] among them, with [filePath], [context] and
    [codeSnippet] set, and the finding itself is as it was. *)
Theorem formatError_keeps_finding E objects fileCache error finding filePath :
  objects !! error = Some finding ->
  exists r e fileCache',
    EnhancedErrorReporter.formatError_at E error filePath (objects, fileCache)
    = (Returned r, (<[r := e]> objects, fileCache'), [])
    /\ EnhancedErrorReporter.formatError E finding filePath fileCache
       = (Returned e, fileCache', [])
    /\ objects !! r = None
    /\ <[r := e]> objects !! error = Some finding
    /\ (forall r', r' <> r -> <[r := e]> objects !! r' = objects !! r')
    /\ (forall k, In k ["line"; "column"; "message"; "type"; "value"; "suggestion"] ->
                  e !! k = finding !! k)
    /\ (forall k, ~ In k ["filePath"; "context"; "codeSnippet"] -> e !! k = finding !! k)
    /\ e !! "filePath" = Some (VStr filePath)
    /\ (exists context, e !! "context" = Some (VContext context))
    /\ (exists snippet, e !! "codeSnippet" = Some (VStr snippet)).
Proof.
  intros Hfinding.
  destruct (formatError_run E finding filePath fileCache) as (context & fileCache' & Hrun).
  set (r := fresh (dom objects)).
  assert (Hnew : objects !! r = None).
  { apply not_elem_of_dom. apply is_fresh. }
  assert (Hother : forall k, ~ In k ["filePath"; "context"; "codeSnippet"] ->
             EnhancedErrorReporter.formatted E finding filePath context !! k
             = finding !! k).
  { intros k Hk. apply formatted_other; intros ->; apply Hk; simpl; tauto. }
  exists r, (EnhancedErrorReporter.formatted E finding filePath context), fileCache'.
  split; [|split; [exact Hrun|]].
  { unfold EnhancedErrorReporter.formatError_at. rewrite Hfinding, Hrun. reflexivity. }
  split; [exact Hnew|].
  split; [rewrite lookup_insert_ne by congruence; exact Hfinding|].
  split; [intros r' Hr'; apply lookup_insert_ne; congruence|].
  split.
  { intros k Hk. apply Hother. simpl in *.
    intros [<-|[<-|[<-|[]]]]; intuition discriminate. }
  split; [exact Hother|].
  split; [apply formatted_filePath|].
  split; [exists context|eexists]; unfold EnhancedErrorReporter.formatted.
  - rewrite lookup_insert_ne by done. apply lookup_insert_eq.
  - apply lookup_insert_eq.
Qed.

Lemma formatError_keeps_finding_witness :
  exists r e fileCache',
    EnhancedErrorReporter.formatError_at Examples.bareEnv 0 (js "src/App.tsx")
      (Examples.oneFinding, EnhancedErrorReporter.initial)
    = (Returned r, (<[r := e]> Examples.oneFinding, fileCache'), [])
    /\ <[r := e]> Examples.oneFinding !! 0
       = Some (JSXHardcodedChecker.childErrorInfo Examples.digitsChild)
    /\ e !! "value" = Some (VStr (js "123"))
    /\ e !! "filePath" = Some (VStr (js "src/App.tsx")).
Proof.
  destruct (formatError_keeps_finding Examples.bareEnv Examples.oneFinding
              EnhancedErrorReporter.initial 0
              (JSXHardcodedChecker.childErrorInfo Examples.digitsChild)
              (js "src/App.tsx") eq_refl)
    as (r & e & fileCache' & Hrun & _ & _ & Hkept & _ & Hfields & _ & Hpath & _).
  exists r, e, fileCache'. split; [exact Hrun|]. split; [exact Hkept|].
  split; [|exact Hpath].
  rewrite (Hfields "value"); [reflexivity|simpl; tauto].
Defined.

(* ================================================================== *)
(** * Further properties *)
(* ================================================================== *)

(** ** [groupErrorsByFile] *)

Section GroupsOf.

Import EnhancedErrorReporter Vocabulary.

Lemma firstSeen_snoc paths f :
  firstSeen (paths ++ [f])
  = if arr_includes (firstSeen paths) f then firstSeen paths
    else firstSeen paths ++ [f].
Proof. unfold firstSeen. rewrite fold_left_app. reflexivity. Qed.

Lemma firstSeen_In paths f : In f (firstSeen paths) <-> In f paths.
Proof.
  induction paths as [|g r IH] using rev_ind; [reflexivity|].
  rewrite firstSeen_snoc, !in_app_iff.
  destruct (arr_includes (firstSeen r) g) eqn:Hg.
  - apply arr_includes_In in Hg. rewrite IH. simpl.
    split; [tauto|]. intros [H|[<-|[]]]; [exact H|]. apply IH. exact Hg.
  - rewrite in_app_iff, IH. reflexivity.
Qed.

Lemma firstSeen_NoDup paths : NoDup (firstSeen paths).
Proof.
  induction paths as [|g r IH] using rev_ind; [constructor|].
  rewrite firstSeen_snoc.
  destruct (arr_includes (firstSeen r) g) eqn:Hg; [exact IH|].
  apply NoDup_app. split; [exact IH|]. split; [|apply NoDup_singleton].
  intros x Hx Hg'. apply list_elem_of_singleton in Hg'. subst.
  apply list_elem_of_In, arr_includes_In in Hx. congruence.
Qed.

Lemma ofFile_snoc f errors e :
  ofFile f (errors ++ [e])
  = ofFile f errors ++ (if jseqb (fileOf e) f then [e] else []).
Proof. unfold ofFile. rewrite List.filter_app. reflexivity. Qed.

Lemma ofFile_absent f errors :
  ~ In f (map fileOf errors) -> ofFile f errors = [].
Proof.
  induction errors as [|e r IH]; [reflexivity|]. simpl. intros Hnot.
  destruct (jseqb (fileOf e) f) eqn:He.
  - apply jseqb_eq in He. tauto.
  - apply IH. tauto.
Qed.

Lemma group_slot_of_groups keys (G : jsstring -> list obj) f :
  In f keys ->
  exists es, group_slot_of (map (fun g => (g, G g)) keys) f = Own es.
Proof.
  induction keys as [|g r IH]; simpl; [tauto|]. intros Hin.
  destruct (jseqb g f) eqn:Hg; [eauto|].
  destruct Hin as [->|Hin]; [rewrite jseqb_refl in Hg; discriminate|auto].
Qed.

Lemma group_slot_of_fresh keys (G : jsstring -> list obj) f :
  ~ In f keys ->
  arr_includes objectPrototypeKeys f = false ->
  group_slot_of (map (fun g => (g, G g)) keys) f = Missing.
Proof.
  intros Hnot Hown. induction keys as [|g r IH]; cbn [map group_slot_of].
  - rewrite Hown. reflexivity.
  - destruct (jseqb g f) eqn:Hg.
    + apply jseqb_eq in Hg. subst. simpl in Hnot. tauto.
    + apply IH. simpl in Hnot. tauto.
Qed.

Lemma push_to_group_groups keys errors e :
  NoDup keys ->
  push_to_group (map (fun g => (g, ofFile g errors)) keys) (fileOf e) e
  = map (fun g => (g, ofFile g (errors ++ [e]))) keys
  \/ ~ In (fileOf e) keys.
Proof.
  induction keys as [|g r IH]; intros Hnodup; [right; simpl; tauto|].
  inversion Hnodup as [|? ? Hg Hr]; subst.
  rewrite list_elem_of_In in Hg.
  cbn [map push_to_group].
  destruct (jseqb g (fileOf e)) eqn:Heq.
  - left. apply jseqb_eq in Heq. subst g.
    rewrite ofFile_snoc, jseqb_refl. f_equal.
    apply map_ext_in. intros g Hin. rewrite ofFile_snoc.
    destruct (jseqb (fileOf e) g) eqn:Hg'; [|rewrite app_nil_r; reflexivity].
    apply jseqb_eq in Hg'. subst. contradiction.
  - destruct (IH Hr) as [Hpush|Hnot].
    + left. rewrite Hpush, ofFile_snoc.
      assert (Hne : jseqb (fileOf e) g = false).
      { destruct (jseqb (fileOf e) g) eqn:H; [|reflexivity].
        apply jseqb_eq in H. subst. rewrite jseqb_refl in Heq. discriminate. }
      rewrite Hne, app_nil_r. reflexivity.
    + right. simpl. intros [->|Hin]; [|tauto].
      rewrite jseqb_refl in Heq. discriminate.
Qed.

Lemma groupStep_groupsOf errors e :
  arr_includes objectPrototypeKeys (fileOf e) = false ->
  groupStep (Some (groupsOf errors)) e = Some (groupsOf (errors ++ [e])).
Proof.
  intros Hown. unfold groupStep, groupsOf.
  rewrite map_app. cbn [map]. rewrite firstSeen_snoc.
  set (keys := firstSeen (map fileOf errors)).
  destruct (arr_includes keys (fileOf e)) eqn:Hseen.
  - apply arr_includes_In in Hseen.
    destruct (group_slot_of_groups keys (fun g => ofFile g errors) _ Hseen)
      as (es & ->).
    destruct (push_to_group_groups keys errors e (firstSeen_NoDup _))
      as [->|Hnot]; [reflexivity|contradiction].
  - assert (Hnot : ~ In (fileOf e) keys).
    { intros Hin. apply arr_includes_In in Hin. congruence. }
    rewrite (group_slot_of_fresh keys _ _ Hnot Hown).
    rewrite map_app. cbn [map]. f_equal. f_equal.
    + apply map_ext_in. intros g Hin. rewrite ofFile_snoc.
      destruct (jseqb (fileOf e) g) eqn:Hg; [|rewrite app_nil_r; reflexivity].
      apply jseqb_eq in Hg. subst. contradiction.
    + rewrite ofFile_snoc, jseqb_refl, ofFile_absent; [reflexivity|].
      intros Hin. apply Hnot. apply firstSeen_In. exact Hin.
Qed.

Lemma groupErrorsByFile_from_groupsOf errors seen :
  (forall e, In e errors -> arr_includes objectPrototypeKeys (fileOf e) = false) ->
  fold_left groupStep errors (Some (groupsOf seen)) = Some (groupsOf (seen ++ errors)).
Proof.
  revert seen. induction errors as [|e r IH]; intros seen Hown.
  - rewrite app_nil_r. reflexivity.
  - cbn [fold_left]. rewrite groupStep_groupsOf by (apply Hown; now left).
    rewrite (IH (seen ++ [e])) by (intros; apply Hown; now right).
    rewrite <- app_assoc. reflexivity.
Qed.

End GroupsOf.

Lemma indexed_entries_ascending {A} (o : list (jsstring * A)) :
  StronglySorted
    (fun a b =>
       exists i j, array_index a.1 = Some i /\ array_index b.1 = Some j /\ (i <= j)%N)
    (map snd (indexed_entries o)).
Proof.
  pose proof (indexed_entries_sorted o) as Hsorted.
  pose proof (indexed_entries_index o) as Hindex.
  induction Hsorted as [|[i entry] r Hr IH Hle]; [constructor|].
  inversion Hindex as [|? ? Hi Hrest]; subst. cbn [map snd].
  constructor; [apply IH; exact Hrest|].
  apply Forall_map. apply List.Forall_forall. intros [j e] Hin.
  exists i, j. split; [exact Hi|]. split.
  - exact (proj1 (List.Forall_forall _ _) Hrest (j, e) Hin).
  - exact (proj1 (List.Forall_forall _ _) Hle (j, e) Hin).
Qed.

(** X1.  The groups of a report, as [generateReport] goes through them with
    [Object.entries]: the files whose path is an array index come first, in
    ascending order of the index, and the other files follow in the order in
    which they are first seen among the diagnostics; under each file are its
    diagnostics, in the order of the list.  Without a path that is an array
    index the files are listed as first seen.  (No path is the name of a
    member of [Object.prototype].) *)
Theorem groupErrorsByFile_first_seen_order (errors : list obj) :
  (forall e, In e errors ->
             arr_includes objectPrototypeKeys (EnhancedErrorReporter.fileOf e) = false) ->
  exists groups indexed,
    EnhancedErrorReporter.groupErrorsByFile errors = Some groups
    /\ Object_entries groups
       = indexed
         ++ List.filter (fun g => negb (is_array_index g)) (Vocabulary.groupsOf errors)
    /\ Permutation indexed (List.filter is_array_index (Vocabulary.groupsOf errors))
    /\ StronglySorted
         (fun a b =>
            exists i j,
              array_index a.1 = Some i /\ array_index b.1 = Some j /\ (i <= j)%N)
         indexed
    /\ ((forall e, In e errors -> array_index (EnhancedErrorReporter.fileOf e) = None) ->
        Object_entries groups = Vocabulary.groupsOf errors).
Proof.
  intros Hown.
  exists (Vocabulary.groupsOf errors), (map snd (indexed_entries (Vocabulary.groupsOf errors))).
  split; [exact (groupErrorsByFile_from_groupsOf errors [] Hown)|].
  split; [reflexivity|].
  split; [apply indexed_entries_Permutation|].
  split; [apply indexed_entries_ascending|].
  intros Hplain. apply Object_entries_plain. intros [f es] Hin.
  unfold Vocabulary.groupsOf in Hin. apply in_map_iff in Hin.
  destruct Hin as (g & [= <- <-] & Hg). cbn [fst].
  apply firstSeen_In, in_map_iff in Hg. destruct Hg as (e & <- & He).
  apply Hplain. exact He.
Qed.

(** ** The context window and the file cache *)

Section Window.

Import EnhancedErrorReporter.

Lemma count_line_seqZ (x a : Z) (k : nat) :
  length (List.filter (fun i => (i =? x)%Z) (seqZ a (Z.of_nat k)))
  = if ((a <=? x) && (x <? a + Z.of_nat k))%Z then 1 else 0.
Proof.
  induction k as [|k IH].
  - rewrite seqZ_nil by lia. change (Z.of_nat 0) with 0%Z.
    destruct (Z.leb_spec a x), (Z.ltb_spec x (a + 0)); simpl; try reflexivity; lia.
  - rewrite seqZ_S, List.filter_app, length_app, IH. cbn [List.filter].
    destruct (Z.leb_spec a x), (Z.ltb_spec x (a + Z.of_nat k)),
      (Z.eqb_spec (a + Z.of_nat k) x), (Z.ltb_spec x (a + Z.of_nat (S k)));
      simpl; try reflexivity; lia.
Qed.

Lemma filter_isError_map (mk : Z -> context_line) (x : Z) (l : list Z) :
  (forall i, isError (mk i) = (i =? x)%Z) ->
  length (List.filter isError (map mk l))
  = length (List.filter (fun i => (i =? x)%Z) l).
Proof.
  intros Hmk. induction l as [|i r IH]; [reflexivity|].
  simpl. rewrite Hmk. destruct (i =? x)%Z; simpl; rewrite IH; reflexivity.
Qed.

Variable E : env.
Variable filePath : jsstring.

Lemma getFileLines_run st :
  exists lines st',
    getFileLines E filePath st = (Returned lines, st', [])
    /\ st' !! filePath = Some lines
    /\ (forall g, g <> filePath -> st' !! g = st !! g)
    /\ (forall lines0, st !! filePath = Some lines0 -> lines = lines0 /\ st' = st).
Proof.
  unfold getFileLines. destruct (st !! filePath) as [lines0|] eqn:Hcache.
  - exists lines0, st. repeat split; auto; congruence.
  - eexists _, _. split; [reflexivity|]. split; [apply lookup_insert_eq|].
    split; [intros g Hg; apply lookup_insert_ne; congruence|discriminate].
Qed.

End Window.

(** X2.  The context window of [createCodeContext] has at most five lines,
    each of them a line of the file within two lines of the finding, shown
    with its number; the line of the finding is in it once when the file has
    that line, and not at all otherwise. *)
Theorem createCodeContext_window E filePath (l : Z) column st :
  exists lines context st',
    EnhancedErrorReporter.getFileLines E filePath st = (Returned lines, st', [])
    /\ EnhancedErrorReporter.createCodeContext E filePath (Some l) column st
       = (Returned context, st', [])
    /\ length context <= 5
    /\ Forall
         (fun c =>
            exists i : Z,
              (1 <= i <= Z.of_nat (length lines))%Z /\ (l - 2 <= i <= l + 2)%Z
              /\ lineNumber c = padStart 3 (toString i)
              /\ content c = nth (Z.to_nat (i - 1)) lines []
              /\ isError c = (i =? l)%Z)
         context
    /\ length (List.filter isError context)
       = if ((1 <=? l) && (l <=? Z.of_nat (length lines)))%Z then 1 else 0.
Proof.
  destruct (getFileLines_run E filePath st) as (lines & st' & Hrun & _).
  exists lines. eexists. exists st'. split; [exact Hrun|].
  split.
  { unfold EnhancedErrorReporter.createCodeContext, bind, ret. rewrite Hrun.
    reflexivity. }
  set (startLine := Z.max 1 (l - 2)).
  set (endLine := Z.min (Z.of_nat (length lines)) (l + 2)).
  split; [|split].
  - rewrite length_map, length_seqZ. lia.
  - apply List.Forall_forall. intros c Hc. apply in_map_iff in Hc.
    destruct Hc as (i & <- & Hi). apply list_elem_of_In, elem_of_seqZ in Hi.
    exists i. cbn. repeat split; lia.
  - rewrite (filter_isError_map _ l) by reflexivity.
    destruct (Z_le_gt_dec (endLine - startLine + 1) 0) as [Hempty|Hsome].
    + rewrite seqZ_nil by lia.
      destruct (Z.leb_spec 1 l), (Z.leb_spec l (Z.of_nat (length lines)));
        simpl; try reflexivity; lia.
    + rewrite <- (Z2Nat.id (endLine - startLine + 1)) by lia.
      rewrite count_line_seqZ, Z2Nat.id by lia.
      destruct (Z.leb_spec startLine l),
        (Z.ltb_spec l (startLine + (endLine - startLine + 1))),
        (Z.leb_spec 1 l), (Z.leb_spec l (Z.of_nat (length lines)));
        simpl; try reflexivity; lia.
Qed.

(** X3.  [formatError] reads a file at most once: it adds the file of the
    finding to the cache when it is not there and changes no other entry,
    and once the file is cached the result no longer depends on the file
    system and the cache stays as it is. *)
Theorem formatError_reads_once E error filePath st :
  let r := EnhancedErrorReporter.formatError E error filePath st in
  is_Some (final r !! filePath)
  /\ (forall g lines, st !! g = Some lines -> final r !! g = Some lines)
  /\ (forall g, g <> filePath -> final r !! g = st !! g)
  /\ (forall E' error',
        chalk E' = chalk E ->
        EnhancedErrorReporter.formatError E' error' filePath (final r)
        = EnhancedErrorReporter.formatError E error' filePath (final r)
        /\ final (EnhancedErrorReporter.formatError E' error' filePath (final r))
           = final r).
Proof.
  cbv zeta.
  assert (Hshape : forall E0 error0 st0,
            exists lines st1,
              EnhancedErrorReporter.getFileLines E0 filePath st0
              = (Returned lines, st1, [])
              /\ EnhancedErrorReporter.formatError E0 error0 filePath st0
                 = (Returned
                      (EnhancedErrorReporter.formatted E0 error0 filePath
                         (match number_field error0 "line" with
                          | None => []
                          | Some line =>
                              map (fun i =>
                                     {| lineNumber := padStart 3 (toString i);
                                        content := nth (Z.to_nat (i - 1)) lines [];
                                        isError := (i =? line)%Z;
                                        ctx_column :=
                                          if (i =? line)%Z
                                          then Some (default 0%Z (number_field error0 "column"))
                                          else None |})
                                (seqZ (Z.max 1 (line - 2))
                                   (Z.min (Z.of_nat (length lines)) (line + 2)
                                    - Z.max 1 (line - 2) + 1))
                          end)),
                    st1, [])).
  { intros E0 error0 st0.
    destruct (getFileLines_run E0 filePath st0) as (lines & st1 & Hrun & _).
    exists lines, st1. split; [exact Hrun|].
    unfold EnhancedErrorReporter.formatError, EnhancedErrorReporter.createCodeContext,
      bind, ret. rewrite Hrun. reflexivity. }
  destruct (getFileLines_run E filePath st) as (lines & st' & Hrun & Hcached & Hother & Hkeep).
  destruct (Hshape E error st) as (lines1 & st1 & Hrun1 & Hformat).
  rewrite Hrun in Hrun1. inversion Hrun1; subst lines1 st1. clear Hrun1.
  rewrite Hformat. cbn [final fst snd].
  split; [rewrite Hcached; eauto|].
  split.
  { intros g lines0 Hg. destruct (decide (g = filePath)) as [->|Hne].
    - destruct (Hkeep _ Hg) as [_ ->]. exact Hg.
    - rewrite Hother by exact Hne. exact Hg. }
  split; [exact Hother|].
  intros E' error' Hchalk.
  destruct (Hshape E' error' st') as (la & sa & Hruna & Hfa).
  destruct (Hshape E error' st') as (lb & sb & Hrunb & Hfb).
  destruct (getFileLines_run E' filePath st') as (l1 & s1 & Hr1 & _ & _ & Hk1).
  destruct (getFileLines_run E filePath st') as (l2 & s2 & Hr2 & _ & _ & Hk2).
  destruct (Hk1 _ Hcached) as [-> ->]. destruct (Hk2 _ Hcached) as [-> ->].
  rewrite Hr1 in Hruna. rewrite Hr2 in Hrunb.
  inversion Hruna; subst la sa. inversion Hrunb; subst lb sb.
  rewrite Hfa, Hfb. cbn [final fst snd]. split; [|reflexivity].
  unfold EnhancedErrorReporter.formatted, EnhancedErrorReporter.generateCodeSnippet.
  rewrite Hchalk. reflexivity.
Qed.

Lemma groupErrorsByFile_first_seen_order_witness :
  let errors := [Vocabulary.findingIn (js "10") 1;
                 Vocabulary.findingIn (js "b.tsx") 2;
                 Vocabulary.findingIn (js "2") 3;
                 Vocabulary.findingIn (js "a.tsx") 4;
                 Vocabulary.findingIn (js "b.tsx") 5] in
  (forall e, In e errors ->
     arr_includes objectPrototypeKeys (EnhancedErrorReporter.fileOf e) = false)
  /\ map fst (Object_entries (Vocabulary.groupsOf errors))
     = [js "2"; js "10"; js "b.tsx"; js "a.tsx"]
  /\ exists groups indexed,
       EnhancedErrorReporter.groupErrorsByFile errors = Some groups
       /\ Object_entries groups
          = indexed
            ++ List.filter (fun g => negb (is_array_index g)) (Vocabulary.groupsOf errors)
       /\ Permutation indexed (List.filter is_array_index (Vocabulary.groupsOf errors))
       /\ StronglySorted
            (fun a b =>
               exists i j,
                 array_index a.1 = Some i /\ array_index b.1 = Some j /\ (i <= j)%N)
            indexed
       /\ ((forall e, In e errors ->
              array_index (EnhancedErrorReporter.fileOf e) = None) ->
           Object_entries groups = Vocabulary.groupsOf errors).
Proof.
  cbv zeta.
  assert (Hown : forall e,
             In e [Vocabulary.findingIn (js "10") 1;
                   Vocabulary.findingIn (js "b.tsx") 2;
                   Vocabulary.findingIn (js "2") 3;
                   Vocabulary.findingIn (js "a.tsx") 4;
                   Vocabulary.findingIn (js "b.tsx") 5] ->
             arr_includes objectPrototypeKeys (EnhancedErrorReporter.fileOf e) = false).
  { intros e [<-|[<-|[<-|[<-|[<-|[]]]]]]; vm_compute; reflexivity. }
  split; [exact Hown|].
  split; [vm_compute; reflexivity|].
  exact (groupErrorsByFile_first_seen_order _ Hown).
Defined.

(** ** The callee and the suggested key *)

Section ToastKeys.

Import EnhancedToastChecker Vocabulary.

Lemma isToastFunction_some_exact E funcs calleeText :
  (forall func, In func funcs -> includes func (js "*") = false) ->
  isToastFunction_some E funcs calleeText = inr (arr_includes funcs calleeText).
Proof.
  induction funcs as [|func r IH]; intros Hplain; [reflexivity|].
  cbn [isToastFunction_some]. rewrite (Hplain func) by (left; reflexivity).
  unfold arr_includes. cbn [existsb].
  destruct (jseqb calleeText func); [reflexivity|].
  apply IH. intros f Hf. apply Hplain. right. exact Hf.
Qed.

Lemma getCalleeText_memberChain_from head names :
  getCalleeText (memberChain head names)
  = getCalleeText head ++ flat_map (fun name => js "." ++ name) names.
Proof.
  revert head. induction names as [|name r IH]; intros head; simpl.
  - rewrite app_nil_r. reflexivity.
  - rewrite IH. cbn [getCalleeText name_field String_].
    rewrite <- !app_assoc. reflexivity.
Qed.

Lemma is_key_char_lower c : is_key_char c = true -> is_key_char (lower_char c) = true.
Proof.
  unfold lower_char. destruct (is_upper c) eqn:Hup; [|auto]. intros _.
  unfold is_key_char, is_lower, is_upper, in_range in *.
  apply andb_true_iff in Hup. destruct Hup as [H1 H2].
  apply N.leb_le in H1, H2.
  assert (Hlow : ((97 <=? c + 32) && (c + 32 <=? 122))%N = true).
  { apply andb_true_iff. split; apply N.leb_le; lia. }
  rewrite Hlow. reflexivity.
Qed.

Lemma is_key_char_upper c : is_key_char c = true -> is_key_char (upper_char c) = true.
Proof.
  unfold upper_char. destruct (is_lower c) eqn:Hlow; [|auto]. intros _.
  unfold is_key_char, is_lower, is_upper, in_range in *.
  apply andb_true_iff in Hlow. destruct Hlow as [H1 H2].
  apply N.leb_le in H1, H2.
  assert (Hup : ((65 <=? c - 32) && (c - 32 <=? 90))%N = true).
  { apply andb_true_iff. split; apply N.leb_le; lia. }
  rewrite Hup. apply orb_true_iff. left. apply orb_true_iff. left.
  apply orb_true_r.
Qed.

Lemma key_word_toLowerCase word : key_word word -> key_word (toLowerCase word).
Proof.
  unfold key_word, toLowerCase. intros H. apply Forall_map.
  eapply Forall_impl; [exact H|]. intros c. apply is_key_char_lower.
Qed.

Lemma key_word_toUpperCase word : key_word word -> key_word (toUpperCase word).
Proof.
  unfold key_word, toUpperCase. intros H. apply Forall_map.
  eapply Forall_impl; [exact H|]. intros c. apply is_key_char_upper.
Qed.

Lemma kept_key_char c : kept c = true -> is_space c = false -> is_key_char c = true.
Proof.
  unfold kept, is_key_char. intros Hkept Hspace. rewrite Hspace in Hkept.
  rewrite orb_false_r in Hkept. exact Hkept.
Qed.

Lemma Forall_trimStart (P : N -> Prop) s : Forall P s -> Forall P (trimStart s).
Proof.
  induction 1 as [|c r Hc Hr IH]; simpl; [constructor|].
  destruct (is_space c); [exact IH|constructor; assumption].
Qed.

Lemma Forall_trim (P : N -> Prop) s : Forall P s -> Forall P (trim s).
Proof.
  intros H. unfold trim, trimEnd.
  apply Forall_rev, Forall_trimStart, Forall_rev, Forall_trimStart. exact H.
Qed.

Lemma split_spaces_go_words s cur skipping :
  Forall (fun c => kept c = true) s -> key_word cur ->
  Forall key_word (split_spaces_go s cur skipping).
Proof.
  intros Hs. revert cur skipping.
  induction Hs as [|c r Hc Hr IH]; intros cur skipping Hcur; simpl.
  - constructor; [apply Forall_rev; exact Hcur|constructor].
  - destruct (is_space c) eqn:Hspace.
    + destruct skipping.
      * apply IH. constructor.
      * constructor; [apply Forall_rev; exact Hcur|]. apply IH. constructor.
    + apply IH. constructor; [apply kept_key_char; assumption|exact Hcur].
Qed.

Lemma camel_words words index :
  Forall key_word words -> Forall key_word (camel words index).
Proof.
  intros H. revert index. induction H as [|word r Hword Hr IH]; intros index; simpl;
    constructor; [|apply IH].
  destruct (index =? 0)%nat; [apply key_word_toLowerCase; exact Hword|].
  destruct (existsb is_hangul word); [exact Hword|].
  unfold capitalize. destruct word as [|c w]; [constructor|].
  inversion Hword; subst. apply Forall_app. split.
  - apply key_word_toUpperCase. constructor; [assumption|constructor].
  - apply key_word_toLowerCase. assumption.
Qed.

Lemma join_nil_words words : Forall key_word words -> key_word (join [] words).
Proof.
  induction 1 as [|word r Hword Hr IH]; [constructor|].
  cbn [join]. destruct r as [|w r']; [exact Hword|].
  apply Forall_app. split; [exact Hword|exact IH].
Qed.

Lemma filter_kept_Forall s : Forall (fun c => kept c = true) (List.filter kept s).
Proof.
  apply List.Forall_forall. intros c Hc. apply List.filter_In in Hc. tauto.
Qed.

End ToastKeys.

(** X4.  When no entry of [toastFunctions] holds a [*], [isToastFunction]
    is the membership of the callee text in the list: no regular expression
    is compiled, and the answer is never an error. *)
Theorem isToastFunction_without_wildcard E o calleeText :
  (forall func, In func (EnhancedToastChecker.toastFunctions o) ->
     includes func (js "*") = false) ->
  EnhancedToastChecker.isToastFunction E o calleeText
  = inr (arr_includes (EnhancedToastChecker.toastFunctions o) calleeText).
Proof. apply isToastFunction_some_exact. Qed.

Lemma isToastFunction_without_wildcard_witness :
  (forall func,
     In func (EnhancedToastChecker.toastFunctions EnhancedToastChecker.defaultOptions) ->
     includes func (js "*") = false)
  /\ EnhancedToastChecker.isToastFunction Examples.bareEnv
       EnhancedToastChecker.defaultOptions (js "Message.error")
     = inr (arr_includes
              (EnhancedToastChecker.toastFunctions EnhancedToastChecker.defaultOptions)
              (js "Message.error")).
Proof.
  assert (Hplain : forall func,
             In func (EnhancedToastChecker.toastFunctions
                        EnhancedToastChecker.defaultOptions) ->
             includes func (js "*") = false).
  { assert (Hall : forallb (fun func => negb (includes func (js "*")))
                     (EnhancedToastChecker.toastFunctions
                        EnhancedToastChecker.defaultOptions) = true)
      by (vm_compute; reflexivity).
    intros func Hin. apply negb_true_iff.
    exact (proj1 (forallb_forall _ _) Hall func Hin). }
  split; [exact Hplain|].
  exact (isToastFunction_without_wildcard Examples.bareEnv
           EnhancedToastChecker.defaultOptions (js "Message.error") Hplain).
Defined.

(** X5.  The text [getCalleeText] gives for a chain of member accesses by
    name is the text of its head followed by the names, each after a dot;
    the head counts as the empty text unless it is an identifier or a
    member access. *)
Theorem getCalleeText_memberChain head names :
  EnhancedToastChecker.getCalleeText (Vocabulary.memberChain head names)
  = EnhancedToastChecker.getCalleeText head
    ++ flat_map (fun name => js "." ++ name) names.
Proof. apply getCalleeText_memberChain_from. Qed.

(** X6.  The key that [suggestKey] builds from a string is the prefix of the
    context, a dot, and a tail that holds ASCII letters, digits and Hangul
    syllables only. *)
Theorem suggestKey_tail (context s : jsstring) :
  exists tail,
    EnhancedToastChecker.suggestKey context (VStr s)
    = Some (EnhancedToastChecker.getContextPrefix context ++ js "." ++ tail)
    /\ Vocabulary.key_word tail.
Proof.
  exists (EnhancedToastChecker.cleanValue s). split; [reflexivity|].
  unfold EnhancedToastChecker.cleanValue.
  apply join_nil_words, camel_words. unfold split_spaces.
  apply split_spaces_go_words; [|constructor].
  apply Forall_trim, filter_kept_Forall.
Qed.

(** X7.  For a string without a letter, a digit or a Hangul syllable the
    tail is empty: the suggested key is the prefix followed by a dot. *)
Theorem suggestKey_without_letters (context s : jsstring) :
  (forall c, In c s -> Vocabulary.is_key_char c = false) ->
  EnhancedToastChecker.suggestKey context (VStr s)
  = Some (EnhancedToastChecker.getContextPrefix context ++ js ".").
Proof.
  intros Hnone. unfold EnhancedToastChecker.suggestKey, EnhancedToastChecker.cleanValue.
  assert (Hblank : forallb is_space (List.filter EnhancedToastChecker.kept s) = true).
  { apply forallb_forall. intros c Hc. apply List.filter_In in Hc.
    destruct Hc as [Hin Hkept]. specialize (Hnone c Hin).
    destruct (is_space c) eqn:Hspace; [reflexivity|].
    rewrite (kept_key_char c Hkept Hspace) in Hnone. discriminate. }
  apply trim_nil in Hblank. rewrite Hblank. cbn. rewrite app_nil_r. reflexivity.
Qed.

Lemma suggestKey_without_letters_witness :
  (forall c, In c (js "...!?") -> Vocabulary.is_key_char c = false)
  /\ EnhancedToastChecker.suggestKey (js "alert") (VStr (js "...!?"))
     = Some (EnhancedToastChecker.getContextPrefix (js "alert") ++ js ".").
Proof.
  assert (Hnone : forall c, In c (js "...!?") -> Vocabulary.is_key_char c = false).
  { assert (Hall : forallb (fun c => negb (Vocabulary.is_key_char c)) (js "...!?") = true)
      by (vm_compute; reflexivity).
    intros c Hin. apply negb_true_iff.
    exact (proj1 (forallb_forall _ _) Hall c Hin). }
  split; [exact Hnone|].
  exact (suggestKey_without_letters (js "alert") (js "...!?") Hnone).
Defined.

(** ** The markup checkers *)

Section MarkupRuns.

Import EnhancedErrorReporter JSXOptions Vocabulary.

Variable E : env.
Variable o : Options.
Variable filePath : jsstring.

Lemma flat_mapM_returns {S A B} (f : A -> M S (list B)) :
  (forall x st, exists ys st', f x st = (Returned ys, st', [])) ->
  forall l st, exists ys st', flat_mapM f l st = (Returned ys, st', []).
Proof.
  intros Hf l st.
  destruct (flat_mapM_each f (fun _ => True) (fun _ _ => True)) with (l := l) (st := st)
    as (yss & st' & Hrun & _).
  - intros x st0 _. destruct (Hf x st0) as (ys & st1 & H). eauto.
  - apply List.Forall_forall. auto.
  - eauto.
Qed.

Lemma checkProps_returns n p st :
  exists es st', JSXHardcodedChecker.checkProps E n p filePath st = (Returned es, st', []).
Proof.
  unfold JSXHardcodedChecker.checkProps. apply flat_mapM_returns.
  intros attr st0. destruct attr; try (eexists _, _; reflexivity).
  destruct name; try (eexists _, _; reflexivity).
  match goal with |- context [if ?c then _ else _] => destruct c end;
    [|eexists _, _; reflexivity].
  match goal with |- context [formatError E ?err filePath] =>
    destruct (formatError_run E err filePath st0) as (ctx & st' & Hrun)
  end.
  eexists _, _. eapply (bind_Returned _ _ _ _ _ _ _ _ _ Hrun). reflexivity.
Qed.

Lemma visitJSXElement_returns n p st :
  JSXHardcodedChecker.getOptionsForNode o n = inr p ->
  exists es st',
    JSXHardcodedChecker.visitJSXElement E o filePath n st = (Returned es, st', []).
Proof.
  intros Hp. unfold JSXHardcodedChecker.visitJSXElement. rewrite Hp.
  destruct (checkChildren_run E filePath n p st) as (es1 & st1 & H1 & _).
  destruct (checkProps_returns n p st1) as (es2 & st2 & H2).
  exists (es1 ++ es2), st2. unfold bind, ret. rewrite H1, H2. reflexivity.
Qed.

Lemma visitJSXElement_throws n e st :
  JSXHardcodedChecker.getOptionsForNode o n = inl e ->
  JSXHardcodedChecker.visitJSXElement E o filePath n st = (Thrown e, st, []).
Proof.
  intros He. unfold JSXHardcodedChecker.visitJSXElement. rewrite He. reflexivity.
Qed.

Lemma getOptionsForNode_element n :
  JSXHardcodedChecker.is_JSXElement n = true -> is_namespaced n = false ->
  exists p, JSXHardcodedChecker.getOptionsForNode o n = inr p.
Proof.
  destruct n; try discriminate. intros _ Hns.
  destruct name as [tagName| |]; try discriminate; simpl; eauto.
  destruct tagName as [|c r]; eauto. destruct (c =? lower_char c)%N; eauto.
Qed.

Lemma traverse_returns nodes errors st :
  exists es st' out,
    JSXHardcodedChecker.traverse E o filePath nodes errors st = (Returned es, st', out).
Proof.
  revert errors st. induction nodes as [|n r IH]; intros errors st.
  - eexists _, _, _. reflexivity.
  - cbn [JSXHardcodedChecker.traverse].
    destruct (JSXHardcodedChecker.is_JSXElement n); [|apply IH].
    destruct (JSXHardcodedChecker.getOptionsForNode o n) as [e|p] eqn:Hp.
    + rewrite (visitJSXElement_throws n e st Hp). eexists _, _, _. reflexivity.
    + destruct (visitJSXElement_returns n p st Hp) as (es & st1 & Hrun).
      rewrite Hrun.
      destruct (IH (errors ++ es) st1) as (es' & st2 & out & Hrest).
      rewrite Hrest. eexists _, _, _. reflexivity.
Qed.

Lemma traverse_until_namespaced pre l attrs children post errors st :
  forallb (fun n => negb (is_namespaced n)) pre = true ->
  exists es st',
    JSXHardcodedChecker.traverse E o filePath pre errors st = (Returned es, st', [])
    /\ JSXHardcodedChecker.traverse E o filePath
         (pre ++ JSXElement l JSXNamespacedName attrs children :: post) errors st
       = (Returned es, st',
          [JSXHardcodedChecker.parseWarningEntry E filePath
             (js "Cannot read properties of undefined (reading 'toLowerCase')")]).
Proof.
  revert errors st. induction pre as [|n r IH]; intros errors st Hpre.
  - exists errors, st. split; reflexivity.
  - cbn [forallb] in Hpre. apply andb_true_iff in Hpre. destruct Hpre as [Hn Hr].
    apply negb_true_iff in Hn.
    cbn [app JSXHardcodedChecker.traverse].
    destruct (JSXHardcodedChecker.is_JSXElement n) eqn:Hel; [|apply IH; exact Hr].
    destruct (getOptionsForNode_element n Hel Hn) as (p & Hp).
    destruct (visitJSXElement_returns n p st Hp) as (es & st1 & Hrun).
    rewrite Hrun.
    destruct (IH (errors ++ es) st1 Hr) as (es' & st2 & H1 & H2).
    rewrite H1, H2. exists es', st2. split; reflexivity.
Qed.

Lemma checkFile_no_exit st c :
  outcome (JSXHardcodedChecker.checkFile E o filePath st) <> Exited c.
Proof.
  unfold JSXHardcodedChecker.checkFile.
  destruct (isDirectory E filePath) as [[|]|]; try discriminate.
  destruct (readFileSync E filePath) as [code|]; try discriminate.
  destruct (parse E code) as [message|nodes]; try discriminate.
  destruct (traverse_returns nodes [] st) as (es & st' & out & ->). discriminate.
Qed.

Lemma flat_mapM_no_exit {S A B} (f : A -> M S (list B)) :
  (forall x st c, outcome (f x st) <> Exited c) ->
  forall l st c, outcome (flat_mapM f l st) <> Exited c.
Proof.
  intros Hf. induction l as [|x r IH]; intros st c; [discriminate|].
  cbn [flat_mapM]. unfold bind at 1. specialize (Hf x st).
  destruct (f x st) as [[[ys|e|c0] st1] out1]; cbn in *; try discriminate.
  - specialize (IH st1). unfold bind, ret.
    destruct (flat_mapM f r st1) as [[[zs|e|c0] st2] out2]; cbn in *;
      try discriminate.
    exact (IH c).
  - exact (Hf c).
Qed.

End MarkupRuns.

Lemma checkFiles_no_exit E o files st c :
  outcome (JSXHardcodedChecker.checkFiles E o files st) <> Exited c.
Proof. apply flat_mapM_no_exit. intros f st0 c0. apply checkFile_no_exit. Qed.

(** X8.  In the [.mjs] checker an element with a namespaced name, such as
    [<svg:rect/>], ends the check of its file: the findings are those of the
    elements that [traverse] enters before it, the elements after it are not
    visited, and the failure is printed as a parse warning. *)
Theorem namespaced_element_ends_file E o filePath code pre l attrs children post st :
  isDirectory E filePath = Some false ->
  readFileSync E filePath = Some code ->
  parse E code = inr (pre ++ JSXElement l JSXNamespacedName attrs children :: post) ->
  forallb (fun n => negb (Vocabulary.is_namespaced n)) pre = true ->
  exists errors st',
    JSXHardcodedChecker.checkFile E o filePath st
    = (Returned errors, st',
       [JSXHardcodedChecker.parseWarningEntry E filePath
          (js "Cannot read properties of undefined (reading 'toLowerCase')")])
    /\ JSXHardcodedChecker.traverse E o filePath pre [] st = (Returned errors, st', []).
Proof.
  intros Hstat Hread Hparse Hpre.
  destruct (traverse_until_namespaced E o filePath pre l attrs children post [] st Hpre)
    as (es & st' & H1 & H2).
  exists es, st'. split; [|exact H1].
  unfold JSXHardcodedChecker.checkFile. rewrite Hstat, Hread, Hparse. exact H2.
Qed.

Lemma namespaced_element_ends_file_witness :
  exists errors st',
    JSXHardcodedChecker.checkFile Vocabulary.svgEnv JSXOptions.defaultOptions
      (js "icon.tsx") EnhancedErrorReporter.initial
    = (Returned errors, st',
       [JSXHardcodedChecker.parseWarningEntry Vocabulary.svgEnv (js "icon.tsx")
          (js "Cannot read properties of undefined (reading 'toLowerCase')")])
    /\ JSXHardcodedChecker.traverse Vocabulary.svgEnv JSXOptions.defaultOptions
         (js "icon.tsx") [Examples.paragraph; Examples.digitsChild] []
         EnhancedErrorReporter.initial
       = (Returned errors, st', []).
Proof.
  apply (namespaced_element_ends_file Vocabulary.svgEnv JSXOptions.defaultOptions
           (js "icon.tsx") (js "<p>123</p><svg:rect/><p>123</p>")
           [Examples.paragraph; Examples.digitsChild] (Examples.at_ 1 10) [] []
           [Examples.paragraph; Examples.digitsChild]
           EnhancedErrorReporter.initial);
    reflexivity.
Defined.

Lemma checkJSXHardcoding_run E o patterns st :
  exists verdict st' out,
    JSXHardcodedChecker.checkJSXHardcoding E o patterns st = (Returned verdict, st', out)
    /\ (verdict = true <->
        exists files,
          glob E (JSXHardcodedChecker.includePatterns_of patterns)
            (JSXHardcodedChecker.defaultIgnores
               ++ JSXHardcodedChecker.excludePatterns_of patterns)
          = inr files
          /\ outcome (JSXHardcodedChecker.checkFiles E o files st) = Returned []).
Proof.
  unfold JSXHardcodedChecker.checkJSXHardcoding.
  unfold bind at 1 2 3. unfold log at 1 2 3. cbv beta iota zeta.
  unfold try_catch.
  destruct (glob E (JSXHardcodedChecker.includePatterns_of patterns)
              (JSXHardcodedChecker.defaultIgnores
                 ++ JSXHardcodedChecker.excludePatterns_of patterns))
    as [e|files] eqn:Hglob.
  - cbn. eexists _, _, _. split; [reflexivity|].
    split; [discriminate|]. intros (files & Hfiles & _). discriminate.
  - unfold bind at 1. unfold log at 1. cbv beta iota zeta.
    unfold bind at 1.
    pose proof (checkFiles_no_exit E o files st) as Hexit.
    destruct (JSXHardcodedChecker.checkFiles E o files st)
      as [[[allErrors|e|c] st1] out1] eqn:Hrun; cbn in Hexit.
    + destruct allErrors as [|error r].
      * cbn. eexists _, _, _. split; [reflexivity|].
        split; [|reflexivity]. intros _. exists files.
        split; [reflexivity|]. rewrite Hrun. reflexivity.
      * cbn [length Nat.eqb].
        destruct (EnhancedErrorReporter.generateReport E (error :: r)); cbn;
          (eexists _, _, _; split; [reflexivity|]);
          (split; [discriminate|]); intros (files' & [= <-] & Hnone);
          rewrite Hrun in Hnone; discriminate.
    + cbn. eexists _, _, _. split; [reflexivity|].
      split; [discriminate|]. intros (files' & [= <-] & Hnone).
      rewrite Hrun in Hnone. discriminate.
    + exfalso. exact (Hexit c eq_refl).
Qed.

(** X9.  [checkJSXHardcoding] always returns a verdict: an error of [glob],
    of the file system or of the report is caught and gives [false], and the
    process is never ended.  The verdict is [true] exactly when [glob]
    gives the files and the loop over them returns no finding. *)
Theorem checkJSXHardcoding_returns_verdict E o patterns st :
  exists verdict st' out,
    JSXHardcodedChecker.checkJSXHardcoding E o patterns st = (Returned verdict, st', out)
    /\ (verdict = true <->
        exists files,
          glob E (JSXHardcodedChecker.includePatterns_of patterns)
            (JSXHardcodedChecker.defaultIgnores
               ++ JSXHardcodedChecker.excludePatterns_of patterns)
          = inr files
          /\ outcome (JSXHardcodedChecker.checkFiles E o files st) = Returned []).
Proof. apply checkJSXHardcoding_run. Qed.

Section MarkupPolicies.

Import JSXOptions Vocabulary.

Lemma isInvalidContent_node_mjs_ts n allowStrings allowNumbers :
  JSXHardcodedChecker.isInvalidContent_node n allowStrings allowNumbers = true ->
  JSXHardcodeChecker.isInvalidContent_node n allowStrings allowNumbers = true.
Proof.
  induction n; simpl; try discriminate; auto.
Qed.

Lemma getOptionsForNode_dom_entry (o : Options) l tagName attrs children props :
  starts_lower tagName = true ->
  lookup_own (opt_dom o) tagName = Some props ->
  JSXHardcodedChecker.getOptionsForNode o (JSXElement l (JSXIdentifier tagName) attrs children)
  = inr (policy_of_dom props)
  /\ JSXHardcodeChecker.getOptionsForNode o (JSXElement l (JSXIdentifier tagName) attrs children)
     = policy_of_dom props.
Proof.
  intros Hlower Hentry. destruct tagName as [|c r]; [discriminate|].
  cbn in Hlower. cbn [JSXHardcodedChecker.getOptionsForNode JSXHardcodeChecker.getOptionsForNode].
  rewrite Hlower. unfold dom_or_options. rewrite Hentry. split; reflexivity.
Qed.

End MarkupPolicies.

(** X10.  Whatever the [.mjs] checker takes for hardcoded content, the
    TypeScript checker takes for hardcoded content too, under the same
    [allowStrings] and [allowNumbers]. *)
Theorem mjs_content_flagged_by_ts (n : option node) (allowStrings allowNumbers : bool) :
  JSXHardcodedChecker.isInvalidContent n allowStrings allowNumbers = true ->
  JSXHardcodeChecker.isInvalidContent n allowStrings allowNumbers = true.
Proof.
  destruct n as [n|]; [|discriminate]. apply isInvalidContent_node_mjs_ts.
Qed.

Lemma mjs_content_flagged_by_ts_witness :
  JSXHardcodedChecker.isInvalidContent (Some Examples.digitsChild) false true = true
  /\ JSXHardcodeChecker.isInvalidContent (Some Examples.digitsChild) false true = true.
Proof.
  assert (H : JSXHardcodedChecker.isInvalidContent (Some Examples.digitsChild) false true
              = true) by (vm_compute; reflexivity).
  split; [exact H|].
  exact (mjs_content_flagged_by_ts (Some Examples.digitsChild) false true H).
Defined.

(** X11.  An element whose tag starts in lower case and has an entry of its
    own in [dom] is checked by the two checkers as under the options
    [allowStrings: false], [allowNumbers: true] and the [checkProps] of the
    entry: the three global options play no part in its findings. *)
Theorem dom_entry_overrides_options E (o : JSXOptions.Options) filePath l tagName
    attrs children props st :
  Vocabulary.starts_lower tagName = true ->
  lookup_own (JSXOptions.opt_dom o) tagName = Some props ->
  arr_includes objectPrototypeKeys tagName = false ->
  let element := JSXElement l (JSXIdentifier tagName) attrs children in
  let entry :=
    {| JSXOptions.opt_allowStrings := false;
       JSXOptions.opt_allowNumbers := true;
       JSXOptions.opt_checkProps := props;
       JSXOptions.opt_dom := [] |} in
  JSXHardcodedChecker.visitJSXElement E o filePath element st
  = JSXHardcodedChecker.visitJSXElement E entry filePath element st
  /\ JSXHardcodeChecker.visitJSXElement o element
     = JSXHardcodeChecker.visitJSXElement entry element.
Proof.
  intros Hlower Hentry Hown element entry.
  destruct (getOptionsForNode_dom_entry o l tagName attrs children props Hlower Hentry)
    as [Hmjs Hts].
  subst element. destruct tagName as [|c r]; [discriminate|]. cbn in Hlower.
  unfold JSXHardcodedChecker.visitJSXElement, JSXHardcodeChecker.visitJSXElement.
  rewrite Hmjs, Hts.
  cbn [JSXHardcodedChecker.getOptionsForNode JSXHardcodeChecker.getOptionsForNode].
  rewrite Hlower. unfold JSXOptions.dom_or_options. subst entry.
  cbn [JSXOptions.opt_dom lookup_own]. rewrite Hown. split; reflexivity.
Qed.

Lemma dom_entry_overrides_options_witness :
  let lenient :=
    {| JSXOptions.opt_allowStrings := true;
       JSXOptions.opt_allowNumbers := false;
       JSXOptions.opt_checkProps := [];
       JSXOptions.opt_dom := JSXOptions.opt_dom JSXOptions.defaultOptions |} in
  let entry :=
    {| JSXOptions.opt_allowStrings := false;
       JSXOptions.opt_allowNumbers := true;
       JSXOptions.opt_checkProps := map js ["title"; "aria-label"];
       JSXOptions.opt_dom := [] |} in
  JSXHardcodedChecker.visitJSXElement Examples.bareEnv lenient (js "a.tsx")
    Examples.button EnhancedErrorReporter.initial
  = JSXHardcodedChecker.visitJSXElement Examples.bareEnv entry (js "a.tsx")
      Examples.button EnhancedErrorReporter.initial
  /\ JSXHardcodeChecker.visitJSXElement lenient Examples.button
     = JSXHardcodeChecker.visitJSXElement entry Examples.button.
Proof.
  cbv zeta.
  apply (dom_entry_overrides_options Examples.bareEnv
           {| JSXOptions.opt_allowStrings := true;
              JSXOptions.opt_allowNumbers := false;
              JSXOptions.opt_checkProps := [];
              JSXOptions.opt_dom := JSXOptions.opt_dom JSXOptions.defaultOptions |}
           (js "a.tsx") (Examples.at_ 1 0) (js "button")
           [Examples.titleAttribute] [Examples.labelChild]
           (map js ["title"; "aria-label"]) EnhancedErrorReporter.initial);
    vm_compute; reflexivity.
Defined.

(** ** The default allow-list *)

Section Derivatives.

Import RegExp Vocabulary.

Lemma accepts_Never s : accepts Never s = false.
Proof. induction s; simpl; auto. Qed.

Lemma alt_cases a b :
  alt_ a b = Alt a b \/ (a = Never /\ alt_ a b = b) \/ (b = Never /\ alt_ a b = a).
Proof. destruct a, b; simpl; auto. Qed.

Lemma seq_cases a b :
  seq_ a b = Seq a b
  \/ (a = Never /\ seq_ a b = Never)
  \/ (b = Never /\ seq_ a b = Never)
  \/ (a = Empty /\ seq_ a b = b).
Proof. destruct a, b; simpl; auto 6. Qed.

Lemma accepts_alt_ a b s : accepts (alt_ a b) s = accepts a s || accepts b s.
Proof.
  revert a b. induction s as [|c s IH]; intros a b.
  - destruct (alt_cases a b) as [->|[[-> ->]|[-> ->]]]; simpl;
      rewrite ?orb_false_r; reflexivity.
  - destruct (alt_cases a b) as [->|[[-> ->]|[-> ->]]].
    + cbn [accepts deriv]. apply IH.
    + cbn [accepts deriv]. rewrite accepts_Never. reflexivity.
    + cbn [accepts deriv]. rewrite accepts_Never, orb_false_r. reflexivity.
Qed.

Lemma Seq_dead s : forall a b, (forall s', accepts a s' = false) -> accepts (Seq a b) s = false.
Proof.
  induction s as [|c s IH]; intros a b Hdead.
  - simpl. change (nullable a) with (accepts a []). rewrite Hdead. reflexivity.
  - cbn [accepts deriv]. change (nullable a) with (accepts a []). rewrite Hdead.
    assert (Hd : forall s', accepts (deriv c a) s' = false)
      by (intros s'; exact (Hdead (c :: s'))).
    destruct (seq_cases (deriv c a) b) as [->|[[_ ->]|[[_ ->]|[Ha _]]]].
    + apply IH. exact Hd.
    + apply accepts_Never.
    + apply accepts_Never.
    + specialize (Hd []). rewrite Ha in Hd. discriminate.
Qed.

Lemma seq_dead a b s : (forall s', accepts a s' = false) -> accepts (seq_ a b) s = false.
Proof.
  intros Hdead. destruct (seq_cases a b) as [->|[[_ ->]|[[_ ->]|[Ha _]]]].
  - apply Seq_dead. exact Hdead.
  - apply accepts_Never.
  - apply accepts_Never.
  - specialize (Hdead []). rewrite Ha in Hdead. discriminate.
Qed.

Lemma first_dead r c : first r c = false -> forall s, accepts (deriv c r) s = false.
Proof.
  induction r as [| |p|a IHa b IHb|a IHa b IHb|a IHa]; cbn [first deriv]; intros Hfirst s.
  - apply accepts_Never.
  - apply accepts_Never.
  - rewrite Hfirst. apply accepts_Never.
  - apply orb_false_iff in Hfirst. destruct Hfirst as [Ha Hb].
    destruct (nullable a).
    + rewrite accepts_alt_, (seq_dead _ _ _ (IHa Ha)). apply IHb. exact Hb.
    + apply seq_dead. exact (IHa Ha).
  - apply orb_false_iff in Hfirst. destruct Hfirst as [Ha Hb].
    rewrite accepts_alt_, (IHa Ha), (IHb Hb). reflexivity.
  - apply seq_dead. exact (IHa Hfirst).
Qed.

Lemma accepts_anything s : accepts anything s = true.
Proof. induction s; simpl; auto. Qed.

Lemma accepts_app r p s :
  accepts r (p ++ s) = accepts (fold_left (fun r c => deriv c r) p r) s.
Proof. revert r. induction p as [|c p IH]; intros r; simpl; auto. Qed.

Lemma startsWith_app s p : startsWith s p = true -> exists rest, s = p ++ rest.
Proof.
  revert s. induction p as [|x p IH]; intros s; simpl.
  - exists s. reflexivity.
  - destruct s as [|y s]; [discriminate|]. intros H.
    apply andb_true_iff in H. destruct H as [Hxy Hp]. apply N.eqb_eq in Hxy. subst y.
    destruct (IH s Hp) as (rest & ->). exists rest. reflexivity.
Qed.

End Derivatives.

Ltac read_literals :=
  repeat match goal with
         | |- context [js ?s] =>
             let x := eval vm_compute in (js s) in change (js s) with x
         end.

(** X12.  With the default allow-list a string that starts with the
    translation call [t(] and a quote, or with [i18n.], [console.],
    [process.env.], [import(] or [require(], is allowed whatever follows:
    such a string is never reported. *)
Theorem default_allow_list_openings (opening s : jsstring) :
  In opening Vocabulary.allowedOpenings ->
  startsWith s opening = true ->
  EnhancedToastChecker.isAllowedPattern EnhancedToastChecker.defaultOptions s = true.
Proof.
  intros Hopening Hstarts.
  destruct (startsWith_app s opening Hstarts) as (rest & ->).
  unfold EnhancedToastChecker.isAllowedPattern.
  match goal with |- (if ?b then _ else _) = _ => destruct b; [reflexivity|] end.
  apply existsb_exists.
  unfold Vocabulary.allowedOpenings in Hopening.
  cbn [In] in Hopening.
  assert (Hrun : forall body,
             fold_left (fun r c => RegExp.deriv c r) opening
               (RegExp.Seq RegExp.Empty (RegExp.Seq body RegExp.anything))
             = RegExp.anything ->
             EnhancedToastChecker.matches (opening ++ rest)
               (EnhancedToastChecker.literal true body false) = true).
  { intros body Hfold. cbn [EnhancedToastChecker.matches EnhancedToastChecker.literal].
    unfold RegExp.test. cbn [RegExp.from_start RegExp.body RegExp.to_end].
    rewrite accepts_app, Hfold. apply accepts_anything. }
  unfold EnhancedToastChecker.defaultOptions, EnhancedToastChecker.defaultAllowPatterns.
  cbn [EnhancedToastChecker.allowPatterns].
  destruct Hopening as [<-|[<-|[<-|[<-|[<-|[<-|[<-|[]]]]]]]].
  - eexists. split; [left; reflexivity|]. apply Hrun. vm_compute. reflexivity.
  - eexists. split; [left; reflexivity|]. apply Hrun. vm_compute. reflexivity.
  - eexists. split; [right; left; reflexivity|]. apply Hrun. vm_compute. reflexivity.
  - eexists. split; [do 6 right; left; reflexivity|]. apply Hrun. vm_compute. reflexivity.
  - eexists. split; [do 7 right; left; reflexivity|]. apply Hrun. vm_compute. reflexivity.
  - eexists. split; [do 8 right; left; reflexivity|]. apply Hrun. vm_compute. reflexivity.
  - eexists. split; [do 9 right; left; reflexivity|]. apply Hrun. vm_compute. reflexivity.
Qed.

Lemma default_allow_list_openings_witness :
  In (js "t('") Vocabulary.allowedOpenings
  /\ startsWith (js "t('errors.network')") (js "t('") = true
  /\ EnhancedToastChecker.isAllowedPattern EnhancedToastChecker.defaultOptions
       (js "t('errors.network')") = true.
Proof.
  assert (Hin : In (js "t('") Vocabulary.allowedOpenings) by (left; reflexivity).
  assert (Hstarts : startsWith (js "t('errors.network')") (js "t('") = true)
    by (vm_compute; reflexivity).
  split; [exact Hin|]. split; [exact Hstarts|].
  exact (default_allow_list_openings (js "t('") (js "t('errors.network')") Hin Hstarts).
Defined.

Section Capitalised.

Import RegExp Vocabulary EnhancedToastChecker.

Variable c : N.
Hypothesis Hc : is_upper c || is_hangul c = true.

Lemma capital_bounds : (65 <= c <= 90 \/ 44032 <= c <= 55203)%N.
Proof.
  apply orb_true_iff in Hc. unfold is_upper, is_hangul, in_range in Hc.
  destruct Hc as [H|H]; apply andb_true_iff in H; destruct H as [H1 H2];
    apply N.leb_le in H1, H2; lia.
Qed.

Lemma capital_not_space : is_space c = false.
Proof.
  pose proof capital_bounds as Hb. unfold is_space, in_range.
  repeat match goal with
         | |- context [(?x =? c)%N] => destruct (N.eqb_spec x c); [lia|]
         | |- context [(c =? ?x)%N] => destruct (N.eqb_spec c x); [lia|]
         | |- context [(?x <=? c)%N] => destruct (N.leb_spec x c)
         | |- context [(c <=? ?x)%N] => destruct (N.leb_spec c x)
         end; try reflexivity; lia.
Qed.

Lemma capital_refused p s :
  In p defaultAllowPatterns -> matches (c :: s) p = false.
Proof.
  pose proof capital_bounds as Hb. pose proof capital_not_space as Hspace.
  assert (Hdigit : is_digit c = false).
  { unfold is_digit, in_range.
    destruct (N.leb_spec 48 c), (N.leb_spec c 57); try reflexivity; lia. }
  assert (Hfirst : forall body (anchored : bool),
             first (Seq Empty (Seq body (if anchored then Empty else anything))) c = false ->
             matches (c :: s) (literal true body anchored) = false).
  { intros body anchored Hf. cbn [matches literal]. unfold test.
    cbn [from_start RegExp.body RegExp.to_end accepts].
    apply first_dead. exact Hf. }
  unfold defaultAllowPatterns. cbn [In].
  intros Hp.
  repeat (destruct Hp as [<-|Hp];
          [apply Hfirst; read_literals;
           cbn [first nullable text char dot opt plus quote anything orb andb];
           rewrite ?Hspace, ?Hdigit;
           repeat match goal with
                  | |- context [(?x =? c)%N] => destruct (N.eqb_spec x c); [lia|]
                  | |- context [(c =? ?x)%N] => destruct (N.eqb_spec c x); [lia|]
                  end;
           cbn [orb andb negb]; try reflexivity|]).
  all: try (destruct Hp).
Qed.

End Capitalised.

(** X13.  With the default allow-list a string that starts with an ASCII
    capital letter or a Hangul syllable is not allowed, whatever follows:
    as a string literal it is a hardcoded value. *)
Theorem capitalised_text_is_hardcoded (c : N) (s : jsstring) (l : option position) :
  is_upper c || is_hangul c = true ->
  EnhancedToastChecker.isAllowedPattern EnhancedToastChecker.defaultOptions (c :: s)
  = false
  /\ EnhancedToastChecker.isHardcodedValue EnhancedToastChecker.defaultOptions
       (StringLiteral l (c :: s)) = true.
Proof.
  intros Hc.
  assert (Hallowed : EnhancedToastChecker.isAllowedPattern
                       EnhancedToastChecker.defaultOptions (c :: s) = false).
  { unfold EnhancedToastChecker.isAllowedPattern. rewrite blank_trim.
    cbn [forallb]. rewrite (capital_not_space c Hc). cbn [andb].
    destruct (existsb _ _) eqn:Hsome; [|reflexivity].
    apply existsb_exists in Hsome. destruct Hsome as (p & Hin & Hmatch).
    rewrite (capital_refused c Hc p s Hin) in Hmatch. discriminate. }
  split; [exact Hallowed|].
  rewrite isHardcodedValue_string, Hallowed. reflexivity.
Qed.

Lemma capitalised_text_is_hardcoded_witness :
  is_upper 78 || is_hangul 78 = true
  /\ EnhancedToastChecker.isAllowedPattern EnhancedToastChecker.defaultOptions
       (78%N :: js "etwork error") = false
  /\ EnhancedToastChecker.isHardcodedValue EnhancedToastChecker.defaultOptions
       (StringLiteral None (78%N :: js "etwork error")) = true.
Proof.
  assert (Hc : is_upper 78 || is_hangul 78 = true) by reflexivity.
  split; [exact Hc|].
  exact (capitalised_text_is_hardcoded 78 (js "etwork error") None Hc).
Defined.

(** ** The files of the toast checker *)

Section ToastFileRuns.

Import EnhancedErrorReporter EnhancedToastChecker Vocabulary.

Variable E : env.
Variable o : options.
Variable filePath : jsstring.

Lemma findingsOfArgument_attributed calleeText arg es :
  findingsOfArgument o calleeText filePath arg es -> Forall (attributed filePath) es.
Proof.
  unfold findingsOfArgument.
  assert (Hprops : forall props es0,
             Forall2 (findingOfProperty calleeText filePath) props es0 ->
             Forall (attributed filePath) es0).
  { intros props es0 H. induction H as [|prop e ps es1 Hpe _ IH]; constructor; [|exact IH].
    destruct prop; try contradiction. unfold attributed. cbn in Hpe. tauto. }
  destruct arg; try (intros (e & -> & Hf); constructor; [|constructor];
                     unfold findingOfArgument in Hf; unfold attributed; tauto).
  apply Hprops.
Qed.

Lemma visitCallExpression_cases n st :
  (exists es st',
     visitCallExpression E o filePath n st = (Returned es, st', [])
     /\ Forall (attributed filePath) es)
  \/ (exists e, visitCallExpression E o filePath n st = (Thrown e, st, [])).
Proof.
  destruct n; try (left; exists [], st; split; [reflexivity|constructor]).
  destruct (isToastFunction E o (getCalleeText n)) as [e|[|]] eqn:Htoast.
  - right. exists e. unfold visitCallExpression. rewrite Htoast. reflexivity.
  - left. destruct (visitCallExpression_run E o filePath loc n arguments st Htoast)
      as (ess & st' & Hrun & Hall).
    exists (concat ess), st'. split; [exact Hrun|].
    apply Forall_concat. clear Hrun.
    induction Hall as [|arg es args ess' Hae _ IH]; constructor; [|exact IH].
    eapply findingsOfArgument_attributed. exact Hae.
  - left. exists [], st. unfold visitCallExpression. rewrite Htoast.
    split; [reflexivity|constructor].
Qed.

Lemma visitJSXAttribute_cases n st :
  (exists es st',
     ToastFiles.visitJSXAttribute E o filePath n st = (Returned es, st', [])
     /\ Forall (attributed filePath) es)
  \/ (exists e, ToastFiles.visitJSXAttribute E o filePath n st = (Thrown e, st, [])).
Proof.
  unfold ToastFiles.visitJSXAttribute.
  destruct n; try (left; exists [], st; split; [reflexivity|constructor]).
  destruct name; try (left; exists [], st; split; [reflexivity|constructor]).
  destruct v as [v|]; [|left; exists [], st; split; [reflexivity|constructor]].
  match goal with |- context [if ?c then _ else _] => destruct c end;
    [|left; exists [], st; split; [reflexivity|constructor]].
  destruct (ToastFiles.attributeErrorInfo name v) as [e|errorInfo].
  - right. exists e. reflexivity.
  - left. destruct (formatError_run E errorInfo filePath st) as (ctx & st' & Hrun).
    exists [formatted E errorInfo filePath ctx], st'.
    split; [eapply (bind_Returned _ _ _ _ _ _ _ _ _ Hrun); reflexivity|].
    constructor; [apply formatted_filePath|constructor].
Qed.

Lemma visit_cases n st :
  (exists es st',
     ToastFiles.visit E o filePath n st = (Returned es, st', [])
     /\ Forall (attributed filePath) es)
  \/ (exists e, ToastFiles.visit E o filePath n st = (Thrown e, st, [])).
Proof.
  destruct n; try (left; exists [], st; split; [reflexivity|constructor]).
  - apply visitCallExpression_cases.
  - apply visitJSXAttribute_cases.
Qed.

End ToastFileRuns.

Section Traversals.

Import EnhancedErrorReporter Vocabulary.

Variable E : env.
Variable visit : node -> M state (list obj).
Variable filePath : jsstring.
Hypothesis Hvisit : forall n st,
  (exists es st',
     visit n st = (Returned es, st', []) /\ Forall (attributed filePath) es)
  \/ (exists e, visit n st = (Thrown e, st, [])).

Lemma toast_traverse_attributed nodes errors st :
  Forall (attributed filePath) errors ->
  exists es st' out,
    ToastFiles.traverse E visit filePath nodes errors st = (Returned es, st', out)
    /\ Forall (attributed filePath) es.
Proof.
  revert errors st. induction nodes as [|n r IH]; intros errors st Herrors.
  - exists errors, st, []. split; [reflexivity|exact Herrors].
  - cbn [ToastFiles.traverse].
    destruct (Hvisit n st) as [(es & st1 & Hrun & Hes)|(e & Hrun)]; rewrite Hrun.
    + destruct (IH (errors ++ es) st1) as (es' & st2 & out & Hrest & Hall).
      { apply Forall_app. split; assumption. }
      rewrite Hrest. eexists _, _, _. split; [reflexivity|exact Hall].
    + eexists _, _, _. split; [reflexivity|exact Herrors].
Qed.

Lemma checkFileWith_cases st :
  (exists es st' out,
     ToastFiles.checkFileWith E visit filePath st = (Returned es, st', out)
     /\ Forall (attributed filePath) es)
  \/ (exists e, ToastFiles.checkFileWith E visit filePath st = (Thrown e, st, [])).
Proof.
  unfold ToastFiles.checkFileWith.
  destruct (isDirectory E filePath) as [[|]|].
  - left. exists [], st, []. split; [reflexivity|constructor].
  - destruct (readFileSync E filePath) as [code|].
    + destruct (parse E code) as [message|nodes].
      * left. eexists [], st, _. split; [reflexivity|constructor].
      * left. apply toast_traverse_attributed. constructor.
    + right. eexists. reflexivity.
  - right. eexists. reflexivity.
Qed.

End Traversals.

Section MarkupAttribution.

Import EnhancedErrorReporter JSXOptions Vocabulary.

Variable E : env.
Variable o : Options.
Variable filePath : jsstring.

Lemma checkChildren_attributed n p st :
  exists es st',
    JSXHardcodedChecker.checkChildren E n p filePath st = (Returned es, st', [])
    /\ Forall (attributed filePath) es.
Proof.
  destruct (checkChildren_run E filePath n p st) as (es & st' & Hrun & Hall).
  exists es, st'. split; [exact Hrun|]. clear Hrun.
  induction Hall as [|child e cs es' Hce _ IH]; constructor; [|exact IH].
  unfold JSXHardcodedChecker.findingOfChild in Hce. unfold attributed. tauto.
Qed.

Lemma flat_mapM_Forall {S A B} (f : A -> M S (list B)) (P : B -> Prop) :
  (forall x st, exists ys st', f x st = (Returned ys, st', []) /\ Forall P ys) ->
  forall l st, exists ys st', flat_mapM f l st = (Returned ys, st', []) /\ Forall P ys.
Proof.
  intros Hf l st.
  destruct (flat_mapM_each f (fun _ => True) (fun _ ys => Forall P ys)) with (l := l) (st := st)
    as (yss & st' & Hrun & Hall).
  - intros x st0 _. apply Hf.
  - apply List.Forall_forall. auto.
  - exists (concat yss), st'. split; [exact Hrun|]. apply Forall_concat.
    clear Hrun. induction Hall; constructor; assumption.
Qed.

Lemma checkProps_attributed n p st :
  exists es st',
    JSXHardcodedChecker.checkProps E n p filePath st = (Returned es, st', [])
    /\ Forall (attributed filePath) es.
Proof.
  unfold JSXHardcodedChecker.checkProps. apply flat_mapM_Forall.
  intros attr st0.
  destruct attr; try (exists [], st0; split; [reflexivity|constructor]).
  destruct name; try (exists [], st0; split; [reflexivity|constructor]).
  match goal with |- context [if ?c then _ else _] => destruct c end;
    [|exists [], st0; split; [reflexivity|constructor]].
  match goal with |- context [formatError E ?err filePath] =>
    destruct (formatError_run E err filePath st0) as (ctx & st' & Hrun);
    exists [formatted E err filePath ctx], st'
  end.
  split; [eapply (bind_Returned _ _ _ _ _ _ _ _ _ Hrun); reflexivity|].
  constructor; [apply formatted_filePath|constructor].
Qed.

Lemma visitJSXElement_cases n st :
  (exists es st',
     JSXHardcodedChecker.visitJSXElement E o filePath n st = (Returned es, st', [])
     /\ Forall (attributed filePath) es)
  \/ (exists e, JSXHardcodedChecker.visitJSXElement E o filePath n st = (Thrown e, st, [])).
Proof.
  unfold JSXHardcodedChecker.visitJSXElement.
  destruct (JSXHardcodedChecker.getOptionsForNode o n) as [e|p].
  - right. exists e. reflexivity.
  - left. destruct (checkChildren_attributed n p st) as (es1 & st1 & H1 & Hall1).
    destruct (checkProps_attributed n p st1) as (es2 & st2 & H2 & Hall2).
    exists (es1 ++ es2), st2. unfold bind, ret. rewrite H1, H2.
    split; [reflexivity|]. apply Forall_app. split; assumption.
Qed.

Lemma jsx_traverse_attributed nodes errors st :
  Forall (attributed filePath) errors ->
  exists es st' out,
    JSXHardcodedChecker.traverse E o filePath nodes errors st = (Returned es, st', out)
    /\ Forall (attributed filePath) es.
Proof.
  revert errors st. induction nodes as [|n r IH]; intros errors st Herrors.
  - exists errors, st, []. split; [reflexivity|exact Herrors].
  - cbn [JSXHardcodedChecker.traverse].
    destruct (JSXHardcodedChecker.is_JSXElement n); [|apply IH; exact Herrors].
    destruct (visitJSXElement_cases n st) as [(es & st1 & Hrun & Hes)|(e & Hrun)];
      rewrite Hrun.
    + destruct (IH (errors ++ es) st1) as (es' & st2 & out & Hrest & Hall).
      { apply Forall_app. split; assumption. }
      rewrite Hrest. eexists _, _, _. split; [reflexivity|exact Hall].
    + eexists _, _, _. split; [reflexivity|exact Herrors].
Qed.

End MarkupAttribution.

(** X14.  Every finding that [checkFile] returns names the file that was
    checked as its [filePath], in the JSX checker and in the toast checker:
    the report, which groups the findings by that field, lists each finding
    under the file it was found in. *)
Theorem findings_name_their_file E filePath st jsxOptions toastOptions :
  match outcome (JSXHardcodedChecker.checkFile E jsxOptions filePath st) with
  | Returned es => Forall (Vocabulary.attributed filePath) es
  | _ => True
  end
  /\ match outcome (ToastFiles.checkFile E toastOptions filePath st) with
     | Returned es => Forall (Vocabulary.attributed filePath) es
     | _ => True
     end.
Proof.
  split.
  - unfold JSXHardcodedChecker.checkFile.
    destruct (isDirectory E filePath) as [[|]|]; cbn; try exact I; [constructor|].
    destruct (readFileSync E filePath) as [code|]; cbn; try exact I.
    destruct (parse E code) as [message|nodes]; cbn; [constructor|].
    destruct (jsx_traverse_attributed E jsxOptions filePath nodes [] st)
      as (es' & st' & out & Heq & Hall); [constructor|].
    rewrite Heq. exact Hall.
  - unfold ToastFiles.checkFile.
    destruct (checkFileWith_cases E (ToastFiles.visit E toastOptions filePath) filePath
                (visit_cases E toastOptions filePath) st)
      as [(es' & st' & out & Heq & Hall)|(e & Heq)];
      rewrite Heq; [exact Hall|exact I].
Qed.

Section ToastQuiet.

Import EnhancedErrorReporter EnhancedToastChecker Vocabulary.

Variable E : env.
Variable o : options.
Variable filePath : jsstring.
Hypothesis Hplain : forall func, In func (toastFunctions o) -> includes func (js "*") = false.

Lemma visit_quiet n st :
  quiet o n = true -> ToastFiles.visit E o filePath n st = (Returned [], st, []).
Proof.
  destruct n; try reflexivity; cbn [quiet ToastFiles.visit]; intros Hquiet.
  - unfold visitCallExpression, isToastFunction.
    rewrite (isToastFunction_some_exact E _ _ Hplain).
    apply negb_true_iff in Hquiet. rewrite Hquiet. reflexivity.
  - unfold ToastFiles.visitJSXAttribute.
    destruct name; try reflexivity. destruct v; try reflexivity.
    apply negb_true_iff in Hquiet. rewrite Hquiet. reflexivity.
Qed.

Lemma traverse_quiet nodes errors st :
  forallb (quiet o) nodes = true ->
  ToastFiles.traverse E (ToastFiles.visit E o filePath) filePath nodes errors st
  = (Returned errors, st, []).
Proof.
  revert errors. induction nodes as [|n r IH]; intros errors Hquiet; [reflexivity|].
  cbn [forallb] in Hquiet. apply andb_true_iff in Hquiet. destruct Hquiet as [Hn Hr].
  cbn [ToastFiles.traverse]. rewrite (visit_quiet n st Hn), app_nil_r, (IH errors Hr).
  reflexivity.
Qed.

End ToastQuiet.

(** X15.  The toast checker looks at calls of the notification functions
    and at the four [data-] attributes only: a file that holds neither is
    passed without a finding, nothing is printed and no file is read for a
    context, whatever object literals it holds.  (No entry of
    [toastFunctions] holds a [*].) *)
Theorem toast_checker_passes_quiet_file E o filePath code nodes st :
  (forall func, In func (EnhancedToastChecker.toastFunctions o) ->
     includes func (js "*") = false) ->
  isDirectory E filePath = Some false ->
  readFileSync E filePath = Some code ->
  parse E code = inr nodes ->
  forallb (Vocabulary.quiet o) nodes = true ->
  ToastFiles.checkFile E o filePath st = (Returned [], st, []).
Proof.
  intros Hplain Hstat Hread Hparse Hquiet.
  unfold ToastFiles.checkFile, ToastFiles.checkFileWith.
  rewrite Hstat, Hread, Hparse. apply traverse_quiet; assumption.
Qed.

Lemma toast_checker_passes_quiet_file_witness :
  ToastFiles.checkFile
    (Vocabulary.fileEnv (js "const labels = { title: 'Error', description: t('d') }")
       Vocabulary.labelsFile)
    EnhancedToastChecker.defaultOptions (js "a.tsx") EnhancedErrorReporter.initial
  = (Returned [], EnhancedErrorReporter.initial, []).
Proof.
  apply (toast_checker_passes_quiet_file
           (Vocabulary.fileEnv (js "const labels = { title: 'Error', description: t('d') }")
              Vocabulary.labelsFile)
           EnhancedToastChecker.defaultOptions (js "a.tsx")
           (js "const labels = { title: 'Error', description: t('d') }")
           Vocabulary.labelsFile EnhancedErrorReporter.initial);
    try reflexivity.
  - assert (Hall : forallb (fun func => negb (includes func (js "*")))
                     (EnhancedToastChecker.toastFunctions
                        EnhancedToastChecker.defaultOptions) = true)
      by (vm_compute; reflexivity).
    intros func Hin. apply negb_true_iff.
    exact (proj1 (forallb_forall _ _) Hall func Hin).
Defined.

(** X16.  In the other copy of the toast checker the [CallExpression]
    visitor reads the callee text off the call itself, which is the empty
    text: unless [toastFunctions] holds the empty string or an entry with a
    [*], the visitor reports nothing, whatever the call and its
    arguments. *)
Theorem first_copy_call_check_is_dead E o filePath n st :
  (forall func, In func (EnhancedToastChecker.toastFunctions o) ->
     includes func (js "*") = false) ->
  ~ In [] (EnhancedToastChecker.toastFunctions o) ->
  ToastCheckerFirstCopy.visitCallExpression E o filePath n st = (Returned [], st, []).
Proof.
  intros Hplain Hempty. destruct n; try reflexivity.
  unfold ToastCheckerFirstCopy.visitCallExpression, EnhancedToastChecker.isToastFunction.
  rewrite (isToastFunction_some_exact E _ _ Hplain).
  cbn [EnhancedToastChecker.getCalleeText].
  destruct (arr_includes (EnhancedToastChecker.toastFunctions o) []) eqn:Hin;
    [|reflexivity].
  apply arr_includes_In in Hin. contradiction.
Qed.

Lemma first_copy_call_check_is_dead_witness :
  ToastCheckerFirstCopy.visitCallExpression Examples.bareEnv
    EnhancedToastChecker.defaultOptions (js "a.tsx")
    (CallExpression (Examples.at_ 1 0) (Examples.Message_error (Examples.at_ 1 0))
       [Literal (Examples.at_ 1 14) (VStr (js "Network error"))])
    EnhancedErrorReporter.initial
  = (Returned [], EnhancedErrorReporter.initial, []).
Proof.
  apply (first_copy_call_check_is_dead Examples.bareEnv
           EnhancedToastChecker.defaultOptions (js "a.tsx")
           (CallExpression (Examples.at_ 1 0) (Examples.Message_error (Examples.at_ 1 0))
              [Literal (Examples.at_ 1 14) (VStr (js "Network error"))])
           EnhancedErrorReporter.initial).
  - assert (Hall : forallb (fun func => negb (includes func (js "*")))
                     (EnhancedToastChecker.toastFunctions
                        EnhancedToastChecker.defaultOptions) = true)
      by (vm_compute; reflexivity).
    intros func Hin. apply negb_true_iff.
    exact (proj1 (forallb_forall _ _) Hall func Hin).
  - intros Hin. apply arr_includes_In in Hin. vm_compute in Hin. discriminate.
Defined.

(** ** The script *)

Section Outcomes.

Lemma outcome_bind {S A B} (m : M S A) (k : A -> M S B) st :
  outcome (bind m k st)
  = match outcome (m st) with
    | Returned a => outcome (k a (final (m st)))
    | Thrown e => Thrown e
    | Exited c => Exited c
    end.
Proof.
  unfold bind, outcome, final. destruct (m st) as [[[a|e|c] st'] out]; cbn; try reflexivity.
  destruct (k a st') as [[r st''] out']. reflexivity.
Qed.

Lemma outcome_log_then {S A} ch t (m : M S A) st :
  outcome ((log ch t ;;; m) st) = outcome (m st).
Proof. rewrite outcome_bind. reflexivity. Qed.

Lemma outcome_try_catch {S A} (body : M S A) handler st :
  outcome (try_catch body handler st)
  = match outcome (body st) with
    | Thrown e => outcome (handler e (final (body st)))
    | r => r
    end.
Proof.
  unfold try_catch, outcome, final. destruct (body st) as [[[a|e|c] st'] out]; cbn;
    try reflexivity.
  destruct (handler e st') as [[r st''] out']. reflexivity.
Qed.

Lemma outcome_onJsx {A} (m : M EnhancedErrorReporter.state A) st :
  outcome (IntegratedHardcodingChecker.onJsx m st) = outcome (m st.1)
  /\ (final (IntegratedHardcodingChecker.onJsx m st)).2 = st.2.
Proof.
  destruct st as [a b]. unfold IntegratedHardcodingChecker.onJsx, outcome, final. cbn.
  destruct (m a) as [[r a'] out]. split; reflexivity.
Qed.

Lemma outcome_onToast {A} (m : M EnhancedErrorReporter.state A) st :
  outcome (IntegratedHardcodingChecker.onToast m st) = outcome (m st.2).
Proof.
  destruct st as [a b]. unfold IntegratedHardcodingChecker.onToast, outcome. cbn.
  destruct (m b) as [[r b'] out]. reflexivity.
Qed.

Lemma printSummary_returns E R jsx toast overall st :
  outcome (IntegratedHardcodingChecker.printSummary E R jsx toast overall st) = Returned tt.
Proof.
  unfold IntegratedHardcodingChecker.printSummary.
  rewrite !outcome_log_then, outcome_bind. destruct overall; reflexivity.
Qed.

Lemma toast_checkFile_no_exit E o file st c :
  outcome (ToastFiles.checkFileWith E (ToastFiles.visit E o file) file st) <> Exited c.
Proof.
  destruct (checkFileWith_cases E (ToastFiles.visit E o file) file
              (visit_cases E o file) st)
    as [(es & st' & out & -> & _)|(e & ->)]; discriminate.
Qed.

Lemma toast_checkFiles_no_exit E o patterns st c :
  outcome (ToastFiles.checkFiles E o patterns st) <> Exited c.
Proof.
  unfold ToastFiles.checkFiles, ToastFiles.checkFilesWith.
  rewrite !outcome_log_then.
  destruct (glob E _ _) as [e|files]; [discriminate|].
  rewrite outcome_log_then, outcome_bind.
  pose proof (flat_mapM_no_exit
                (fun file => ToastFiles.checkFileWith E (ToastFiles.visit E o file) file)
                (fun file st0 c0 => toast_checkFile_no_exit E o file st0 c0) files st)
    as Hloop.
  destruct (outcome (flat_mapM _ files st)) as [allErrors|e|c0]; try discriminate.
  - destruct (EnhancedErrorReporter.generateReport E allErrors); [|discriminate].
    rewrite outcome_log_then. discriminate.
  - exfalso. exact (Hloop c0 eq_refl).
Qed.

End Outcomes.

Section Script.

Import IntegratedHardcodingChecker.

Variable E : env.
Variable R : runtime.

(** The verdict of a check, as the script reads it. *)
Lemma runAllChecks_outcome patterns st :
  outcome (runAllChecks E R patterns st)
  = match outcome (JSXHardcodedChecker.checkJSXHardcoding E JSXOptions.defaultOptions
                     patterns st.1),
          outcome (ToastFiles.checkFiles E toastOptions patterns st.2) with
    | Returned true, Returned true => Returned tt
    | _, _ => Exited 1
    end.
Proof.
  unfold runAllChecks. rewrite !outcome_log_then, outcome_try_catch.
  rewrite !outcome_log_then, outcome_bind.
  destruct (outcome_onJsx
              (JSXHardcodedChecker.checkJSXHardcoding E JSXOptions.defaultOptions patterns)
              st) as [Hjsx Hkeep].
  rewrite Hjsx.
  destruct (checkJSXHardcoding_run E JSXOptions.defaultOptions patterns st.1)
    as (jsx & st1 & out1 & Hrun & _).
  rewrite Hrun. cbn [outcome fst].
  rewrite !outcome_log_then, outcome_bind, outcome_onToast, Hkeep.
  pose proof (toast_checkFiles_no_exit E toastOptions patterns st.2) as Hexit.
  destruct (outcome (ToastFiles.checkFiles E toastOptions patterns st.2))
    as [toast|e|c].
  - rewrite outcome_bind, printSummary_returns.
    destruct jsx, toast; reflexivity.
  - rewrite !outcome_log_then. destruct jsx; reflexivity.
  - exfalso. exact (Hexit c eq_refl).
Qed.

End Script.

Section Arguments.

Import IntegratedHardcodingChecker Vocabulary.

Lemma parseStep_fold args targetPatterns options :
  fold_left parseStep args (targetPatterns, options)
  = (targetPatterns ++ map patternOf (List.filter (fun arg => negb (is_option arg)) args),
     options ++ List.filter is_option args).
Proof.
  revert targetPatterns options.
  induction args as [|arg r IH]; intros targetPatterns options.
  - cbn. rewrite !app_nil_r. reflexivity.
  - cbn [fold_left parseStep List.filter].
    change (startsWith arg (js "--") || startsWith arg (js "-")) with (is_option arg).
    destruct (is_option arg); cbn [negb map]; rewrite IH, <- app_assoc; reflexivity.
Qed.

Lemma includes_app_r a b p : includes b p = true -> includes (a ++ b) p = true.
Proof.
  intros Hb. induction a as [|c a IH]; [exact Hb|].
  cbn [app includes]. rewrite IH. apply orb_true_r.
Qed.

Lemma patternOf_shape arg :
  startsWith (patternOf arg) (js "!") = true
  \/ includes (patternOf arg) (js "**/*") = true.
Proof.
  unfold patternOf.
  destruct (startsWith arg (js "!")) eqn:Hbang; [left; exact Hbang|].
  destruct (includes arg (js "**/*")) eqn:Hglob; [right; exact Hglob|].
  right. cbn [negb andb]. apply includes_app_r. vm_compute. reflexivity.
Qed.

End Arguments.

(** X17.  [handleCLI] splits the arguments by their first character: those
    that start with a dash are the options, the others the patterns, both in
    the order given, and a pattern that is not an exclusion and holds no
    [**/*] is given the suffix of the source files.  The default pattern
    is used only when there is no argument at all, so that with options
    alone the checkers are given no pattern.  Every pattern that is handed
    on is an exclusion or holds [**/*]. *)
Theorem parseArguments_split (args : list jsstring) :
  IntegratedHardcodingChecker.parseArguments args
  = ((if (length args =? 0)%nat then [js "src/**/*.{js,jsx,ts,tsx}"] else [])
       ++ map Vocabulary.patternOf
            (List.filter (fun arg => negb (Vocabulary.is_option arg)) args),
     List.filter Vocabulary.is_option args)
  /\ Forall
       (fun pattern =>
          startsWith pattern (js "!") = true \/ includes pattern (js "**/*") = true)
       (IntegratedHardcodingChecker.parseArguments args).1.
Proof.
  assert (Hsplit : IntegratedHardcodingChecker.parseArguments args
                   = ((if (length args =? 0)%nat then [js "src/**/*.{js,jsx,ts,tsx}"] else [])
                        ++ map Vocabulary.patternOf
                             (List.filter (fun arg => negb (Vocabulary.is_option arg)) args),
                      List.filter Vocabulary.is_option args)).
  { unfold IntegratedHardcodingChecker.parseArguments. apply parseStep_fold. }
  split; [exact Hsplit|]. rewrite Hsplit. cbn [fst].
  apply Forall_app. split.
  - destruct (length args =? 0)%nat; [|constructor].
    constructor; [|constructor]. right. vm_compute. reflexivity.
  - apply Forall_map. apply List.Forall_forall. intros arg _. apply patternOf_shape.
Qed.

(** X18.  [runAllChecks] runs the two checks, each on the reporter of its
    own checker, and returns only when both give [true]; in every other case
    (a check that gives [false], an error that one of them throws) it ends
    the process with status 1.  It never throws. *)
Theorem runAllChecks_exit_status E R patterns st :
  outcome (IntegratedHardcodingChecker.runAllChecks E R patterns st)
  = match outcome (JSXHardcodedChecker.checkJSXHardcoding E JSXOptions.defaultOptions
                     patterns st.1),
          outcome (ToastFiles.checkFiles E IntegratedHardcodingChecker.toastOptions
                     patterns st.2) with
    | Returned true, Returned true => Returned tt
    | _, _ => Exited 1
    end.
Proof. apply runAllChecks_outcome. Qed.


(** ** The report and the reporters *)

Section PrototypeNames.

Import EnhancedErrorReporter Vocabulary.

Lemma group_slot_of_inherited keys (G : jsstring -> list obj) f :
  ~ In f keys ->
  arr_includes objectPrototypeKeys f = true ->
  group_slot_of (map (fun g => (g, G g)) keys) f = Inherited.
Proof.
  intros Hnot Hproto. induction keys as [|g r IH]; cbn [map group_slot_of].
  - rewrite Hproto. reflexivity.
  - destruct (jseqb g f) eqn:Hg.
    + apply jseqb_eq in Hg. subst. simpl in Hnot. tauto.
    + apply IH. simpl in Hnot. tauto.
Qed.

Lemma groupErrorsByFile_from_inherited errors seen :
  (forall e, In e seen -> inheritedName e = false) ->
  existsb inheritedName errors = true ->
  fold_left groupStep errors (Some (groupsOf seen)) = None.
Proof.
  revert seen. induction errors as [|e r IH]; intros seen Hseen Hsome; [discriminate|].
  cbn [fold_left]. destruct (inheritedName e) eqn:He.
  - assert (Hstep : groupStep (Some (groupsOf seen)) e = None).
    { unfold groupStep, groupsOf. rewrite group_slot_of_inherited; [reflexivity| |exact He].
      intros Hin. apply firstSeen_In, in_map_iff in Hin.
      destruct Hin as (e' & Heq & Hin'). specialize (Hseen e' Hin').
      unfold inheritedName in Hseen, He. rewrite Heq in Hseen. congruence. }
    rewrite Hstep. apply groupStep_None.
  - rewrite groupStep_groupsOf by exact He.
    apply IH.
    + intros e' Hin. apply in_app_iff in Hin. destruct Hin as [Hin|[<-|[]]]; auto.
    + cbn [existsb] in Hsome. rewrite He in Hsome. exact Hsome.
Qed.

End PrototypeNames.

(** X20.  [groupErrorsByFile] fails, with the [TypeError] of a [push] on
    what the empty object inherits, exactly when the path of a diagnostic is
    the name of a member of [Object.prototype], such as [constructor]; the
    report of a list that holds such a diagnostic is not produced. *)
Theorem report_fails_on_inherited_name E (errors : list obj) :
  (EnhancedErrorReporter.groupErrorsByFile errors = None
   <-> existsb Vocabulary.inheritedName errors = true)
  /\ (existsb Vocabulary.inheritedName errors = true <->
      EnhancedErrorReporter.generateReport E errors = None).
Proof.
  assert (Hgroups : EnhancedErrorReporter.groupErrorsByFile errors = None
                    <-> existsb Vocabulary.inheritedName errors = true).
  { split.
    - intros Hnone. destruct (existsb Vocabulary.inheritedName errors) eqn:Hsome;
        [reflexivity|].
      assert (Hgood : forall e, In e errors ->
                        arr_includes objectPrototypeKeys (EnhancedErrorReporter.fileOf e)
                        = false).
      { intros e Hin. destruct (Vocabulary.inheritedName e) eqn:He; [|exact He].
        assert (existsb Vocabulary.inheritedName errors = true)
          by (apply existsb_exists; eauto).
        congruence. }
      assert (Hs : EnhancedErrorReporter.groupErrorsByFile errors
                   = Some (Vocabulary.groupsOf errors))
        by exact (groupErrorsByFile_from_groupsOf errors [] Hgood).
      congruence.
    - intros Hsome.
      exact (groupErrorsByFile_from_inherited errors [] (fun e H => match H with end) Hsome). }
  split; [exact Hgroups|].
  unfold EnhancedErrorReporter.generateReport. split.
  - intros Hsome. destruct errors as [|e r]; [discriminate|].
    cbn [length Nat.eqb]. apply Hgroups in Hsome. rewrite Hsome. reflexivity.
  - intros Hnone. destruct errors as [|e r]; [discriminate|].
    cbn [length Nat.eqb] in Hnone. apply Hgroups.
    destruct (EnhancedErrorReporter.groupErrorsByFile (e :: r)); [discriminate|reflexivity].
Qed.

Section TypeScriptReporter.

Import ErrorReporter Vocabulary.

Variable E : env.
Variable filePath : jsstring.

Lemma generateCodeSnippet_cached l c st content :
  fileCache st !! filePath = Some content ->
  exists snippet, generateCodeSnippet E filePath l c st = (Returned snippet, st, []).
Proof.
  intros Hcached.
  unfold generateCodeSnippet, try_catch, bind, ret, throw, getFileLines.
  rewrite Hcached. cbn zeta. destruct (codeFrameColumns E _); simpl; eauto.
Qed.

Lemma generateCodeSnippet_caches l c st :
  is_Some (fileCache (final (generateCodeSnippet E filePath l c st)) !! filePath).
Proof.
  unfold generateCodeSnippet, try_catch, bind, ret, throw, getFileLines.
  destruct (fileCache st !! filePath) as [content|] eqn:Hcached.
  - cbn zeta. destruct (codeFrameColumns E _); cbn; rewrite Hcached; eauto.
  - destruct (readFileSync E filePath) as [content|]; cbn zeta;
      destruct (codeFrameColumns E _); cbn; rewrite lookup_insert_eq; eauto.
Qed.

Lemma addCodeError_caches error st :
  is_Some (fileCache (final (addCodeError E filePath error st)) !! filePath).
Proof.
  pose proof (generateCodeSnippet_caches (ce_line error) (ce_column error) st) as Hc.
  unfold addCodeError, formatError, bind, ret, modify.
  destruct (generateCodeSnippet E filePath (ce_line error) (ce_column error) st)
    as [[[snippet|e|c] st1] out]; cbn in *; exact Hc.
Qed.

Lemma addCodeError_cached error st content :
  fileCache st !! filePath = Some content ->
  printed (addCodeError E filePath error st) = []
  /\ fileCache (final (addCodeError E filePath error st)) = fileCache st.
Proof.
  intros Hcached.
  destruct (generateCodeSnippet_cached (ce_line error) (ce_column error) st content Hcached)
    as (snippet & Hrun).
  unfold addCodeError, formatError, bind, ret, modify. rewrite Hrun. cbn.
  split; reflexivity.
Qed.

Lemma addCodeErrors_cached errors st content :
  fileCache st !! filePath = Some content ->
  printed (JSXHardcodeChecker.addCodeErrors E filePath errors st) = [].
Proof.
  revert st. induction errors as [|error r IH]; intros st Hcached; [reflexivity|].
  cbn [JSXHardcodeChecker.addCodeErrors].
  destruct (addCodeError_cached error st content Hcached) as [Hprinted Hcache].
  destruct (addCodeError_run E filePath error st) as (snippet & st1 & out & Hrun & _).
  rewrite Hrun in Hprinted, Hcache. cbn in Hprinted, Hcache. subst out.
  unfold bind. rewrite Hrun.
  specialize (IH st1). rewrite Hcache in IH. specialize (IH Hcached).
  destruct (JSXHardcodeChecker.addCodeErrors E filePath r st1) as [[res st2] out2].
  cbn in IH |- *. exact IH.
Qed.

Lemma addCodeErrors_stored errors st :
  exists st' out,
    JSXHardcodeChecker.addCodeErrors E filePath errors st = (Returned tt, st', out)
    /\ map withoutSnippet (codeErrors st')
       = map withoutSnippet (codeErrors st) ++ map withoutSnippet errors
    /\ map withoutSnippet (default [] (fileErrors st' !! filePath))
       = map withoutSnippet (default [] (fileErrors st !! filePath))
         ++ map withoutSnippet errors
    /\ (forall other, other <> filePath -> fileErrors st' !! other = fileErrors st !! other).
Proof.
  revert st. induction errors as [|error r IH]; intros st.
  - exists st, []. split; [reflexivity|]. rewrite !app_nil_r. auto.
  - cbn [JSXHardcodeChecker.addCodeErrors].
    destruct (addCodeError_run E filePath error st)
      as (snippet & st1 & out1 & Hrun & Hfiles & Hcodes).
    destruct (IH st1) as (st2 & out2 & Hrest & Hcodes2 & Hfiles2 & Hother2).
    exists st2, (out1 ++ out2). split; [|split; [|split]].
    + unfold bind. rewrite Hrun, Hrest. reflexivity.
    + rewrite Hcodes2, Hcodes, map_app, <- app_assoc. reflexivity.
    + rewrite Hfiles2, Hfiles, lookup_insert_eq. simpl.
      rewrite map_app, <- app_assoc. reflexivity.
    + intros other Hother. rewrite (Hother2 other Hother), Hfiles.
      apply lookup_insert_ne. congruence.
Qed.

End TypeScriptReporter.

(** X21.  The TypeScript reporter keeps what it is given: after the
    findings of a file have been added, its list of diagnostics and the
    list it holds for the file have grown by these findings, in their order
    and with every field but the snippet as it was given, and the lists of
    the other files are as before.  Adding never throws. *)
Theorem addCodeErrors_keeps_findings E filePath errors st :
  exists st' out,
    JSXHardcodeChecker.addCodeErrors E filePath errors st = (Returned tt, st', out)
    /\ map Vocabulary.withoutSnippet (ErrorReporter.codeErrors st')
       = map Vocabulary.withoutSnippet (ErrorReporter.codeErrors st)
         ++ map Vocabulary.withoutSnippet errors
    /\ map Vocabulary.withoutSnippet
         (default [] (ErrorReporter.fileErrors st' !! filePath))
       = map Vocabulary.withoutSnippet
           (default [] (ErrorReporter.fileErrors st !! filePath))
         ++ map Vocabulary.withoutSnippet errors
    /\ (forall other, other <> filePath ->
          ErrorReporter.fileErrors st' !! other = ErrorReporter.fileErrors st !! other).
Proof. apply addCodeErrors_stored. Qed.

(** X22.  The TypeScript reporter reads a file, and warns that it cannot be
    read, at most once: of the findings of one file only the first can
    print, the others are formatted from the cache. *)
Theorem unreadable_file_warned_once E filePath error errors st :
  printed (JSXHardcodeChecker.addCodeErrors E filePath (error :: errors) st)
  = printed (ErrorReporter.addCodeError E filePath error st).
Proof.
  cbn [JSXHardcodeChecker.addCodeErrors].
  pose proof (addCodeError_caches E filePath error st) as [content Hcached].
  destruct (addCodeError_run E filePath error st) as (snippet & st1 & out & Hrun & _).
  rewrite Hrun in Hcached |- *. cbn in Hcached.
  pose proof (addCodeErrors_cached E filePath errors st1 content Hcached) as Hrest.
  unfold bind. rewrite Hrun.
  destruct (JSXHardcodeChecker.addCodeErrors E filePath errors st1) as [[res st2] out2].
  cbn in Hrest |- *. subst out2. apply app_nil_r.
Qed.

(** ** The verdict of the toast check and the files of the TypeScript checker *)

(** X23.  [checkFiles] of the toast checker never ends the process, and
    when it returns it has printed the report as its last line, whatever the
    number of findings; its verdict is [true] exactly when the loop over the
    files that [glob] gives returns no finding. *)
Theorem toast_checkFiles_verdict E o patterns st :
  let r := ToastFiles.checkFiles E o patterns st in
  match outcome r with
  | Returned verdict =>
      exists files allErrors report,
        glob E (JSXHardcodedChecker.includePatterns_of patterns)
          (JSXHardcodedChecker.defaultIgnores
             ++ JSXHardcodedChecker.excludePatterns_of patterns)
        = inr files
        /\ outcome (flat_mapM (ToastFiles.checkFile E o) files st) = Returned allErrors
        /\ EnhancedErrorReporter.generateReport E allErrors = Some report
        /\ verdict = (length allErrors =? 0)%nat
        /\ last (printed r) = Some {| channel := "log"; text := report |}
  | Thrown _ => True
  | Exited _ => False
  end.
Proof.
  cbv zeta. remember (ToastFiles.checkFiles E o patterns st) as r eqn:Hr.
  unfold ToastFiles.checkFiles, ToastFiles.checkFilesWith in Hr.
  unfold bind at 1 2 3 in Hr. unfold log at 1 2 3 in Hr. cbv beta iota zeta in Hr.
  destruct (glob E (JSXHardcodedChecker.includePatterns_of patterns)
              (JSXHardcodedChecker.defaultIgnores
                 ++ JSXHardcodedChecker.excludePatterns_of patterns))
    as [e|files] eqn:Hglob; [subst r; exact I|].
  unfold bind at 1 in Hr. unfold log at 1 in Hr. cbv beta iota zeta in Hr.
  unfold bind at 1 in Hr.
  change (flat_mapM
            (fun file => ToastFiles.checkFileWith E (ToastFiles.visit E o file) file)
            files st)
    with (flat_mapM (ToastFiles.checkFile E o) files st) in Hr.
  pose proof (flat_mapM_no_exit (ToastFiles.checkFile E o)
                (fun file st0 c0 => toast_checkFile_no_exit E o file st0 c0) files st)
    as Hloop.
  destruct (flat_mapM (ToastFiles.checkFile E o) files st)
    as [[[allErrors|e|c] st1] out1] eqn:Hrun.
  - destruct (EnhancedErrorReporter.generateReport E allErrors) as [report|] eqn:Hreport;
      [|subst r; exact I].
    cbn in Hr. subst r. cbn [outcome printed fst snd].
    exists files, allErrors, report.
    split; [reflexivity|]. split; [rewrite Hrun; reflexivity|].
    split; [exact Hreport|]. split; [reflexivity|].
    rewrite !app_comm_cons. apply last_snoc.
  - subst r. exact I.
  - exfalso. exact (Hloop c eq_refl).
Qed.

Section TypeScriptFiles.

Import JSXHardcodedChecker.

Lemma includePatterns_of_idem patterns :
  includePatterns_of (includePatterns_of patterns) = includePatterns_of patterns.
Proof.
  unfold includePatterns_of. induction patterns as [|p r IH]; [reflexivity|].
  cbn [List.filter]. destruct (negb (is_exclusion p)) eqn:Hp; [|exact IH].
  cbn [List.filter]. rewrite Hp, IH. reflexivity.
Qed.

Lemma excludePatterns_of_includes patterns :
  excludePatterns_of (includePatterns_of patterns) = [].
Proof.
  unfold excludePatterns_of, includePatterns_of.
  induction patterns as [|p r IH]; [reflexivity|].
  cbn [List.filter]. destruct (is_exclusion p) eqn:Hp; cbn [negb]; [exact IH|].
  cbn [List.filter]. rewrite Hp. exact IH.
Qed.

End TypeScriptFiles.

(** X24.  The files of the TypeScript checker: [getFiles] splits the
    patterns it is given a second time, which changes nothing, and [glob]
    receives the patterns of the command line without a [!] to look in and
    those with a [!], stripped of it, to ignore.  Nothing else is ignored:
    the test, story and dependency folders that the [.mjs] checker leaves
    out are searched. *)
Theorem ts_getFiles_patterns E (patterns : list jsstring) :
  JSXHardcodeChecker.getFiles E (JSXHardcodeChecker.getPatterns patterns).1
    (JSXHardcodeChecker.getPatterns patterns).2
  = glob E (JSXHardcodedChecker.includePatterns_of patterns)
      (JSXHardcodedChecker.excludePatterns_of patterns).
Proof.
  unfold JSXHardcodeChecker.getFiles, JSXHardcodeChecker.getPatterns. cbn [fst snd].
  rewrite includePatterns_of_idem, excludePatterns_of_includes. reflexivity.
Qed.

Section Display.

Import IntegratedHardcodingChecker Vocabulary.

Lemma startsWith_nil s : startsWith s [] = true.
Proof. destruct s; reflexivity. Qed.

Lemma includes_tail c a p : includes (c :: a) p = false -> includes a p = false.
Proof. cbn [includes]. intros H. apply orb_false_iff in H. tauto. Qed.

Lemma suffix_not_inside c a :
  includes (c :: a) (js "**/*") = false ->
  startsWith (c :: a ++ suffix) suffix = false.
Proof.
  intros Hinc. apply not_true_is_false. intros Hsw.
  pose proof (includes_tail _ _ _ Hinc) as Ha.
  unfold suffix in Hsw. revert Hinc Ha Hsw. read_literals. intros Hinc Ha Hsw.
  destruct a as [|x1 [|x2 [|x3 [|x4 a']]]]; cbn [app startsWith] in Hsw;
    repeat (apply andb_true_iff in Hsw; destruct Hsw as [? Hsw]);
    repeat match goal with H : (_ =? _)%N = true |- _ => apply N.eqb_eq in H end;
    try congruence.
  subst. cbn in Ha. rewrite startsWith_nil in Ha. discriminate Ha.
Qed.

Lemma replace_first_suffix arg :
  includes arg (js "**/*") = false -> replace_first (arg ++ suffix) suffix [] = arg.
Proof.
  induction arg as [|c a IH]; intros Hinc.
  - vm_compute. reflexivity.
  - cbn [app replace_first]. rewrite (suffix_not_inside c a Hinc).
    rewrite IH by exact (includes_tail _ _ _ Hinc). reflexivity.
Qed.

End Display.

(** X25.  What [runAllChecks] prints as its target is what was typed: for
    an argument that is not empty, is not an exclusion and holds no [**/*],
    the pattern that [handleCLI] makes of it is shown as the argument
    itself.  The default pattern is shown as [src]. *)
Theorem displayed_target_is_the_argument (arg : jsstring) :
  arg <> [] ->
  startsWith arg (js "!") = false ->
  includes arg (js "**/*") = false ->
  IntegratedHardcodingChecker.displayPattern (Vocabulary.patternOf arg) = arg
  /\ IntegratedHardcodingChecker.displayPattern (js "src/**/*.{js,jsx,ts,tsx}") = js "src".
Proof.
  intros Hne Hbang Hglob. split; [|vm_compute; reflexivity].
  unfold Vocabulary.patternOf. rewrite Hbang, Hglob. cbn [negb andb].
  unfold IntegratedHardcodingChecker.displayPattern.
  assert (Hfirst : startsWith (arg ++ IntegratedHardcodingChecker.suffix) (js "!") = false).
  { destruct arg as [|c a]; [congruence|]. revert Hbang. read_literals.
    cbn [app startsWith]. rewrite !startsWith_nil. exact (fun H => H). }
  rewrite Hfirst, (replace_first_suffix arg Hglob).
  destruct arg; [congruence|reflexivity].
Qed.

Lemma displayed_target_is_the_argument_witness :
  js "components" <> []
  /\ startsWith (js "components") (js "!") = false
  /\ includes (js "components") (js "**/*") = false
  /\ IntegratedHardcodingChecker.displayPattern (Vocabulary.patternOf (js "components"))
     = js "components"
  /\ IntegratedHardcodingChecker.displayPattern (js "src/**/*.{js,jsx,ts,tsx}") = js "src".
Proof.
  assert (Hne : js "components" <> []) by (vm_compute; discriminate).
  assert (Hbang : startsWith (js "components") (js "!") = false)
    by (vm_compute; reflexivity).
  assert (Hglob : includes (js "components") (js "**/*") = false)
    by (vm_compute; reflexivity).
  split; [exact Hne|]. split; [exact Hbang|]. split; [exact Hglob|].
  exact (displayed_target_is_the_argument (js "components") Hne Hbang Hglob).
Defined.
